(** * arbeitszeit: the record / aggregation engine

    A shallow embedding of the two variants of the work-time ledger,
    [src/arbeitszeit/main.py] (pydantic models, [Module Main]) and
    [src/vanilla.py] (plain classes, [Module Vanilla]), together with the
    parts of Python's [re] and [datetime] that they call.

    Conventions of the embedding:
    - a [str] is a [string] of ASCII characters;
    - a raising function returns [result A]: [Ok a] or [Raise e];
    - [dt.date] is a triple of integers, [dt.time] has the four fields of
      the Python class, [dt.timedelta] is its total number of microseconds
      (Python normalises to days / seconds / microseconds, see [td_days] and
      [td_seconds]); the +-999999999 day limit of [timedelta] is not modelled;
    - [today()] and [now()] read the clock: the operations that call them
      take the value read as an argument;
    - [record], [Day] and [DB] hold values of the annotated types, a day as
      its date; the definitions named [..._any] hold what the code stores
      when it is given something else: the [str] of the command line for a
      time, the [datetime] of [strptime] for a day. *)

From Stdlib Require Import ZArith List String Ascii Bool Lia DecimalString Permutation.
Import ListNotations.

Local Open Scope string_scope.
Local Open Scope Z_scope.

(** ** Exceptions and results *)

Inductive exn : Type :=
| AssertionError (msg : string)     (* a failed [assert], with its message *)
| ValueError                        (* strptime, tuple unpacking *)
| TypeError                         (* re.match on something that is no str *)
| AttributeError                    (* an attribute that the object does not have *)
| ValidationError (msg : string)    (* pydantic, wrapping a validator's ValueError *)
| SystemExit (code : Z).            (* exit(code) *)

Inductive result (A : Type) : Type :=
| Ok (a : A)
| Raise (e : exn).
Arguments Ok {A} a.
Arguments Raise {A} e.

Definition bind {A B : Type} (c : result A) (k : A -> result B) : result B :=
  match c with
  | Ok a => k a
  | Raise e => Raise e
  end.

Notation "x <- c ;; k" := (bind c (fun x => k))
  (at level 61, c at next level, right associativity).
Notation "c ;;; k" := (bind c (fun _ => k))
  (at level 61, right associativity).

Definition assert (b : bool) (msg : string) : result unit :=
  if b then Ok tt else Raise (AssertionError msg).

Definition is_ok {A : Type} (c : result A) : bool :=
  match c with Ok _ => true | Raise _ => false end.

(** ** Strings *)

Definition LF : ascii := ascii_of_nat 10.
Definition SP : ascii := " "%char.

(** [s[n:]] *)
Fixpoint drop (n : nat) (s : string) : string :=
  match n, s with
  | O, _ => s
  | S _, EmptyString => EmptyString
  | S n', String _ s' => drop n' s'
  end.

(** [s.split(sep)] for a one-character separator: every occurrence splits,
    empty fields are kept. *)
Fixpoint split (sep : ascii) (s : string) : list string :=
  match s with
  | EmptyString => [EmptyString]
  | String c s' =>
      if Ascii.eqb c sep then EmptyString :: split sep s'
      else match split sep s' with
           | [] => [String c EmptyString]
           | w :: ws => String c w :: ws
           end
  end.

(** [sep.join(l)] *)
Fixpoint join (sep : string) (l : list string) : string :=
  match l with
  | [] => EmptyString
  | [w] => w
  | w :: ws => w ++ sep ++ join sep ws
  end.

(** [line.replace("\n", "")] *)
Fixpoint remove_lf (s : string) : string :=
  match s with
  | EmptyString => EmptyString
  | String c s' => if Ascii.eqb c LF then remove_lf s' else String c (remove_lf s')
  end.

(** [file.readlines()]: the lines of the content, each with its terminator. *)
Fixpoint readlines_aux (cur : string) (s : string) : list string :=
  match s with
  | EmptyString => match cur with EmptyString => [] | _ => [cur] end
  | String c s' =>
      if Ascii.eqb c LF then (cur ++ String c EmptyString) :: readlines_aux EmptyString s'
      else readlines_aux (cur ++ String c EmptyString) s'
  end.
Definition readlines (content : string) : list string := readlines_aux EmptyString content.

(** [l.index(x)]: the position of the first element equal to [x]. *)
Fixpoint index (x : string) (l : list string) : option nat :=
  match l with
  | [] => None
  | y :: l' => if String.eqb y x then Some O
               else match index x l' with Some i => Some (S i) | None => None end
  end.

(** Decimal rendering of a non-negative integer, as [str(n)] and [{n}]. *)
Definition dec (n : Z) : string := NilZero.string_of_uint (N.to_uint (Z.to_N n)).

(** [f"{n:02}"] for [n >= 0]: at least two digits, zero padded. *)
Definition fmt02 (n : Z) : string := if n <? 10 then "0" ++ dec n else dec n.

Definition digit_char (d : Z) : ascii := ascii_of_nat (48 + Z.to_nat d).

Definition is_digit (c : ascii) : bool :=
  let n := nat_of_ascii c in (48 <=? n)%nat && (n <=? 57)%nat.

Definition digit_val (c : ascii) : Z := Z.of_nat (nat_of_ascii c) - 48.

(** The value of a string of decimal digits, [None] when a character is not one. *)
Fixpoint digits_val_aux (acc : Z) (s : string) : option Z :=
  match s with
  | EmptyString => Some acc
  | String c s' => if is_digit c then digits_val_aux (10 * acc + digit_val c) s' else None
  end.
Definition digits_val (s : string) : option Z :=
  match s with EmptyString => None | _ => digits_val_aux 0 s end.

(** ** Python's [re], as far as the program uses it

    The patterns of the program are built from literal characters, character
    classes, bounded repetition [r{n}] and alternation.  [ends r s] lists, in
    the order in which a backtracking matcher tries them, the suffixes of [s]
    left over after a match of [r] at the start of [s].  [re.match] reports a
    match also when only a prefix of the string is consumed, and the program
    only tests its result for truth. *)

Module Re.

Inductive re : Type :=
| Chr (c : ascii)
| Cls (p : ascii -> bool)
| Eps
| Seq (a b : re)
| Alt (a b : re).

Fixpoint ends (r : re) (s : string) : list string :=
  match r with
  | Chr c => match s with
             | String c' s' => if Ascii.eqb c' c then [s'] else []
             | EmptyString => []
             end
  | Cls p => match s with
             | String c' s' => if p c' then [s'] else []
             | EmptyString => []
             end
  | Eps => [s]
  | Seq a b => flat_map (ends b) (ends a s)
  | Alt a b => ends a s ++ ends b s
  end.

Definition matches (r : re) (s : string) : bool :=
  match ends r s with [] => false | _ :: _ => true end.

(** A run of literal characters. *)
Fixpoint lit (w : string) : re :=
  match w with
  | EmptyString => Eps
  | String c w' => Seq (Chr c) (lit w')
  end.

(** [r{n}] *)
Fixpoint rep (n : nat) (r : re) : re :=
  match n with
  | O => Eps
  | S n' => Seq r (rep n' r)
  end.

(** The class [[a-b]]. *)
Definition range (a b : ascii) (c : ascii) : bool :=
  (nat_of_ascii a <=? nat_of_ascii c)%nat && (nat_of_ascii c <=? nat_of_ascii b)%nat.

(** [[0-9]] *)
Definition digit : re := Cls (range "0" "9").
(** [[A-z ]]: the code points from A to z, and the space. *)
Definition A_z_space : re := Cls (fun c => range "A" "z" c || Ascii.eqb c SP).

End Re.

(** What the program hands to [re.match]: a string, or by a slip of names a
    module-level function (see [from_end] / [from_stop]). *)
Inductive pyval : Type :=
| PyStr (s : string)
| PyFunction (name : string).

(** [re.match(pattern, v)], tested for truth; a [TypeError] when [v] is not a string. *)
Definition re_match (r : Re.re) (v : pyval) : result bool :=
  match v with
  | PyStr s => Ok (Re.matches r s)
  | PyFunction _ => Raise TypeError
  end.

(** ** Python's [datetime], as far as the program uses it *)

Module Dt.

Record date : Type := mkdate { year : Z; month : Z; day : Z }.
Record time : Type := mktime { hour : Z; minute : Z; second : Z; microsecond : Z }.
(** A [timedelta] is its total number of microseconds. *)
Definition timedelta : Type := Z.

Definition date_eqb (a b : date) : bool :=
  (year a =? year b) && (month a =? month b) && (day a =? day b).

Definition is_leap (y : Z) : bool :=
  (y mod 4 =? 0) && (negb (y mod 100 =? 0) || (y mod 400 =? 0)).

Definition days_in_month (y m : Z) : Z :=
  if m =? 2 then (if is_leap y then 29 else 28)
  else if (m =? 4) || (m =? 6) || (m =? 9) || (m =? 11) then 30
  else 31.

Definition days_before_year (y : Z) : Z :=
  let p := y - 1 in p * 365 + p / 4 - p / 100 + p / 400.

Fixpoint days_before_month_aux (y : Z) (n : nat) : Z :=
  match n with
  | O => 0
  | S n' => days_before_month_aux y n' + days_in_month y (Z.of_nat n)
  end.
(** The days of the year that precede the first day of month [m]. *)
Definition days_before_month (y m : Z) : Z := days_before_month_aux y (Z.to_nat (m - 1)).

(** [_ymd2ord]: 0001-01-01 is day 1. *)
Definition ymd2ord (y m d : Z) : Z := days_before_year y + days_before_month y m + d.
Definition toordinal (d : date) : Z := ymd2ord (year d) (month d) (day d).

(** [date.weekday()]: Monday is 0. *)
Definition weekday (d : date) : Z := (toordinal d + 6) mod 7.

Definition isoweek1monday (y : Z) : Z :=
  let firstday := ymd2ord y 1 1 in
  let firstweekday := (firstday + 6) mod 7 in
  let week1monday := firstday - firstweekday in
  if 3 <? firstweekday then week1monday + 7 else week1monday.

(** [date.isocalendar()], without its third component: ISO year and week. *)
Definition isocalendar (d : date) : Z * Z :=
  let y := year d in
  let today := toordinal d in
  let w := (today - isoweek1monday y) / 7 in
  if w <? 0 then (y - 1, (today - isoweek1monday (y - 1)) / 7 + 1)
  else if (52 <=? w) && (isoweek1monday (y + 1) <=? today) then (y + 1, 1)
  else (y, w + 1).

Definition date_valid (d : date) : bool :=
  (1 <=? year d) && (year d <=? 9999) && (1 <=? month d) && (month d <=? 12)
  && (1 <=? day d) && (day d <=? days_in_month (year d) (month d)).

Definition time_valid (t : time) : bool :=
  (0 <=? hour t) && (hour t <? 24) && (0 <=? minute t) && (minute t <? 60)
  && (0 <=? second t) && (second t <? 60)
  && (0 <=? microsecond t) && (microsecond t <? 1000000).

(** Times compare as the tuples (hour, minute, second, microsecond). *)
Definition time_compare (a b : time) : comparison :=
  match hour a ?= hour b with
  | Eq => match minute a ?= minute b with
          | Eq => match second a ?= second b with
                  | Eq => microsecond a ?= microsecond b
                  | c => c
                  end
          | c => c
          end
  | c => c
  end.
(** [a > b] and [a <= b] on times. *)
Definition time_gtb (a b : time) : bool :=
  match time_compare a b with Gt => true | _ => false end.
Definition time_leb (a b : time) : bool := negb (time_gtb a b).

(** Microseconds since midnight. *)
Definition time_us (t : time) : Z :=
  ((hour t * 60 + minute t) * 60 + second t) * 1000000 + microsecond t.

(** [datetime.combine(d, b) - datetime.combine(d, a)] *)
Definition time_diff (b a : time) : timedelta := time_us b - time_us a.

Definition td (hours minutes : Z) : timedelta := (hours * 60 + minutes) * 60 * 1000000.

Definition us_per_day : Z := 86400 * 1000000.
(** The normalised fields [timedelta.days] and [timedelta.seconds]. *)
Definition td_days (t : timedelta) : Z := t / us_per_day.
Definition td_seconds (t : timedelta) : Z := (t mod us_per_day) / 1000000.

End Dt.

(** ** [strftime] and [strptime] for the three formats of the program

    [strptime] compiles a format into a pattern, matches it at the start of
    the text and fails with [ValueError] when no match is found, when text is
    left over, or when the fields are no calendar date.  Directive by
    directive the patterns are
    [%Y] = four digits, [%m] = [1[0-2]|0[1-9]|[1-9]],
    [%d] = [3[01]|[12]\d|0[1-9]|[1-9]| [1-9]], [%H] = [2[0-3]|[0-1]\d|\d],
    [%M] = [[0-5]\d|\d]; the fields below accept exactly these texts. *)

(** [%Y] is modelled for years of four digits: below 1000 it depends on the C
    library whether the year is padded, and the properties that follow only
    format years from 1000 on. *)
Definition two_digits (n : Z) : string :=
  String (digit_char (n / 10)) (String (digit_char (n mod 10)) EmptyString).
Definition four_digits (n : Z) : string :=
  String (digit_char (n / 1000)) (String (digit_char (n / 100 mod 10)) (two_digits (n mod 100))).

(** [%a] in the C locale. *)
Definition day_abbr (w : Z) : string :=
  if w =? 0 then "Mon" else if w =? 1 then "Tue" else if w =? 2 then "Wed"
  else if w =? 3 then "Thu" else if w =? 4 then "Fri" else if w =? 5 then "Sat"
  else "Sun".

(** [d.strftime("%a %Y-%m-%d")] *)
Definition strftime_a_Ymd (d : Dt.date) : string :=
  day_abbr (Dt.weekday d) ++ " " ++ four_digits (Dt.year d) ++ "-"
  ++ two_digits (Dt.month d) ++ "-" ++ two_digits (Dt.day d).

(** [t.strftime("%H:%M")] *)
Definition strftime_HM (t : Dt.time) : string :=
  two_digits (Dt.hour t) ++ ":" ++ two_digits (Dt.minute t).

(** A field of one or two digits with a value between [lo] and [hi]. *)
Definition field12 (lo hi : Z) (s : string) : option Z :=
  match digits_val s with
  | Some v => if (String.length s <=? 2)%nat && (lo <=? v) && (v <=? hi) then Some v else None
  | None => None
  end.

Definition field_Y (s : string) : option Z :=
  if (String.length s =? 4)%nat then digits_val s else None.
Definition field_m (s : string) : option Z := field12 1 12 s.
Definition field_d (s : string) : option Z :=
  match s with
  | String c (String c' EmptyString) =>
      if Ascii.eqb c SP then field12 1 9 (String c' EmptyString) else field12 1 31 s
  | _ => field12 1 31 s
  end.
Definition field_H (s : string) : option Z := field12 0 23 s.
Definition field_M (s : string) : option Z := field12 0 59 s.

(** [datetime.strptime(text, "%Y-%m-%d")]: a datetime at midnight, kept as its date. *)
Definition strptime_Ymd (text : string) : result Dt.date :=
  match split "-" text with
  | [y; m; d] =>
      match field_Y y, field_m m, field_d d with
      | Some y', Some m', Some d' =>
          let r := Dt.mkdate y' m' d' in
          if Dt.date_valid r then Ok r else Raise ValueError
      | _, _, _ => Raise ValueError
      end
  | _ => Raise ValueError
  end.

(** [datetime.strptime(text, "%H:%M")]: hour and minute, everything else 0. *)
Definition strptime_HM (text : string) : result Dt.time :=
  match split ":" text with
  | [h; m] =>
      match field_H h, field_M m with
      | Some h', Some m' => Ok (Dt.mktime h' m' 0 0)
      | _, _ => Raise ValueError
      end
  | _ => Raise ValueError
  end.

(** ** UTILS: the functions that read the same in both files *)

Definition NONE_TIME : string := "--:--".

Definition text_to_date (text : string) : result Dt.date := strptime_Ymd text.

Definition date_to_text (date : Dt.date) : string := strftime_a_Ymd date.

Definition text_to_time (text : string) : result (option Dt.time) :=
  if String.eqb text NONE_TIME then Ok None
  else t <- strptime_HM text ;; Ok (Some t).

(** [text_to_time] on whatever value the caller's name is bound to. *)
Definition text_to_time_of (v : pyval) : result (option Dt.time) :=
  match v with
  | PyStr text => text_to_time text
  | PyFunction _ => Raise TypeError
  end.

Definition time_to_text (time : option Dt.time) : string :=
  match time with
  | None => NONE_TIME
  | Some t => strftime_HM t
  end.

Definition timedelta_to_text (timedelta : option Dt.timedelta) : string :=
  match timedelta with
  | None => NONE_TIME
  | Some t =>
      let hours := Dt.td_seconds t / 3600 in
      let minutes := (Dt.td_seconds t / 60) mod 60 in
      fmt02 hours ++ ":" ++ fmt02 minutes
  end.

Definition signed_timedelta_to_text (timedelta : option Dt.timedelta) : string :=
  match timedelta with
  | None => NONE_TIME
  | Some t =>
      let '(t', sign) := if Dt.td_days t <? 0 then (0 - t, "-") else (t, "+") in
      let hours := Dt.td_seconds t' / 3600 in
      let minutes := (Dt.td_seconds t' / 60) mod 60 in
      sign ++ fmt02 hours ++ ":" ++ fmt02 minutes
  end.

Definition text_to_timedelta (text : string) : result (option Dt.timedelta) :=
  if String.eqb text NONE_TIME then Ok None
  else t <- strptime_HM text ;; Ok (Some (Dt.td (Dt.hour t) (Dt.minute t))).

Definition sum_timedeltas (timedeltas : list Dt.timedelta) : Dt.timedelta :=
  fold_left Z.add timedeltas 0.

(** [None in l] *)
Definition has_none {A : Type} (l : list (option A)) : bool :=
  existsb (fun o => match o with None => true | Some _ => false end) l.

(** The values of a list of options none of which is [None]. *)
Fixpoint somes {A : Type} (l : list (option A)) : list A :=
  match l with
  | [] => []
  | Some a :: l' => a :: somes l'
  | None :: l' => somes l'
  end.

(** ** Values that are not of the annotated type

    Python checks no annotation.  The time that [start], [end] and [stop]
    are given is the [dt.time] of [now()] or the [str] of the command line,
    which the commands pass on as it is; the day of a record is the [date]
    of [today()] or the [datetime] at midnight that [text_to_date] returns
    ([strptime] without [.date()]). *)

Inductive timeval : Type :=
| VTime (t : Dt.time)
| VStr (s : string).

Inductive dayval : Type :=
| VDate (d : Dt.date)
| VDatetime (d : Dt.date).          (* the datetime at 00:00 of [d] *)

Definition date_of (v : dayval) : Dt.date :=
  match v with VDate d => d | VDatetime d => d end.

(** [a == b], also as [dict] keys: a [datetime] is never equal to a [date]. *)
Definition dayval_eqb (a b : dayval) : bool :=
  match a, b with
  | VDate x, VDate y => Dt.date_eqb x y
  | VDatetime x, VDatetime y => Dt.date_eqb x y
  | _, _ => false
  end.

(** [a <= b]: times by the clock, texts by their characters, and a
    [TypeError] for a time and a text. *)
Definition timeval_leb (a b : timeval) : result bool :=
  match a, b with
  | VTime x, VTime y => Ok (Dt.time_leb x y)
  | VStr x, VStr y => Ok (String.leb x y)
  | _, _ => Raise TypeError
  end.

(** [date_to_text(date)]: [strftime] of a [datetime] gives what that of its
    date gives. *)
Definition date_to_text_any (date : dayval) : string := date_to_text (date_of date).

(** [time_to_text(time)]: a [str] has no [strftime]. *)
Definition time_to_text_any (time : option timeval) : result string :=
  match time with
  | None => Ok NONE_TIME
  | Some (VTime t) => Ok (strftime_HM t)
  | Some (VStr _) => Raise AttributeError
  end.

(** [f(x) for x in l], up to the first exception. *)
Fixpoint collect {A B : Type} (f : A -> result B) (l : list A) : result (list B) :=
  match l with
  | [] => Ok []
  | x :: l' => y <- f x ;; ys <- collect f l' ;; Ok (y :: ys)
  end.

(** ** Insertion-ordered dictionaries

    [days] and [weeks] build a [dict] and return its [values()]: a new key
    goes to the end, an existing key keeps its place. *)

Section Dict.
Context {K V : Type} (eqb : K -> K -> bool).

Definition dict : Type := list (K * V).

Fixpoint dict_mem (k : K) (d : dict) : bool :=
  match d with
  | [] => false
  | (k', _) :: d' => eqb k' k || dict_mem k d'
  end.

(** [d[k] = v] for a key that is not in [d]. *)
Definition dict_add (k : K) (v : V) (d : dict) : dict := (d ++ [(k, v)])%list.

(** [d[k].f(...)]: the value under [k] is changed where it stands. *)
Fixpoint dict_update (k : K) (f : V -> result V) (d : dict) : result dict :=
  match d with
  | [] => Ok []
  | (k', v) :: d' =>
      if eqb k' k then v' <- f v ;; Ok ((k', v') :: d')
      else d'' <- dict_update k f d' ;; Ok ((k', v) :: d'')
  end.

Definition dict_values (d : dict) : list V := map snd d.
End Dict.

(** ** Files and output

    The ledger file is the only file the engine touches: [fs] gives the
    content of each path that is a file.  What [print] writes is collected as
    a list of lines next to the outcome. *)

Definition fs : Type := string -> option string.

Definition fs_write (f : fs) (path content : string) : fs :=
  fun p => if String.eqb p path then Some content else f p.

Definition io (A : Type) : Type := (list string * result A)%type.

Definition NL : string := String LF EmptyString.

(** ** [src/arbeitszeit/main.py] *)

Module Main.

Import Re.

(** [DATE_REGEX = r"[A-z ]{3} [0-9]{4}-[0-9]{2}-[0-9]{2}"] *)
Definition DATE_REGEX : re :=
  Seq (rep 3 A_z_space) (Seq (Chr " ") (Seq (rep 4 digit)
    (Seq (Chr "-") (Seq (rep 2 digit) (Seq (Chr "-") (rep 2 digit)))))).

(** [[0-9]{2}:[0-9]{2}], the first alternative of [TIME_REGEX]. *)
Definition HH_MM : re := Seq (rep 2 digit) (Seq (Chr ":") (rep 2 digit)).

(** [TIME_REGEX = "[0-9]{2}:[0-9]{2}|{NONE_TIME}"] is a plain string, not an
    f-string: its second alternative is the eleven characters [{NONE_TIME}]
    themselves ([{] opens no repetition here and stands for itself). *)
Definition BRACED_NAME : re := lit "{NONE_TIME}".
Definition TIME_REGEX : re := Alt HH_MM BRACED_NAME.

Definition is_date (date : string) : bool := matches DATE_REGEX date.

Definition is_time (time : pyval) : result bool := re_match TIME_REGEX time.

(** [f"{DATE_REGEX} {TIME_REGEX} {TIME_REGEX}"] is the pattern
    [[A-z ]{3} [0-9]{4}-[0-9]{2}-[0-9]{2} [0-9]{2}:[0-9]{2}|{NONE_TIME} [0-9]{2}:[0-9]{2}|{NONE_TIME}]:
    the two bars are at top level and split it into three alternatives. *)
Definition RECORD_REGEX : re :=
  Alt (Seq DATE_REGEX (Seq (Chr " ") HH_MM))
      (Alt (Seq BRACED_NAME (Seq (Chr " ") HH_MM))
           BRACED_NAME).

Definition is_record (text : string) : bool := matches RECORD_REGEX text.

(** *** class Record *)

Record record : Type := MkRecord {
  day : Dt.date;
  start : option Dt.time;
  end_ : option Dt.time
}.

Definition check_either_start_or_end (self : record) : result record :=
  match start self, end_ self with
  | None, None => Raise (ValidationError "Either start or end must be set!")
  | _, _ => Ok self
  end.

Definition check_start_before_end (self : record) : result record :=
  match start self, end_ self with
  | Some s, Some e =>
      if Dt.time_gtb s e then Raise (ValidationError "Start must come before end!")
      else Ok self
  | _, _ => Ok self
  end.

(** [Record(day=..., start=..., end=...)]: the fields are set, then the two
    model validators run in the order of their definition. *)
Definition Record_ (day : Dt.date) (start end_ : option Dt.time) : result record :=
  self <- check_either_start_or_end (MkRecord day start end_) ;;
  check_start_before_end self.

Definition from_text (text : string) : result record :=
  assert (is_record text) "" ;;;
  match split SP (drop 4 text) with
  | [day; start; end_] =>
      d <- text_to_date day ;;
      s <- text_to_time start ;;
      e <- text_to_time end_ ;;
      Record_ d s e
  | _ => Raise ValueError
  end.

Definition from_start (today : Dt.date) (start : string) : result record :=
  m <- is_time (PyStr start) ;;
  assert m "" ;;;
  assert (negb (String.eqb start NONE_TIME)) "" ;;;
  s <- text_to_time start ;;
  Record_ today s None.

(** In [from_end] the parameter is called [end], and the body reads [start]:
    that name is not local and resolves to the module-level function
    [start], the command defined further down in the file. *)
Definition global_start : pyval := PyFunction "start".

Definition from_end (today : Dt.date) (end_ : string) : result record :=
  m <- is_time global_start ;;
  assert m "" ;;;
  assert (negb (String.eqb end_ NONE_TIME)) "" ;;;
  e <- text_to_time_of global_start ;;
  Record_ today None e.

Definition worktime (self : record) : option Dt.timedelta :=
  match start self, end_ self with
  | Some s, Some e => Some (Dt.time_diff e s)
  | _, _ => None
  end.

Definition text (self : record) : string :=
  date_to_text (day self) ++ " " ++ time_to_text (start self) ++ " " ++ time_to_text (end_ self).

(** *** class Day *)

Record Day : Type := MkDay {
  Day_day : Dt.date;
  baseline : Dt.timedelta;
  Day_records : list record
}.

Definition from_record (r : record) (baseline : Dt.timedelta) : Day :=
  MkDay (day r) baseline [r].

Definition add_record (self : Day) (r : record) : result Day :=
  assert (Dt.date_eqb (day r) (Day_day self)) "Record must be from the same day!" ;;;
  Ok (MkDay (Day_day self) (baseline self) (Day_records self ++ [r])%list).

Definition Day_worktime (self : Day) : option Dt.timedelta :=
  let worktimes := map worktime (Day_records self) in
  if has_none worktimes then None
  else Some (sum_timedeltas (somes worktimes)).

Definition Day_delta (self : Day) : option Dt.timedelta :=
  match Day_worktime self with
  | None => None
  | Some worktime => Some (- (baseline self - worktime))
  end.

(** [Day.week]: the ISO year and week of [isocalendar()], which is what an
    [isoweek.Week] holds and compares by. *)
Definition week : Type := (Z * Z)%type.
Definition week_eqb (a b : week) : bool := (fst a =? fst b) && (snd a =? snd b).
Definition Day_week (self : Day) : week := Dt.isocalendar (Day_day self).

(** *** class Week *)

Record Week : Type := MkWeek {
  Week_week : week;
  days_of : list Day
}.

Definition from_day (d : Day) : Week := MkWeek (Day_week d) [d].

Definition add_day (self : Week) (d : Day) : result Week :=
  assert (week_eqb (Day_week d) (Week_week self)) "Day must be in the same week!" ;;;
  Ok (MkWeek (Week_week self) (days_of self ++ [d])%list).

Definition Week_worktime (self : Week) : option Dt.timedelta :=
  let worktimes := map Day_worktime (days_of self) in
  if has_none worktimes then None
  else Some (sum_timedeltas (somes worktimes)).

Definition Week_delta (self : Week) : option Dt.timedelta :=
  let deltas := map Day_delta (days_of self) in
  if has_none deltas then None
  else Some (sum_timedeltas (somes deltas)).

(** *** class DB *)

Record DB : Type := MkDB {
  path : string;
  DB_baseline : Dt.timedelta;
  records : list record
}.

(** The loop of [load]: [except: raise] hands the exception on as it is, the
    two statements after it are never reached. *)
Fixpoint load_loop (lines : list string) (records : list record) : result (list record) :=
  match lines with
  | [] => Ok records
  | line :: rest =>
      match from_text line with
      | Ok r => load_loop rest (records ++ [r])%list
      | Raise e => Raise e
      end
  end.

Definition load (f : fs) (path : string) : io (list record) :=
  match f path with
  | None => ([], Ok [])
  | Some content =>
      let lines := map remove_lf (readlines content) in
      ([], load_loop lines [])
  end.

(** [DB(config)], with the two values read from the configuration. *)
Definition DB_ (f : fs) (path : string) (baseline : Dt.timedelta) : io DB :=
  let '(out, r) := load f path in
  (out, records <- r ;; Ok (MkDB path baseline records)).

Definition save (self : DB) (f : fs) : fs :=
  fs_write f (path self) (join NL (map text (records self))).

Definition empty (self : DB) : bool := (List.length (records self) =? 0)%nat.

Definition last (self : DB) : result record :=
  assert (negb (empty self)) "DB is empty, no last record!" ;;;
  match rev (records self) with
  | r :: _ => Ok r
  | [] => Raise (AssertionError "DB is empty, no last record!")
  end.

Fixpoint days_loop (baseline : Dt.timedelta) (records : list record)
    (days : dict (K := Dt.date) (V := Day)) : result (list (Dt.date * Day)) :=
  match records with
  | [] => Ok days
  | r :: rest =>
      days' <- (if dict_mem Dt.date_eqb (day r) days
                then dict_update Dt.date_eqb (day r) (fun d => add_record d r) days
                else Ok (dict_add (day r) (from_record r baseline) days)) ;;
      days_loop baseline rest days'
  end.

Definition days (self : DB) : result (list Day) :=
  days <- days_loop (DB_baseline self) (records self) [] ;;
  Ok (dict_values days).

Fixpoint weeks_loop (ds : list Day) (weeks : dict (K := week) (V := Week))
    : result (list (week * Week)) :=
  match ds with
  | [] => Ok weeks
  | d :: rest =>
      weeks' <- (if dict_mem week_eqb (Day_week d) weeks
                 then dict_update week_eqb (Day_week d) (fun w => add_day w d) weeks
                 else Ok (dict_add (Day_week d) (from_day d) weeks)) ;;
      weeks_loop rest weeks'
  end.

Definition weeks (self : DB) : result (list Week) :=
  ds <- days self ;;
  weeks <- weeks_loop ds [] ;;
  Ok (dict_values weeks).

(** [start] and [end] on a [dt.time], the type of the fields of [Record]:
    this is what the commands pass when no time is given, [now()].  For the
    text of the command line see [DB_start_any] and [DB_end_any] below.  The
    new record's day is [today()]. *)
Definition DB_start (self : DB) (f : fs) (today : Dt.date) (time : Dt.time)
    : result (DB * fs) :=
  r <- Record_ today (Some time) None ;;
  let self' := MkDB (path self) (DB_baseline self) (records self ++ [r])%list in
  Ok (self', save self' f).

(** [self.last.end = time] is a plain attribute assignment: the model does
    not validate assignments, so no validator runs on it. *)
Definition set_last_end (rs : list record) (time : Dt.time) : list record :=
  match rev rs with
  | l :: before => (rev before ++ [MkRecord (day l) (start l) (Some time)])%list
  | [] => []
  end.

Definition DB_end (self : DB) (f : fs) (today : Dt.date) (time : Dt.time)
    : result (DB * fs) :=
  closed <- (if empty self then Ok true
             else l <- last self ;;
                  Ok (match end_ l with Some _ => true | None => false end)) ;;
  if (closed : bool) then
    r <- Record_ today None (Some time) ;;
    let self' := MkDB (path self) (DB_baseline self) (records self ++ [r])%list in
    Ok (self', save self' f)
  else
    l <- last self ;;
    let self' := MkDB (path self) (DB_baseline self) (set_last_end (records self) time) in
    Ok (self', save self' f).

(** *** [start] and [end] on any argument

    [DB_start] and [DB_end] above are the two methods on a [dt.time].  Here
    the argument is any [timeval].  [Record(start=time)] validates its
    fields: a [dt.time] is kept and a [str] is read by pydantic, which is
    [validate_time] below.  The assignment [self.last.end = time] validates
    nothing, so the field [end] of a record can hold a [str]. *)

Record record_any : Type := MkRecord_any {
  day_any : Dt.date;
  start_any : option Dt.time;
  end_any : option timeval
}.

(** A record as its constructor leaves it. *)
Definition validated (r : record) : record_any :=
  MkRecord_any (day r) (start r) (option_map VTime (end_ r)).

Definition text_any (self : record_any) : result string :=
  let day := date_to_text (day_any self) in
  let start := time_to_text (start_any self) in
  end_ <- time_to_text_any (end_any self) ;;
  Ok (day ++ " " ++ start ++ " " ++ end_).

Record DB_any : Type := MkDB_any {
  path_any : string;
  baseline_any : Dt.timedelta;
  records_any : list record_any
}.

(** [open(path, "w")] empties the file, then the texts are joined, and the
    exception of a text leaves [with] before anything is written. *)
Definition save_any (self : DB_any) (f : fs) : fs * result unit :=
  match collect text_any (records_any self) with
  | Ok texts => (fs_write f (path_any self) (join NL texts), Ok tt)
  | Raise e => (fs_write f (path_any self) EmptyString, Raise e)
  end.

(** [self.save()] as the last statement of a method that leaves [self']. *)
Definition saved (self' : DB_any) (f : fs) : fs * result DB_any :=
  let '(f', r) := save_any self' f in (f', r ;;; Ok self').

Definition empty_any (self : DB_any) : bool := (List.length (records_any self) =? 0)%nat.

Definition last_any (self : DB_any) : result record_any :=
  assert (negb (empty_any self)) "DB is empty, no last record!" ;;;
  match rev (records_any self) with
  | r :: _ => Ok r
  | [] => Raise (AssertionError "DB is empty, no last record!")
  end.

Definition set_last_end_any (rs : list record_any) (time : timeval) : list record_any :=
  match rev rs with
  | l :: before => (rev before ++ [MkRecord_any (day_any l) (start_any l) (Some time)])%list
  | [] => []
  end.

Section AnyArgument.
(** pydantic's validation of a [str] for a field of type [dt.time]: the time
    read, or the [ValidationError] raised. *)
Variable validate_time : string -> result Dt.time.

Definition as_time (time : timeval) : result Dt.time :=
  match time with
  | VTime t => Ok t
  | VStr s => validate_time s
  end.

Definition DB_start_any (self : DB_any) (f : fs) (today : Dt.date) (time : timeval)
    : fs * result DB_any :=
  match (t <- as_time time ;; Record_ today (Some t) None) with
  | Raise e => (f, Raise e)
  | Ok r =>
      saved (MkDB_any (path_any self) (baseline_any self)
               (records_any self ++ [validated r])%list) f
  end.

Definition DB_end_any (self : DB_any) (f : fs) (today : Dt.date) (time : timeval)
    : fs * result DB_any :=
  match (if empty_any self then Ok true
         else l <- last_any self ;;
              Ok (match end_any l with Some _ => true | None => false end)) with
  | Raise e => (f, Raise e)
  | Ok true =>
      match (t <- as_time time ;; Record_ today None (Some t)) with
      | Raise e => (f, Raise e)
      | Ok r =>
          saved (MkDB_any (path_any self) (baseline_any self)
                   (records_any self ++ [validated r])%list) f
      end
  | Ok false =>
      match last_any self with
      | Raise e => (f, Raise e)
      | Ok _ =>
          saved (MkDB_any (path_any self) (baseline_any self)
                   (set_last_end_any (records_any self) time)) f
      end
  end.
End AnyArgument.

End Main.

(** ** [src/vanilla.py] *)

Module Vanilla.

Import Re.

(** [REGEX_DATE = r"[0-9]{4}-[0-9]{2}-[0-9]{2}"] *)
Definition REGEX_DATE : re :=
  Seq (rep 4 digit) (Seq (Chr "-") (Seq (rep 2 digit) (Seq (Chr "-") (rep 2 digit)))).
(** [REGEX_DAY = r"[A-z ]{3}"] *)
Definition REGEX_DAY : re := rep 3 A_z_space.
(** [REGEX_TIME = "(" + "|".join(["[0-9]{2}:[0-9]{2}", NONE_TIME]) + ")"], the
    pattern [([0-9]{2}:[0-9]{2}|--:--)]. *)
Definition REGEX_TIME : re :=
  Alt (Seq (rep 2 digit) (Seq (Chr ":") (rep 2 digit))) (lit NONE_TIME).

Definition is_date (date : string) : bool := matches REGEX_DATE date.

Definition is_time (time : pyval) : result bool := re_match REGEX_TIME time.

(** [" ".join([REGEX_DAY, REGEX_DATE, REGEX_TIME, REGEX_TIME])] *)
Definition is_record (text : string) : bool :=
  matches (Seq REGEX_DAY (Seq (Chr " ") (Seq REGEX_DATE (Seq (Chr " ")
            (Seq REGEX_TIME (Seq (Chr " ") REGEX_TIME)))))) text.

(** *** class Record *)

Record record : Type := MkRecord {
  day : Dt.date;
  start : option Dt.time;
  stop : option Dt.time
}.

(** [Record(day, start, stop)]; [today] is what [today()] returns when [day]
    is left out. *)
Definition Record_ (today : Dt.date) (day : option Dt.date) (start stop : option Dt.time)
    : result record :=
  assert (match start, stop with None, None => false | _, _ => true end)
         "Either start or stop must be defined!" ;;;
  match start, stop with
  | Some s, Some e => assert (Dt.time_leb s e) "Start must come before stop!"
  | _, _ => Ok tt
  end ;;;
  Ok (MkRecord (match day with Some d => d | None => today end) start stop).

(** [today()] is not called when [day] is given: any date does for [today]. *)
Definition from_text (text : string) : result record :=
  assert (is_record text) "" ;;;
  match split SP (drop 4 text) with
  | [day; start; stop] =>
      d <- text_to_date day ;;
      s <- text_to_time start ;;
      e <- text_to_time stop ;;
      Record_ d (Some d) s e
  | _ => Raise ValueError
  end.

Definition from_start (today : Dt.date) (start : string) : result record :=
  m <- is_time (PyStr start) ;;
  assert m "" ;;;
  assert (negb (String.eqb start NONE_TIME)) "" ;;;
  s <- text_to_time start ;;
  Record_ today (Some today) s None.

(** As in the other file, [from_stop] reads [start], which is the
    module-level function [start(db, time)]. *)
Definition global_start : pyval := PyFunction "start".

Definition from_stop (today : Dt.date) (stop : string) : result record :=
  m <- is_time global_start ;;
  assert m "" ;;;
  assert (negb (String.eqb stop NONE_TIME)) "" ;;;
  e <- text_to_time_of global_start ;;
  Record_ today (Some today) None e.

Definition worktime (self : record) : option Dt.timedelta :=
  match start self, stop self with
  | Some s, Some e => Some (Dt.time_diff e s)
  | _, _ => None
  end.

Definition text (self : record) : string :=
  date_to_text (day self) ++ " " ++ time_to_text (start self) ++ " " ++ time_to_text (stop self).

(** *** class Day *)

Record Day : Type := MkDay {
  Day_day : Dt.date;
  worktime_reference : Dt.timedelta;
  Day_records : list record
}.

Definition from_record (r : record) (worktime_reference : Dt.timedelta) : Day :=
  MkDay (day r) worktime_reference [r].

Definition add_record (self : Day) (r : record) : result Day :=
  assert (Dt.date_eqb (day r) (Day_day self)) "Record must be from the same day!" ;;;
  Ok (MkDay (Day_day self) (worktime_reference self) (Day_records self ++ [r])%list).

Definition Day_worktime (self : Day) : option Dt.timedelta :=
  let worktimes := map worktime (Day_records self) in
  if has_none worktimes then None
  else Some (sum_timedeltas (somes worktimes)).

Definition Day_delta (self : Day) : option Dt.timedelta :=
  match Day_worktime self with
  | None => None
  | Some worktime => Some (worktime - worktime_reference self)
  end.

(** *** class DB *)

Record DB : Type := MkDB {
  path : string;
  DB_worktime : Dt.timedelta;
  records : list record
}.

(** The loop of [load] over [lines]; [all_lines] is the whole list, which
    [lines.index(line)] searches.  Only an [AssertionError] is caught: it is
    printed, followed by the place and an advice, and the process exits. *)
Fixpoint load_loop (path : string) (all_lines lines : list string) (records : list record)
    : io (list record) :=
  match lines with
  | [] => ([], Ok records)
  | line :: rest =>
      match from_text line with
      | Ok r => load_loop path all_lines rest (records ++ [r])%list
      | Raise (AssertionError error) =>
          match index line all_lines with
          | Some i =>
              ([error;
                path ++ "#L" ++ dec (Z.of_nat i) ++ ": Invalid record '" ++ line ++ "'!";
                "Edit " ++ path ++ " to correct the record."],
               Raise (SystemExit 1))
          | None => ([error], Raise ValueError)
          end
      | Raise e => ([], Raise e)
      end
  end.

Definition load (f : fs) (path : string) : io (list record) :=
  match f path with
  | None => ([], Ok [])
  | Some content =>
      let lines := map remove_lf (readlines content) in
      load_loop path lines lines []
  end.

(** [DB(path, worktime)] *)
Definition DB_ (f : fs) (path : string) (worktime : Dt.timedelta) : io DB :=
  let '(out, r) := load f path in
  (out, records <- r ;; Ok (MkDB path worktime records)).

Definition save (self : DB) (f : fs) : fs :=
  fs_write f (path self) (join NL (map text (records self))).

Definition empty (self : DB) : bool := (List.length (records self) =? 0)%nat.

Definition last (self : DB) : result record :=
  assert (negb (empty self)) "DB is empty, no last record!" ;;;
  match rev (records self) with
  | r :: _ => Ok r
  | [] => Raise (AssertionError "DB is empty, no last record!")
  end.

Fixpoint days_loop (worktime : Dt.timedelta) (records : list record)
    (days : dict (K := Dt.date) (V := Day)) : result (list (Dt.date * Day)) :=
  match records with
  | [] => Ok days
  | r :: rest =>
      days' <- (if dict_mem Dt.date_eqb (day r) days
                then dict_update Dt.date_eqb (day r) (fun d => add_record d r) days
                else Ok (dict_add (day r) (from_record r worktime) days)) ;;
      days_loop worktime rest days'
  end.

(** The days view of a ledger whose days are all of one type, as they are
    in every ledger that [load] returns; [days_any] below is the view of any
    ledger. *)
Definition days (self : DB) : result (list Day) :=
  days <- days_loop (DB_worktime self) (records self) [] ;;
  Ok (dict_values days).

(** [start] and [stop] on a [dt.time], which is what the commands pass when
    no time is given; for the text of the command line see [DB_start_any]
    and [DB_stop_any] below. *)
Definition DB_start (self : DB) (f : fs) (today : Dt.date) (time : Dt.time)
    : result (DB * fs) :=
  r <- Record_ today None (Some time) None ;;
  let self' := MkDB (path self) (DB_worktime self) (records self ++ [r])%list in
  Ok (self', save self' f).

(** [self.last.stop = time] sets the attribute of a plain object. *)
Definition set_last_stop (rs : list record) (time : Dt.time) : list record :=
  match rev rs with
  | l :: before => (rev before ++ [MkRecord (day l) (start l) (Some time)])%list
  | [] => []
  end.

Definition DB_stop (self : DB) (f : fs) (today : Dt.date) (time : Dt.time)
    : result (DB * fs) :=
  closed <- (if empty self then Ok true
             else l <- last self ;;
                  Ok (match stop l with Some _ => true | None => false end)) ;;
  if (closed : bool) then
    r <- Record_ today None None (Some time) ;;
    let self' := MkDB (path self) (DB_worktime self) (records self ++ [r])%list in
    Ok (self', save self' f)
  else
    l <- last self ;;
    let self' := MkDB (path self) (DB_worktime self) (set_last_stop (records self) time) in
    Ok (self', save self' f).

(** [Day.__str__] *)
Definition Day_str (self : Day) : string :=
  date_to_text (Day_day self) ++ ": " ++ timedelta_to_text (Day_worktime self)
  ++ " [" ++ signed_timedelta_to_text (Day_delta self) ++ "]".

(** [sum_timedeltas] on a list that may hold [None]: [sum] adds the elements
    to a timedelta one by one, and adding [None] is a [TypeError]. *)
Definition sum_timedeltas_of (timedeltas : list (option Dt.timedelta)) : result Dt.timedelta :=
  if has_none timedeltas then Raise TypeError else Ok (sum_timedeltas (somes timedeltas)).

(** [log(db)]: a line for each Day, then the totals on a line after an empty
    one (a single [print] whose text starts with a line feed). *)
Definition log (db : DB) : io unit :=
  match days db with
  | Raise e => ([], Raise e)
  | Ok ds =>
      let printed := map Day_str ds in
      match sum_timedeltas_of (map Day_worktime ds) with
      | Raise e => (printed, Raise e)
      | Ok total_worktime =>
          match sum_timedeltas_of (map Day_delta ds) with
          | Raise e => (printed, Raise e)
          | Ok total_delta =>
              let total := NL ++ "Total: " ++ timedelta_to_text (Some total_worktime)
                           ++ " [" ++ signed_timedelta_to_text (Some total_delta) ++ "]" in
              ((printed ++ [total])%list, Ok tt)
          end
      end
  end.

(** *** The objects with the values the program puts into them

    [record], [Day] and [DB] above hold a day as its date and times as
    [dt.time].  Here a day is the [date] or the [datetime] that the code
    stores, and a time is any [timeval]: the constructor converts nothing. *)

Record record_any : Type := MkRecord_any {
  day_any : dayval;
  start_any : option timeval;
  stop_any : option timeval
}.

Definition Record_any (today : Dt.date) (day : option dayval) (start stop : option timeval)
    : result record_any :=
  assert (match start, stop with None, None => false | _, _ => true end)
         "Either start or stop must be defined!" ;;;
  match start, stop with
  | Some s, Some e => b <- timeval_leb s e ;; assert b "Start must come before stop!"
  | _, _ => Ok tt
  end ;;;
  Ok (MkRecord_any (match day with Some d => d | None => VDate today end) start stop).

(** A record as [from_text] returns it: its day is what [text_to_date]
    returns, a [datetime]. *)
Definition loaded (r : record) : record_any :=
  MkRecord_any (VDatetime (day r)) (option_map VTime (start r)) (option_map VTime (stop r)).

Definition text_any (self : record_any) : result string :=
  let day := date_to_text_any (day_any self) in
  start <- time_to_text_any (start_any self) ;;
  stop <- time_to_text_any (stop_any self) ;;
  Ok (day ++ " " ++ start ++ " " ++ stop).

Record Day_any : Type := MkDay_any {
  Day_day_any : dayval;
  reference_any : Dt.timedelta;
  Day_records_any : list record_any
}.

Definition from_record_any (r : record_any) (worktime_reference : Dt.timedelta) : Day_any :=
  MkDay_any (day_any r) worktime_reference [r].

Definition add_record_any (self : Day_any) (r : record_any) : result Day_any :=
  assert (dayval_eqb (day_any r) (Day_day_any self)) "Record must be from the same day!" ;;;
  Ok (MkDay_any (Day_day_any self) (reference_any self) (Day_records_any self ++ [r])%list).

Record DB_any : Type := MkDB_any {
  path_any : string;
  worktime_any : Dt.timedelta;
  records_any : list record_any
}.

Definition load_any (f : fs) (path : string) : io (list record_any) :=
  let '(out, r) := load f path in
  (out, records <- r ;; Ok (map loaded records)).

(** [open(path, "w")] empties the file, then the texts are joined, and the
    exception of a text leaves [with] before anything is written. *)
Definition save_any (self : DB_any) (f : fs) : fs * result unit :=
  match collect text_any (records_any self) with
  | Ok texts => (fs_write f (path_any self) (join NL texts), Ok tt)
  | Raise e => (fs_write f (path_any self) EmptyString, Raise e)
  end.

(** [self.save()] as the last statement of a method that leaves [self']. *)
Definition saved (self' : DB_any) (f : fs) : fs * result DB_any :=
  let '(f', r) := save_any self' f in (f', r ;;; Ok self').

Definition empty_any (self : DB_any) : bool := (List.length (records_any self) =? 0)%nat.

Definition last_any (self : DB_any) : result record_any :=
  assert (negb (empty_any self)) "DB is empty, no last record!" ;;;
  match rev (records_any self) with
  | r :: _ => Ok r
  | [] => Raise (AssertionError "DB is empty, no last record!")
  end.

Fixpoint days_loop_any (worktime : Dt.timedelta) (records : list record_any)
    (days : dict (K := dayval) (V := Day_any)) : result (list (dayval * Day_any)) :=
  match records with
  | [] => Ok days
  | r :: rest =>
      days' <- (if dict_mem dayval_eqb (day_any r) days
                then dict_update dayval_eqb (day_any r) (fun d => add_record_any d r) days
                else Ok (dict_add (day_any r) (from_record_any r worktime) days)) ;;
      days_loop_any worktime rest days'
  end.

Definition days_any (self : DB_any) : result (list Day_any) :=
  days <- days_loop_any (worktime_any self) (records_any self) [] ;;
  Ok (dict_values days).

Definition DB_start_any (self : DB_any) (f : fs) (today : Dt.date) (time : timeval)
    : fs * result DB_any :=
  match Record_any today None (Some time) None with
  | Raise e => (f, Raise e)
  | Ok r =>
      saved (MkDB_any (path_any self) (worktime_any self) (records_any self ++ [r])%list) f
  end.

Definition set_last_stop_any (rs : list record_any) (time : timeval) : list record_any :=
  match rev rs with
  | l :: before => (rev before ++ [MkRecord_any (day_any l) (start_any l) (Some time)])%list
  | [] => []
  end.

Definition DB_stop_any (self : DB_any) (f : fs) (today : Dt.date) (time : timeval)
    : fs * result DB_any :=
  match (if empty_any self then Ok true
         else l <- last_any self ;;
              Ok (match stop_any l with Some _ => true | None => false end)) with
  | Raise e => (f, Raise e)
  | Ok true =>
      match Record_any today None None (Some time) with
      | Raise e => (f, Raise e)
      | Ok r =>
          saved (MkDB_any (path_any self) (worktime_any self) (records_any self ++ [r])%list) f
      end
  | Ok false =>
      match last_any self with
      | Raise e => (f, Raise e)
      | Ok _ =>
          saved (MkDB_any (path_any self) (worktime_any self)
                   (set_last_stop_any (records_any self) time)) f
      end
  end.

End Vanilla.

(** * Definitions used by the statements and proofs *)

(** Sample values used in the examples. *)
Definition d_mon : Dt.date := Dt.mkdate 2024 1 15.
Definition d_tue : Dt.date := Dt.mkdate 2024 1 16.
Definition hm (h m : Z) : Dt.time := Dt.mktime h m 0 0.

Definition fs_empty : fs := fun _ => None.

Definition r_closed : Main.record := Main.MkRecord d_mon (Some (hm 9 0)) (Some (hm 17 30)).
Definition r_open : Main.record := Main.MkRecord d_tue (Some (hm 8 55)) None.
Definition day_closed : Main.Day := Main.MkDay d_mon (Dt.td 8 0) [r_closed].
Definition day_open : Main.Day :=
  Main.MkDay d_tue (Dt.td 8 0) [Main.MkRecord d_tue (Some (hm 7 0)) (Some (hm 8 0)); r_open].

Definition ledger_bad : fs :=
  fs_write fs_empty "db.txt" ("Mon 2024-01-15 09:00 17:30" ++ NL ++ "garbage").

Definition parses_main (l : string) : Prop := is_ok (Main.from_text l) = true.
Definition parses_vanilla (l : string) : Prop := is_ok (Vanilla.from_text l) = true.

(** Nothing in [from_text] calls [exit]. *)
Definition never_exits {A : Type} (c : result A) : Prop :=
  forall k, c <> Raise (SystemExit k).

(** ** Patterns without alternation

    A pattern built from characters, classes and sequencing consumes one
    character per position: it has at most one match, found by testing the
    characters in turn. *)

Fixpoint lin (r : Re.re) : option (list (ascii -> bool)) :=
  match r with
  | Re.Chr c => Some [fun c' => Ascii.eqb c' c]
  | Re.Cls p => Some [p]
  | Re.Eps => Some []
  | Re.Seq a b =>
      match lin a, lin b with
      | Some x, Some y => Some (x ++ y)%list
      | _, _ => None
      end
  | Re.Alt _ _ => None
  end.

Fixpoint run (ps : list (ascii -> bool)) (s : string) : option string :=
  match ps, s with
  | [], _ => Some s
  | p :: ps', String c s' => if p c then run ps' s' else None
  | _ :: _, EmptyString => None
  end.

Definition opt_list {A : Type} (o : option A) : list A :=
  match o with Some a => [a] | None => [] end.

(** ** What grouping is to compute

    The three grouping loops of the program have one shape, [group_loop].
    What they are claimed to compute is [groups]: the keys in the order of
    their first occurrence, each with the members that carry it, in the order
    of the sequence. *)

Section Grouping.
Context {K A G : Type}.
Variable eqb : K -> K -> bool.
Variable key : A -> K.
Variable build : K -> list A -> G.
Variable add : G -> A -> result G.

Fixpoint group_loop (xs : list A) (d : dict (K := K) (V := G)) : result (list (K * G)) :=
  match xs with
  | [] => Ok d
  | x :: rest =>
      d' <- (if dict_mem eqb (key x) d
             then dict_update eqb (key x) (fun g => add g x) d
             else Ok (dict_add (key x) (build (key x) [x]) d)) ;;
      group_loop rest d'
  end.

(** The keys of a sequence, each once, in the order of first occurrence. *)
Fixpoint first_seen (ks : list K) : list K :=
  match ks with
  | [] => []
  | k :: ks' => k :: filter (fun k' => negb (eqb k k')) (first_seen ks')
  end.

(** The members of a sequence that carry the key [k]. *)
Definition members (k : K) (xs : list A) : list A :=
  filter (fun x => eqb (key x) k) xs.

Definition groups (xs : list A) : list G :=
  map (fun k => build k (members k xs)) (first_seen (map key xs)).

Definition grouped (xs : list A) : list (K * G) :=
  map (fun k => (k, build k (members k xs))) (first_seen (map key xs)).
End Grouping.

(** ** Texts that parse back *)

(** [s] has no character [sep]. *)
Fixpoint lacks (sep : ascii) (s : string) : bool :=
  match s with
  | EmptyString => true
  | String c s' => negb (Ascii.eqb c sep) && lacks sep s'
  end.

(** A time of whole minutes, or no time: what the text of a record can hold. *)
Definition minute_time (t : option Dt.time) : Prop :=
  match t with
  | None => True
  | Some tm => Dt.time_valid tm = true /\ Dt.second tm = 0 /\ Dt.microsecond tm = 0
  end.

(** The digits of a date, [%Y-%m-%d]. *)
Definition date_digits (d : Dt.date) : string :=
  four_digits (Dt.year d) ++ "-" ++ two_digits (Dt.month d) ++ "-" ++ two_digits (Dt.day d).

(** ** Ledgers of either model *)

(** The ledger of [Main.DB_any] that holds the records of a [Main.DB]. *)
Definition validated_db (db : Main.DB) : Main.DB_any :=
  Main.MkDB_any (Main.path db) (Main.DB_baseline db) (map Main.validated (Main.records db)).

(** The value of a time field that holds no [str]. *)
Definition as_time_field (v : option timeval) : option (option Dt.time) :=
  match v with
  | None => Some None
  | Some (VTime t) => Some (Some t)
  | Some (VStr _) => None
  end.

(** A record of [vanilla.py] without a [str] in a time field, seen as a
    [Vanilla.record]: its day as the date, whichever of the two types it has. *)
Definition typed (a : Vanilla.record_any) : option Vanilla.record :=
  match as_time_field (Vanilla.start_any a), as_time_field (Vanilla.stop_any a) with
  | Some s, Some e => Some (Vanilla.MkRecord (date_of (Vanilla.day_any a)) s e)
  | _, _ => None
  end.

(** [rs] is the ledger [rs_any], which holds no [str]. *)
Definition typed_ledger (rs_any : list Vanilla.record_any) (rs : list Vanilla.record) : Prop :=
  map typed rs_any = map Some rs.

(** A Day of loaded records, as the code holds it. *)
Definition loaded_day (d : Vanilla.Day) : Vanilla.Day_any :=
  Vanilla.MkDay_any (VDatetime (Vanilla.Day_day d)) (Vanilla.worktime_reference d)
    (map Vanilla.loaded (Vanilla.Day_records d)).

(** ** Well-formed records and totals *)

(** What the constructors demand of a record, together with what every date
    and time read from a ledger line satisfies. *)
Definition well_formed_main (r : Main.record) : Prop :=
  Dt.date_valid (Main.day r) = true
  /\ minute_time (Main.start r) /\ minute_time (Main.end_ r)
  /\ (Main.start r <> None \/ Main.end_ r <> None)
  /\ (forall s e, Main.start r = Some s -> Main.end_ r = Some e -> Dt.time_gtb s e = false).

Definition well_formed_vanilla (r : Vanilla.record) : Prop :=
  Dt.date_valid (Vanilla.day r) = true
  /\ minute_time (Vanilla.start r) /\ minute_time (Vanilla.stop r)
  /\ (Vanilla.start r <> None \/ Vanilla.stop r <> None)
  /\ (forall s e, Vanilla.start r = Some s -> Vanilla.stop r = Some e ->
                  Dt.time_gtb s e = false).

(** A record has a start or an end. *)
Definition has_time_main (r : Main.record) : Prop :=
  Main.start r <> None \/ Main.end_ r <> None.
Definition has_time_vanilla (r : Vanilla.record) : Prop :=
  Vanilla.start r <> None \/ Vanilla.stop r <> None.

Definition ledger_two : fs :=
  fs_write fs_empty "db.txt"
    ("Mon 2024-01-15 09:00 17:30" ++ NL ++ "Tue 2024-01-16 08:55 --:--").

(** The sum of durations some of which may be missing: none when one is. *)
Definition total (l : list (option Dt.timedelta)) : option Dt.timedelta :=
  if has_none l then None else Some (sum_timedeltas (somes l)).

(** * Properties *)

Example ex_text :
  Main.text (Main.MkRecord d_mon (Some (hm 9 0)) (Some (hm 17 30)))
  = "Mon 2024-01-15 09:00 17:30".
Proof. reflexivity. Qed.

Example ex_text_open :
  Vanilla.text (Vanilla.MkRecord d_tue (Some (hm 8 55)) None)
  = "Tue 2024-01-16 08:55 --:--".
Proof. reflexivity. Qed.

(** ** Order of times *)

Lemma time_compare_refl (t : Dt.time) : Dt.time_compare t t = Eq.
Proof. unfold Dt.time_compare. now rewrite !Z.compare_refl. Qed.

Lemma time_gtb_refl (t : Dt.time) : Dt.time_gtb t t = false.
Proof. unfold Dt.time_gtb. now rewrite time_compare_refl. Qed.

(** On valid times the tuple order is the order of the instants of the day. *)
Lemma time_compare_us (a b : Dt.time) :
  Dt.time_valid a = true -> Dt.time_valid b = true ->
  Dt.time_compare a b = (Dt.time_us a ?= Dt.time_us b).
Proof.
  unfold Dt.time_valid, Dt.time_compare, Dt.time_us.
  destruct a as [h1 m1 s1 u1], b as [h2 m2 s2 u2]; simpl.
  rewrite !andb_true_iff, !Z.leb_le, !Z.ltb_lt. intros Ha Hb.
  destruct (Z.compare_spec h1 h2); subst;
    [ destruct (Z.compare_spec m1 m2); subst;
      [ destruct (Z.compare_spec s1 s2); subst;
        [ destruct (Z.compare_spec u1 u2); subst | | ] | | ] | | ];
    symmetry;
    first [ apply Z.compare_eq_iff | apply Z.compare_lt_iff | apply Z.compare_gt_iff ]; nia.
Qed.

Lemma time_gtb_us (a b : Dt.time) :
  Dt.time_valid a = true -> Dt.time_valid b = true ->
  Dt.time_gtb a b = (Dt.time_us b <? Dt.time_us a).
Proof.
  intros Ha Hb. unfold Dt.time_gtb. rewrite (time_compare_us a b Ha Hb).
  rewrite Z.ltb_antisym, Z.leb_compare.
  now destruct (Dt.time_us a ?= Dt.time_us b).
Qed.

(** ** Constructing a record *)

(** C7. Constructing a Record with both start and end absent fails with the
    constructor's validation error, constructing one with both present and
    start > end fails likewise, and one with both present and start <= end
    (start = end included) is constructed with the fields given.  The
    validation error is pydantic's [ValidationError] in [main.py] and the
    [AssertionError] of the constructor's [assert] in [vanilla.py]. *)
Theorem C7_record_validation (d today : Dt.date) (s e : Dt.time) :
  (Main.Record_ d None None = Raise (ValidationError "Either start or end must be set!")
   /\ Vanilla.Record_ today (Some d) None None
      = Raise (AssertionError "Either start or stop must be defined!"))
  /\ (Dt.time_gtb s e = true ->
      Main.Record_ d (Some s) (Some e) = Raise (ValidationError "Start must come before end!")
      /\ Vanilla.Record_ today (Some d) (Some s) (Some e)
         = Raise (AssertionError "Start must come before stop!"))
  /\ (Dt.time_gtb s e = false ->
      Main.Record_ d (Some s) (Some e) = Ok (Main.MkRecord d (Some s) (Some e))
      /\ Vanilla.Record_ today (Some d) (Some s) (Some e)
         = Ok (Vanilla.MkRecord d (Some s) (Some e)))
  /\ (Main.Record_ d (Some s) (Some s) = Ok (Main.MkRecord d (Some s) (Some s))
      /\ Vanilla.Record_ today (Some d) (Some s) (Some s)
         = Ok (Vanilla.MkRecord d (Some s) (Some s))).
Proof.
  split; [split; reflexivity | ].
  split; [intros H; split | split; [intros H; split | split]].
  - unfold Main.Record_, Main.check_start_before_end. simpl. now rewrite H.
  - unfold Vanilla.Record_, Dt.time_leb. simpl. now rewrite H.
  - unfold Main.Record_, Main.check_start_before_end. simpl. now rewrite H.
  - unfold Vanilla.Record_, Dt.time_leb. simpl. now rewrite H.
  - unfold Main.Record_, Main.check_start_before_end. simpl. now rewrite time_gtb_refl.
  - unfold Vanilla.Record_, Dt.time_leb. simpl. now rewrite time_gtb_refl.
Qed.

Lemma C7_record_validation_witness :
  (Dt.time_gtb (hm 17 30) (hm 9 0) = true
   /\ Main.Record_ d_mon (Some (hm 17 30)) (Some (hm 9 0))
      = Raise (ValidationError "Start must come before end!"))
  /\ (Dt.time_gtb (hm 9 0) (hm 17 30) = false
      /\ Vanilla.Record_ d_tue (Some d_mon) (Some (hm 9 0)) (Some (hm 17 30))
         = Ok (Vanilla.MkRecord d_mon (Some (hm 9 0)) (Some (hm 17 30)))).
Proof.
  split; (split; [reflexivity | ]).
  - exact (proj1 (proj1 (proj2 (C7_record_validation d_mon d_tue (hm 17 30) (hm 9 0)))
                        eq_refl)).
  - exact (proj2 (proj1 (proj2 (proj2 (C7_record_validation d_mon d_tue (hm 9 0) (hm 17 30))))
                        eq_refl)).
Defined.

(** ** The start / stop state machine *)

Lemma length_snoc_eqb {A : Type} (l : list A) (x : A) :
  (List.length (l ++ [x]) =? 0)%nat = false.
Proof. rewrite length_app. simpl. apply Nat.eqb_neq. lia. Qed.

(** On a [dt.time]: on an empty ledger, or one whose last record has its end
    set, the end / stop operation with time [t] appends the half record
    (start absent, end [t]); when the last record is open it sets that
    record's end to [t] where it stands and appends nothing; the start
    operation appends a record with only start set whatever the last record
    is.  Every operation then saves the whole ledger. *)
Lemma start_end_state_machine
    (p : string) (b : Dt.timedelta) (f : fs) (today d : Dt.date) (t e : Dt.time)
    (s : option Dt.time) :
  (forall rs,
      let db' := Main.MkDB p b (rs ++ [Main.MkRecord today (Some t) None]) in
      Main.DB_start (Main.MkDB p b rs) f today t = Ok (db', Main.save db' f))
  /\ (let db' := Main.MkDB p b [Main.MkRecord today None (Some t)] in
      Main.DB_end (Main.MkDB p b []) f today t = Ok (db', Main.save db' f))
  /\ (forall rs,
      let db' := Main.MkDB p b (rs ++ [Main.MkRecord d s (Some e);
                                       Main.MkRecord today None (Some t)]) in
      Main.DB_end (Main.MkDB p b (rs ++ [Main.MkRecord d s (Some e)])) f today t
      = Ok (db', Main.save db' f))
  /\ (forall rs,
      let db' := Main.MkDB p b (rs ++ [Main.MkRecord d s (Some t)]) in
      Main.DB_end (Main.MkDB p b (rs ++ [Main.MkRecord d s None])) f today t
      = Ok (db', Main.save db' f))
  /\ (forall rs,
      let db' := Vanilla.MkDB p b (rs ++ [Vanilla.MkRecord today (Some t) None]) in
      Vanilla.DB_start (Vanilla.MkDB p b rs) f today t = Ok (db', Vanilla.save db' f))
  /\ (let db' := Vanilla.MkDB p b [Vanilla.MkRecord today None (Some t)] in
      Vanilla.DB_stop (Vanilla.MkDB p b []) f today t = Ok (db', Vanilla.save db' f))
  /\ (forall rs,
      let db' := Vanilla.MkDB p b (rs ++ [Vanilla.MkRecord d s (Some e);
                                          Vanilla.MkRecord today None (Some t)]) in
      Vanilla.DB_stop (Vanilla.MkDB p b (rs ++ [Vanilla.MkRecord d s (Some e)])) f today t
      = Ok (db', Vanilla.save db' f))
  /\ (forall rs,
      let db' := Vanilla.MkDB p b (rs ++ [Vanilla.MkRecord d s (Some t)]) in
      Vanilla.DB_stop (Vanilla.MkDB p b (rs ++ [Vanilla.MkRecord d s None])) f today t
      = Ok (db', Vanilla.save db' f)).
Proof.
  repeat match goal with |- _ /\ _ => split end; intros.
  - reflexivity.
  - reflexivity.
  - unfold Main.DB_end, Main.last, Main.empty; simpl.
    rewrite length_snoc_eqb, rev_app_distr; simpl.
    subst db'. now rewrite <- app_assoc.
  - unfold Main.DB_end, Main.last, Main.empty, Main.set_last_end; simpl.
    rewrite length_snoc_eqb, rev_app_distr; simpl.
    now rewrite rev_involutive.
  - reflexivity.
  - reflexivity.
  - unfold Vanilla.DB_stop, Vanilla.last, Vanilla.empty; simpl.
    rewrite length_snoc_eqb, rev_app_distr; simpl.
    subst db'. now rewrite <- app_assoc.
  - unfold Vanilla.DB_stop, Vanilla.last, Vanilla.empty, Vanilla.set_last_stop; simpl.
    rewrite length_snoc_eqb, rev_app_distr; simpl.
    now rewrite rev_involutive.
Qed.

(** C3. The claim is that closing an open record with a time before its start
    is refused.  Here is what the code does on the ledger
    [Mon 2024-01-15 09:00 --:--] when the end / stop operation is called with
    08:00: the constructor refuses start 09:00 with end 08:00, but the
    operation assigns the field without any check, keeps the record
    09:00 - 08:00, writes it to the file, and the next [load] of that file
    fails on the line. *)
Theorem C3_end_stores_start_after_end :
  let bad := Main.MkRecord d_mon (Some (hm 9 0)) (Some (hm 8 0)) in
  let db' := Main.MkDB "db.txt" (Dt.td 8 0) [bad] in
  let vbad := Vanilla.MkRecord d_mon (Some (hm 9 0)) (Some (hm 8 0)) in
  let vdb' := Vanilla.MkDB "db.txt" (Dt.td 8 0) [vbad] in
  Dt.time_gtb (hm 9 0) (hm 8 0) = true
  /\ Main.Record_ d_mon (Some (hm 9 0)) (Some (hm 8 0))
     = Raise (ValidationError "Start must come before end!")
  /\ Main.DB_end (Main.MkDB "db.txt" (Dt.td 8 0) [Main.MkRecord d_mon (Some (hm 9 0)) None])
                 fs_empty d_tue (hm 8 0)
     = Ok (db', Main.save db' fs_empty)
  /\ Main.save db' fs_empty "db.txt" = Some "Mon 2024-01-15 09:00 08:00"
  /\ Main.load (Main.save db' fs_empty) "db.txt"
     = ([], Raise (ValidationError "Start must come before end!"))
  /\ Vanilla.Record_ d_tue (Some d_mon) (Some (hm 9 0)) (Some (hm 8 0))
     = Raise (AssertionError "Start must come before stop!")
  /\ Vanilla.DB_stop
       (Vanilla.MkDB "db.txt" (Dt.td 8 0) [Vanilla.MkRecord d_mon (Some (hm 9 0)) None])
       fs_empty d_tue (hm 8 0)
     = Ok (vdb', Vanilla.save vdb' fs_empty)
  /\ Vanilla.load (Vanilla.save vdb' fs_empty) "db.txt"
     = (["Start must come before stop!";
         "db.txt#L0: Invalid record 'Mon 2024-01-15 09:00 08:00'!";
         "Edit db.txt to correct the record."],
        Raise (SystemExit 1)).
Proof.
  intros bad db' vbad vdb'.
  repeat match goal with |- _ /\ _ => split end; reflexivity.
Qed.

(** ** Rendering durations *)

Lemma td_seconds_add_day (t : Dt.timedelta) :
  Dt.td_seconds (t + Dt.us_per_day) = Dt.td_seconds t.
Proof.
  unfold Dt.td_seconds. f_equal.
  replace (t + Dt.us_per_day) with (t + 1 * Dt.us_per_day) by ring.
  apply Z_mod_plus_full.
Qed.

(** C8. The claim is that the hour field of a rendered duration is the total
    number of whole hours, 25 hours giving 25:00.  The code takes the hours
    from [timedelta.seconds], the seconds within the last day: 25 hours
    render as 01:00, and in general adding a day to a duration does not
    change its text.  An absent duration renders as the sentinel. *)
Theorem C8_timedelta_to_text_wraps_at_a_day :
  timedelta_to_text (Some (Dt.td 25 0)) = "01:00"
  /\ timedelta_to_text None = "--:--"
  /\ (forall t, timedelta_to_text (Some (t + Dt.us_per_day)) = timedelta_to_text (Some t)).
Proof.
  split; [reflexivity | split; [reflexivity | ]].
  intros t. unfold timedelta_to_text. now rewrite td_seconds_add_day.
Qed.

(** ** Records for now *)

(** C9. The claim is that [fromEnd] builds a half record from a valid time
    text.  Its body reads the name [start] where it means its parameter; the
    name is bound to a function of the module, [re.match] refuses it, and
    [from_end] / [from_stop] fail with a [TypeError] whatever text they are
    given. *)
Theorem C9_from_end_always_raises (today : Dt.date) (text : string) :
  Main.from_end today text = Raise TypeError
  /\ Vanilla.from_stop today text = Raise TypeError.
Proof. split; reflexivity. Qed.

(** ** A ledger that was never saved *)



Lemma run_app (x y : list (ascii -> bool)) : forall s,
  run (x ++ y) s = match run x s with Some s' => run y s' | None => None end.
Proof.
  induction x as [|p x IH]; intros s; simpl; [reflexivity|].
  destruct s as [|c s]; [reflexivity|]. destruct (p c); [apply IH | reflexivity].
Qed.

Lemma ends_lin (r : Re.re) : forall ps s,
  lin r = Some ps -> Re.ends r s = opt_list (run ps s).
Proof.
  induction r as [c|p| |a IHa b IHb|a IHa b IHb]; intros ps s H; simpl in H.
  - injection H as <-. simpl. destruct s as [|c' s]; [reflexivity|].
    now destruct (Ascii.eqb c' c).
  - injection H as <-. simpl. destruct s as [|c' s]; [reflexivity|].
    now destruct (p c').
  - injection H as <-. reflexivity.
  - destruct (lin a) as [x|]; [|discriminate]. destruct (lin b) as [y|]; [|discriminate].
    injection H as <-. simpl. rewrite (IHa x s eq_refl), run_app.
    destruct (run x s) as [s'|]; simpl; [|reflexivity].
    rewrite (IHb y s' eq_refl). apply app_nil_r.
  - discriminate.
Qed.

(** A character that fails its test leaves no match. *)
Lemma run_none_at : forall k ps s p c,
  nth_error ps k = Some p -> String.get k s = Some c -> p c = false -> run ps s = None.
Proof.
  induction k as [|k IH]; intros [|p0 ps] [|c0 s] p c Hp Hc Hpc; simpl in *; try discriminate.
  - injection Hp as ->. injection Hc as ->. now rewrite Hpc.
  - destruct (p0 c0); [eapply IH; eassumption | reflexivity].
Qed.

Lemma matches_lin_none (r : Re.re) (ps : list (ascii -> bool)) (s : string) :
  lin r = Some ps -> run ps s = None -> Re.ends r s = [].
Proof. intros H1 H2. now rewrite (ends_lin r ps s H1), H2. Qed.

Lemma ends_alt (a b : Re.re) (s : string) :
  Re.ends (Re.Alt a b) s = (Re.ends a s ++ Re.ends b s)%list.
Proof. reflexivity. Qed.

(** The weekday names are three letters. *)
Lemma day_abbr_shape (w : Z) :
  exists a b c, day_abbr w = String a (String b (String c EmptyString))
    /\ Ascii.eqb a "{" = false
    /\ Re.range "A" "z" a = true /\ Re.range "A" "z" b = true /\ Re.range "A" "z" c = true.
Proof.
  unfold day_abbr.
  repeat match goal with
         | |- context [if ?b then _ else _] => destruct b
         end;
    do 3 eexists; (split; [reflexivity | repeat split; reflexivity]).
Qed.

(** ** The text form of a record and the way back *)

(** C1. The claim is that parsing the text of a record gives the record back,
    also when its start is absent.  In [main.py] the pattern of [is_record]
    is put together from a [TIME_REGEX] that never got the sentinel
    substituted into it, so that the only alternative a ledger line can match
    demands two digits where the start stands: the text of every record
    without a start fails [is_record], and [from_text] raises on it. *)
Theorem C1_main_text_without_start_is_rejected (r : Main.record) :
  Main.start r = None ->
  Main.is_record (Main.text r) = false
  /\ Main.from_text (Main.text r) = Raise (AssertionError "").
Proof.
  intros Hs.
  assert (H : Main.is_record (Main.text r) = false).
  { unfold Main.is_record, Re.matches, Main.RECORD_REGEX, Main.text, date_to_text,
      strftime_a_Ymd. rewrite Hs.
    destruct (day_abbr_shape (Dt.weekday (Main.day r))) as (a & b & c & -> & Ha & _).
    rewrite !ends_alt.
    rewrite (matches_lin_none (Re.Seq Main.DATE_REGEX (Re.Seq (Re.Chr " ") Main.HH_MM)) _ _
               eq_refl).
    2:{ eapply (run_none_at 15); [reflexivity | reflexivity | reflexivity]. }
    rewrite (matches_lin_none (Re.Seq Main.BRACED_NAME (Re.Seq (Re.Chr " ") Main.HH_MM)) _ _
               eq_refl).
    2:{ eapply (run_none_at 0); [reflexivity | reflexivity | exact Ha]. }
    rewrite (matches_lin_none Main.BRACED_NAME _ _ eq_refl).
    2:{ eapply (run_none_at 0); [reflexivity | reflexivity | exact Ha]. }
    reflexivity. }
  split; [exact H|]. unfold Main.from_text. now rewrite H.
Qed.

Lemma C1_main_text_without_start_is_rejected_witness :
  Main.Record_ d_mon None (Some (hm 17 30)) = Ok (Main.MkRecord d_mon None (Some (hm 17 30)))
  /\ Main.text (Main.MkRecord d_mon None (Some (hm 17 30))) = "Mon 2024-01-15 --:-- 17:30"
  /\ Main.from_text "Mon 2024-01-15 --:-- 17:30" = Raise (AssertionError "").
Proof.
  split; [reflexivity | split; [reflexivity | ]].
  exact (proj2 (C1_main_text_without_start_is_rejected
                  (Main.MkRecord d_mon None (Some (hm 17 30))) eq_refl)).
Defined.

(** ** Worked time and delta *)

Lemma has_none_in {A : Type} (l : list (option A)) : In None l -> has_none l = true.
Proof.
  intros H. unfold has_none. apply existsb_exists. now exists None.
Qed.

(** C5. A Day with baseline 08:00 and the single record 09:00 - 17:30 has
    worktime 08:30 and delta +00:30; in general the delta of a Day is its
    worktime minus its baseline; a Day with a record whose end is absent has
    neither worktime nor delta; a Week with a Day without worktime has no
    total worktime, whatever its other Days are. *)
Theorem C5_worktime_and_delta :
  (let day := Main.MkDay d_mon (Dt.td 8 0)
                [Main.MkRecord d_mon (Some (hm 9 0)) (Some (hm 17 30))] in
   Main.Day_worktime day = Some (Dt.td 8 30)
   /\ Main.Day_delta day = Some (Dt.td 0 30)
   /\ timedelta_to_text (Main.Day_worktime day) = "08:30"
   /\ signed_timedelta_to_text (Main.Day_delta day) = "+00:30")
  /\ (forall day w, Main.Day_worktime day = Some w ->
                    Main.Day_delta day = Some (w - Main.baseline day))
  /\ (forall day r, In r (Main.Day_records day) -> Main.end_ r = None ->
                    Main.Day_worktime day = None /\ Main.Day_delta day = None)
  /\ (forall week day, In day (Main.days_of week) -> Main.Day_worktime day = None ->
                       Main.Week_worktime week = None)
  /\ (forall day w, Vanilla.Day_worktime day = Some w ->
                    Vanilla.Day_delta day = Some (w - Vanilla.worktime_reference day))
  /\ (forall day r, In r (Vanilla.Day_records day) -> Vanilla.stop r = None ->
                    Vanilla.Day_worktime day = None /\ Vanilla.Day_delta day = None).
Proof.
  split; [cbv zeta; repeat split; reflexivity | ].
  split; [| split; [| split; [| split]]].
  - intros day w H. unfold Main.Day_delta. rewrite H. f_equal. ring.
  - intros day r Hin He.
    assert (H : Main.Day_worktime day = None).
    { unfold Main.Day_worktime. rewrite has_none_in; [reflexivity|].
      apply in_map_iff. exists r. split; [|exact Hin].
      unfold Main.worktime. rewrite He. now destruct (Main.start r). }
    split; [exact H|]. unfold Main.Day_delta. now rewrite H.
  - intros week day Hin Hw. unfold Main.Week_worktime. rewrite has_none_in; [reflexivity|].
    apply in_map_iff. now exists day.
  - intros day w H. unfold Vanilla.Day_delta. now rewrite H.
  - intros day r Hin He.
    assert (H : Vanilla.Day_worktime day = None).
    { unfold Vanilla.Day_worktime. rewrite has_none_in; [reflexivity|].
      apply in_map_iff. exists r. split; [|exact Hin].
      unfold Vanilla.worktime. rewrite He. now destruct (Vanilla.start r). }
    split; [exact H|]. unfold Vanilla.Day_delta. now rewrite H.
Qed.

Lemma C5_worktime_and_delta_witness :
  (Main.Day_worktime day_closed = Some (Dt.td 8 30)
   /\ Main.Day_delta day_closed = Some (Dt.td 8 30 - Dt.td 8 0))
  /\ (In r_open (Main.Day_records day_open) /\ Main.end_ r_open = None
      /\ Main.Day_worktime day_open = None /\ Main.Day_delta day_open = None)
  /\ (In day_open [day_closed; day_open]
      /\ Main.Week_worktime (Main.MkWeek (2024, 3) [day_closed; day_open]) = None).
Proof.
  pose proof C5_worktime_and_delta as (_ & Hdelta & Hday & Hweek & _).
  assert (Hin : In r_open (Main.Day_records day_open)) by (simpl; auto).
  assert (Hin' : In day_open [day_closed; day_open]) by (simpl; auto).
  split; [split; [reflexivity | exact (Hdelta day_closed (Dt.td 8 30) eq_refl)] | ].
  split.
  - split; [exact Hin | split; [reflexivity | exact (Hday day_open r_open Hin eq_refl)]].
  - split; [exact Hin' | ].
    exact (Hweek (Main.MkWeek (2024, 3) [day_closed; day_open]) day_open Hin'
             (proj1 (Hday day_open r_open Hin eq_refl))).
Defined.

(** ** Grouping into Days and Weeks *)

Section GroupingFacts.
Context {K A G : Type}.
Variable eqb : K -> K -> bool.
Variable key : A -> K.
Variable build : K -> list A -> G.
Variable add : G -> A -> result G.

Local Abbreviation first_seen := (first_seen eqb).
Local Abbreviation members := (members eqb key).
Local Abbreviation grouped := (grouped eqb key build).
Local Abbreviation groups := (groups eqb key build).
Local Abbreviation group_loop := (group_loop eqb key build add).

Hypothesis eqb_eq : forall a b, eqb a b = true <-> a = b.
Hypothesis add_build :
  forall k l a, key a = k -> add (build k l) a = Ok (build k (l ++ [a])%list).

Lemma eqb_refl' (k : K) : eqb k k = true.
Proof. now apply eqb_eq. Qed.

Lemma eqb_neq (a b : K) : eqb a b = false <-> a <> b.
Proof.
  split.
  - intros H E. apply eqb_eq in E. congruence.
  - intros H. destruct (eqb a b) eqn:E; [apply eqb_eq in E; contradiction | reflexivity].
Qed.

Lemma in_first_seen (k : K) (ks : list K) : In k (first_seen ks) <-> In k ks.
Proof.
  induction ks as [|k0 ks IH]; simpl; [tauto|].
  rewrite filter_In, IH. split.
  - intros [H | [H _]]; auto.
  - intros [H | H]; [now left|].
    destruct (eqb k0 k) eqn:E; [left; now apply eqb_eq | right; split; [exact H | reflexivity]].
Qed.

Lemma nodup_first_seen (ks : list K) : NoDup (first_seen ks).
Proof.
  induction ks as [|k0 ks IH]; simpl; constructor.
  - rewrite filter_In. cbv beta. intros [_ H]. now rewrite eqb_refl' in H.
  - now apply NoDup_filter.
Qed.

Lemma existsb_key (k : K) (ks : list K) :
  existsb (fun k' => eqb k' k) ks = true <-> In k ks.
Proof.
  rewrite existsb_exists. split.
  - intros (k' & Hin & E). apply eqb_eq in E. now subst.
  - intros H. exists k. split; [exact H | apply eqb_refl'].
Qed.

Lemma first_seen_snoc (ks : list K) (k : K) :
  first_seen (ks ++ [k])
  = if existsb (fun k' => eqb k' k) ks then first_seen ks else (first_seen ks ++ [k])%list.
Proof.
  induction ks as [|k0 ks IH]; simpl; [reflexivity|].
  rewrite IH. destruct (eqb k0 k) eqn:E; simpl.
  - destruct (existsb (fun k' => eqb k' k) ks); [reflexivity|].
    rewrite filter_app. simpl. rewrite E. simpl. now rewrite app_nil_r.
  - destruct (existsb (fun k' => eqb k' k) ks); [reflexivity|].
    rewrite filter_app. simpl. now rewrite E.
Qed.

Lemma dict_mem_map (k : K) (f : K -> G) (l : list K) :
  dict_mem eqb k (map (fun k' => (k', f k')) l) = existsb (fun k' => eqb k' k) l.
Proof. induction l as [|k0 l IH]; simpl; [reflexivity | now rewrite IH]. Qed.

Lemma dict_update_map (h : G -> result G) (k : K) (f f' : K -> G) : forall l,
  NoDup l -> In k l -> h (f k) = Ok (f' k) -> (forall k', k' <> k -> f' k' = f k') ->
  dict_update eqb k h (map (fun k' => (k', f k')) l) = Ok (map (fun k' => (k', f' k')) l).
Proof.
  induction l as [|k0 l IH]; intros Hnd Hin Hh Hother; [destruct Hin|].
  inversion Hnd as [|? ? Hnotin Hnd']; subst. simpl.
  destruct (eqb k0 k) eqn:E.
  - apply eqb_eq in E. subst k0. rewrite Hh. simpl. do 2 f_equal.
    apply map_ext_in. intros k' Hk'. rewrite Hother; [reflexivity|].
    intros ->. contradiction.
  - apply eqb_neq in E. destruct Hin as [-> | Hin]; [contradiction|].
    rewrite (IH Hnd' Hin Hh Hother). simpl. rewrite Hother; [reflexivity | exact E].
Qed.

Lemma members_snoc (k : K) (xs : list A) (x : A) :
  members k (xs ++ [x]) = (members k xs ++ if eqb (key x) k then [x] else [])%list.
Proof. unfold members. rewrite filter_app. reflexivity. Qed.

Lemma members_absent (k : K) (xs : list A) : ~ In k (map key xs) -> members k xs = [].
Proof.
  induction xs as [|a xs IH]; simpl; intros H; [reflexivity|].
  destruct (eqb (key a) k) eqn:E.
  - apply eqb_eq in E. exfalso. apply H. now left.
  - apply IH. intros H'. apply H. now right.
Qed.

Lemma group_step (pre : list A) (x : A) :
  (if dict_mem eqb (key x) (grouped pre)
   then dict_update eqb (key x) (fun g => add g x) (grouped pre)
   else Ok (dict_add (key x) (build (key x) [x]) (grouped pre)))
  = Ok (grouped (pre ++ [x])).
Proof.
  unfold grouped at 1. rewrite dict_mem_map.
  unfold grouped at 3. rewrite map_app. simpl map at 2. rewrite first_seen_snoc.
  destruct (existsb (fun k' => eqb k' (key x)) (first_seen (map key pre))) eqn:E.
  - assert (Hin : In (key x) (first_seen (map key pre))) by now apply existsb_key.
    assert (E' : existsb (fun k' => eqb k' (key x)) (map key pre) = true).
    { apply existsb_key. now apply in_first_seen. }
    rewrite E'. unfold grouped.
    apply (dict_update_map (fun g => add g x) (key x)
             (fun k => build k (members k pre))
             (fun k => build k (members k (pre ++ [x])))).
    + apply nodup_first_seen.
    + exact Hin.
    + rewrite members_snoc, eqb_refl'. now apply add_build.
    + intros k' Hk'. rewrite members_snoc.
      assert (Hf : eqb (key x) k' = false) by (apply eqb_neq; congruence).
      rewrite Hf. now rewrite app_nil_r.
  - assert (Hnin : ~ In (key x) (map key pre)).
    { intros H. apply in_first_seen, existsb_key in H. congruence. }
    assert (E' : existsb (fun k' => eqb k' (key x)) (map key pre) = false).
    { destruct (existsb _ (map key pre)) eqn:E2; [|reflexivity].
      apply existsb_key in E2. contradiction. }
    rewrite E'. unfold dict_add, grouped. rewrite map_app. simpl. do 2 f_equal.
    + apply map_ext_in. intros k Hk. rewrite members_snoc.
      assert (Hf : eqb (key x) k = false).
      { apply eqb_neq. intros <-. apply (proj1 (in_first_seen _ _)) in Hk. contradiction. }
      rewrite Hf. now rewrite app_nil_r.
    + now rewrite members_snoc, eqb_refl', (members_absent _ _ Hnin).
Qed.

Lemma group_loop_grouped : forall xs pre,
  group_loop xs (grouped pre) = Ok (grouped (pre ++ xs)).
Proof.
  induction xs as [|x xs IH]; intros pre; simpl.
  - now rewrite app_nil_r.
  - rewrite group_step. simpl. rewrite IH. now rewrite <- app_assoc.
Qed.

Lemma group_loop_values (xs : list A) :
  (d <- group_loop xs [] ;; Ok (dict_values d)) = Ok (groups xs).
Proof.
  change (@nil (K * G)) with (grouped []).
  rewrite group_loop_grouped. simpl. unfold dict_values, grouped, groups.
  now rewrite map_map.
Qed.
End GroupingFacts.

Lemma date_eqb_eq (a b : Dt.date) : Dt.date_eqb a b = true <-> a = b.
Proof.
  unfold Dt.date_eqb. destruct a as [y1 m1 d1], b as [y2 m2 d2]; simpl.
  rewrite !andb_true_iff, !Z.eqb_eq. split.
  - intros [[-> ->] ->]. reflexivity.
  - intros H. injection H as -> -> ->. auto.
Qed.

Lemma week_eqb_eq (a b : Main.week) : Main.week_eqb a b = true <-> a = b.
Proof.
  unfold Main.week_eqb. destruct a as [y1 w1], b as [y2 w2]; simpl.
  rewrite andb_true_iff, !Z.eqb_eq. split.
  - intros [-> ->]. reflexivity.
  - intros H. injection H as -> ->. auto.
Qed.

Ltac same_loop IH :=
  simpl;
  match goal with
  | |- bind ?X _ = bind ?Y _ =>
      change Y with X; destruct X as [?|?]; simpl; [apply IH | reflexivity]
  end.

Lemma Main_days_loop_is_group_loop (b : Dt.timedelta) : forall rs d,
  Main.days_loop b rs d
  = group_loop Dt.date_eqb Main.day (fun k l => Main.MkDay k b l) Main.add_record rs d.
Proof. induction rs as [|r rs IH]; intros d; [reflexivity | same_loop IH]. Qed.

Lemma Vanilla_days_loop_is_group_loop (b : Dt.timedelta) : forall rs d,
  Vanilla.days_loop b rs d
  = group_loop Dt.date_eqb Vanilla.day (fun k l => Vanilla.MkDay k b l) Vanilla.add_record rs d.
Proof. induction rs as [|r rs IH]; intros d; [reflexivity | same_loop IH]. Qed.

Lemma Main_weeks_loop_is_group_loop : forall ds d,
  Main.weeks_loop ds d
  = group_loop Main.week_eqb Main.Day_week Main.MkWeek Main.add_day ds d.
Proof. induction ds as [|x ds IH]; intros d; [reflexivity | same_loop IH]. Qed.

Lemma Main_days_groups (db : Main.DB) :
  Main.days db
  = Ok (groups Dt.date_eqb Main.day (fun k l => Main.MkDay k (Main.DB_baseline db) l)
          (Main.records db)).
Proof.
  unfold Main.days. rewrite Main_days_loop_is_group_loop.
  apply group_loop_values; [exact date_eqb_eq|].
  intros k l a Hk. unfold Main.add_record. simpl.
  now rewrite (proj2 (date_eqb_eq _ _) Hk).
Qed.

(** In [main.py], and in [vanilla.py] on a ledger whose days are all of one
    type, the days view is the grouping of the records by calendar date: one
    Day per date, in the order in which the dates first occur in the ledger,
    each holding the records of its date in ledger order; nothing is sorted.
    The weeks view is the same grouping of those Days by ISO year and week.
    Records of the days Tuesday, Monday, Tuesday give two Days, Tuesday first
    with both its records, then Monday. *)
Lemma grouping_in_first_seen_order :
  (forall db : Main.DB,
      Main.days db
      = Ok (groups Dt.date_eqb Main.day (fun k l => Main.MkDay k (Main.DB_baseline db) l)
              (Main.records db)))
  /\ (forall db : Vanilla.DB,
      Vanilla.days db
      = Ok (groups Dt.date_eqb Vanilla.day
              (fun k l => Vanilla.MkDay k (Vanilla.DB_worktime db) l) (Vanilla.records db)))
  /\ (forall db : Main.DB,
      Main.weeks db
      = Ok (groups Main.week_eqb Main.Day_week Main.MkWeek
              (groups Dt.date_eqb Main.day (fun k l => Main.MkDay k (Main.DB_baseline db) l)
                 (Main.records db))))
  /\ (let r1 := Main.MkRecord d_tue (Some (hm 9 0)) (Some (hm 12 0)) in
      let r2 := Main.MkRecord d_mon (Some (hm 9 0)) (Some (hm 17 0)) in
      let r3 := Main.MkRecord d_tue (Some (hm 13 0)) (Some (hm 17 0)) in
      let db := Main.MkDB "db.txt" (Dt.td 8 0) [r1; r2; r3] in
      Main.days db = Ok [Main.MkDay d_tue (Dt.td 8 0) [r1; r3];
                         Main.MkDay d_mon (Dt.td 8 0) [r2]]
      /\ Main.weeks db = Ok [Main.MkWeek (2024, 3)
                               [Main.MkDay d_tue (Dt.td 8 0) [r1; r3];
                                Main.MkDay d_mon (Dt.td 8 0) [r2]]]).
Proof.
  split; [exact Main_days_groups | split; [| split]].
  - intros db. unfold Vanilla.days. rewrite Vanilla_days_loop_is_group_loop.
    apply group_loop_values; [exact date_eqb_eq|].
    intros k l a Hk. unfold Vanilla.add_record. simpl.
    now rewrite (proj2 (date_eqb_eq _ _) Hk).
  - intros db. unfold Main.weeks. rewrite Main_days_groups. simpl.
    rewrite Main_weeks_loop_is_group_loop.
    apply group_loop_values; [exact week_eqb_eq|].
    intros k l a Hk. unfold Main.add_day. simpl.
    now rewrite (proj2 (week_eqb_eq _ _) Hk).
  - cbv zeta. split; reflexivity.
Qed.

(** ** Loading the ledger *)

Lemma Main_from_text_grammar (l : string) :
  Main.is_record l = false -> Main.from_text l = Raise (AssertionError "").
Proof. intros H. unfold Main.from_text. now rewrite H. Qed.

Lemma Vanilla_from_text_grammar (l : string) :
  Vanilla.is_record l = false -> Vanilla.from_text l = Raise (AssertionError "").
Proof. intros H. unfold Vanilla.from_text. now rewrite H. Qed.

Lemma Main_load_loop_first_failure (pre : list string) (line : string) (rest : list string)
    (e : exn) :
  Forall parses_main pre -> Main.from_text line = Raise e ->
  forall recs, Main.load_loop (pre ++ line :: rest) recs = Raise e.
Proof.
  intros Hpre Hline. induction Hpre as [|l pre Hl _ IH]; intros recs; simpl.
  - now rewrite Hline.
  - unfold parses_main in Hl. destruct (Main.from_text l); [apply IH | discriminate].
Qed.

Lemma Main_load_loop_some_failure (lines : list string) (line : string) :
  In line lines -> is_ok (Main.from_text line) = false ->
  forall recs, exists e, Main.load_loop lines recs = Raise e.
Proof.
  induction lines as [|l lines IH]; intros Hin Hbad recs; [destruct Hin|]. simpl.
  destruct (Main.from_text l) as [r|e] eqn:E.
  - destruct Hin as [-> | Hin]; [rewrite E in Hbad; discriminate | now apply IH].
  - now exists e.
Qed.

Lemma index_first (pre : list string) (line : string) (rest : list string) :
  ~ In line pre -> index line (pre ++ line :: rest) = Some (List.length pre).
Proof.
  induction pre as [|l pre IH]; intros Hnin; simpl.
  - now rewrite String.eqb_refl.
  - destruct (String.eqb l line) eqn:E.
    + apply String.eqb_eq in E. exfalso. apply Hnin. now left.
    + rewrite IH; [reflexivity|]. intros H. apply Hnin. now right.
Qed.

Lemma Vanilla_load_loop_first_failure (p : string) (all pre : list string) (line : string)
    (rest : list string) (msg : string) (i : nat) :
  Forall parses_vanilla pre -> Vanilla.from_text line = Raise (AssertionError msg) ->
  index line all = Some i ->
  forall recs,
    Vanilla.load_loop p all (pre ++ line :: rest) recs
    = ([msg; p ++ "#L" ++ dec (Z.of_nat i) ++ ": Invalid record '" ++ line ++ "'!";
        "Edit " ++ p ++ " to correct the record."],
       Raise (SystemExit 1)).
Proof.
  intros Hpre Hline Hi. induction Hpre as [|l pre Hl _ IH]; intros recs; simpl.
  - now rewrite Hline, Hi.
  - unfold parses_vanilla in Hl. destruct (Vanilla.from_text l); [apply IH | discriminate].
Qed.

Lemma Vanilla_load_loop_some_failure (p : string) (all lines : list string) (line : string) :
  In line lines -> is_ok (Vanilla.from_text line) = false ->
  forall recs, exists out e, Vanilla.load_loop p all lines recs = (out, Raise e).
Proof.
  induction lines as [|l lines IH]; intros Hin Hbad recs; [destruct Hin|]. simpl.
  destruct (Vanilla.from_text l) as [r|e] eqn:E.
  - destruct Hin as [-> | Hin]; [rewrite E in Hbad; discriminate | now apply IH].
  - destruct e; try (eexists; eexists; reflexivity).
    destruct (index l all); eexists; eexists; reflexivity.
Qed.

(** C4, as stated, fails on a ledger whose second line is [garbage].  In
    [vanilla.py] [load] prints three lines and exits with status 1: it does
    print and it does exit.  In [main.py] [load] raises the bare
    [AssertionError] of [from_text]; the same exception is raised for another
    file with the bad line at another index, so it identifies neither. *)
Lemma C4_counterexample :
  Main.is_record "garbage" = false /\ Vanilla.is_record "garbage" = false
  /\ Vanilla.load ledger_bad "db.txt"
     = ([""; "db.txt#L1: Invalid record 'garbage'!"; "Edit db.txt to correct the record."],
        Raise (SystemExit 1))
  /\ ~ (fst (Vanilla.load ledger_bad "db.txt") = []
        /\ forall c, snd (Vanilla.load ledger_bad "db.txt") <> Raise (SystemExit c))
  /\ Main.load ledger_bad "db.txt" = ([], Raise (AssertionError ""))
  /\ Main.load (fs_write fs_empty "other.txt" "garbage") "other.txt"
     = ([], Raise (AssertionError "")).
Proof.
  repeat match goal with |- _ /\ _ => split end; try reflexivity.
  intros [H _]. discriminate H.
Qed.

Lemma never_exits_bind {A B : Type} (c : result A) (f : A -> result B) :
  never_exits c -> (forall a, never_exits (f a)) -> never_exits (bind c f).
Proof.
  intros Hc Hf k. destruct c as [a|e]; simpl; [apply Hf|].
  intros H. injection H as ->. now apply (Hc k).
Qed.

Lemma never_exits_assert (b : bool) (msg : string) : never_exits (assert b msg).
Proof. intros k. unfold assert. destruct b; discriminate. Qed.

Lemma never_exits_text_to_date (t : string) : never_exits (text_to_date t).
Proof.
  intros k. unfold text_to_date, strptime_Ymd.
  destruct (split "-" t) as [|y [|m [|d [|? ?]]]]; try discriminate.
  destruct (field_Y y); [|discriminate]. destruct (field_m m); [|discriminate].
  destruct (field_d d); [|discriminate].
  destruct (Dt.date_valid _); discriminate.
Qed.

Lemma never_exits_text_to_time (t : string) : never_exits (text_to_time t).
Proof.
  intros k. unfold text_to_time, strptime_HM.
  destruct (String.eqb t NONE_TIME); [discriminate|].
  destruct (split ":" t) as [|h [|m [|? ?]]]; try discriminate.
  destruct (field_H h); [|discriminate]. destruct (field_M m); discriminate.
Qed.

Lemma never_exits_Main_Record (d : Dt.date) (s e : option Dt.time) :
  never_exits (Main.Record_ d s e).
Proof.
  intros k. unfold Main.Record_, Main.check_either_start_or_end, Main.check_start_before_end.
  destruct s as [s|], e as [e|]; simpl; try discriminate.
  destruct (Dt.time_gtb s e); discriminate.
Qed.

Lemma Main_from_text_never_exits (l : string) (c : Z) :
  Main.from_text l <> Raise (SystemExit c).
Proof.
  revert c. change (never_exits (Main.from_text l)). unfold Main.from_text.
  apply never_exits_bind; [apply never_exits_assert|]. intros _.
  destruct (split SP (drop 4 l)) as [|d [|s [|e [|? ?]]]]; try (intros k; discriminate).
  apply never_exits_bind; [apply never_exits_text_to_date|]. intros d'.
  apply never_exits_bind; [apply never_exits_text_to_time|]. intros s'.
  apply never_exits_bind; [apply never_exits_text_to_time|]. intros e'.
  apply never_exits_Main_Record.
Qed.

Lemma Main_load_loop_never_exits (c : Z) : forall lines recs,
  Main.load_loop lines recs <> Raise (SystemExit c).
Proof.
  induction lines as [|l lines IH]; intros recs; simpl; [discriminate|].
  destruct (Main.from_text l) as [r|e] eqn:E; [apply IH|].
  intros H. injection H as ->. exact (Main_from_text_never_exits l c E).
Qed.

(** C4, amended.  If a line of the ledger file fails the record grammar,
    [load] returns no records: it ends in an exception.  In [main.py] [load]
    never prints and never exits, and when the lines before the bad one
    parse, what it raises is the [AssertionError] of [from_text], which
    carries no file and no line.  In [vanilla.py], when the lines before the
    bad one parse, [load] prints the error, the file with the 0-based index
    of the line, and an advice, and exits with status 1. *)
Theorem C4_load_all_or_nothing
    (f : fs) (p content line : string) (pre rest : list string) :
  f p = Some content ->
  map remove_lf (readlines content) = (pre ++ line :: rest)%list ->
  (Main.is_record line = false ->
   (exists e, Main.load f p = ([], Raise e) /\ forall c, e <> SystemExit c)
   /\ (Forall parses_main pre -> Main.load f p = ([], Raise (AssertionError ""))))
  /\ (Vanilla.is_record line = false ->
      (exists out e, Vanilla.load f p = (out, Raise e))
      /\ (Forall parses_vanilla pre ->
          Vanilla.load f p
          = ([""; p ++ "#L" ++ dec (Z.of_nat (List.length pre)) ++ ": Invalid record '"
                    ++ line ++ "'!";
              "Edit " ++ p ++ " to correct the record."],
             Raise (SystemExit 1)))).
Proof.
  intros Hf Hlines. split; intros Hbad.
  - pose proof (Main_from_text_grammar line Hbad) as Hraise.
    unfold Main.load. rewrite Hf, Hlines. split.
    + destruct (Main_load_loop_some_failure (pre ++ line :: rest) line) with (recs := @nil Main.record)
        as [e He].
      * apply in_or_app. right. now left.
      * now rewrite Hraise.
      * exists e. split; [now rewrite He|].
        intros c ->. exact (Main_load_loop_never_exits c _ _ He).
    + intros Hpre. now rewrite (Main_load_loop_first_failure pre line rest _ Hpre Hraise).
  - pose proof (Vanilla_from_text_grammar line Hbad) as Hraise.
    unfold Vanilla.load. rewrite Hf, Hlines. split.
    + apply Vanilla_load_loop_some_failure with (line := line).
      * apply in_or_app. right. now left.
      * now rewrite Hraise.
    + intros Hpre. apply Vanilla_load_loop_first_failure; [exact Hpre | exact Hraise |].
      apply index_first. intros Hin.
      rewrite Forall_forall in Hpre. specialize (Hpre line Hin).
      unfold parses_vanilla in Hpre. rewrite Hraise in Hpre. discriminate.
Qed.

Lemma C4_load_all_or_nothing_witness :
  ledger_bad "db.txt" = Some ("Mon 2024-01-15 09:00 17:30" ++ NL ++ "garbage")
  /\ Main.load ledger_bad "db.txt" = ([], Raise (AssertionError ""))
  /\ Vanilla.load ledger_bad "db.txt"
     = ([""; "db.txt#L1: Invalid record 'garbage'!"; "Edit db.txt to correct the record."],
        Raise (SystemExit 1)).
Proof.
  pose proof (C4_load_all_or_nothing ledger_bad "db.txt"
                ("Mon 2024-01-15 09:00 17:30" ++ NL ++ "garbage") "garbage"
                ["Mon 2024-01-15 09:00 17:30"] [] eq_refl eq_refl) as [HM HV].
  split; [reflexivity | split].
  - apply (proj2 (HM eq_refl)). constructor; [reflexivity | constructor].
  - apply (proj2 (HV eq_refl)). constructor; [reflexivity | constructor].
Defined.

(** ** Digits, fields and the formats *)

Lemma digit_cases (d : Z) : 0 <= d <= 9 ->
  d = 0 \/ d = 1 \/ d = 2 \/ d = 3 \/ d = 4 \/ d = 5 \/ d = 6 \/ d = 7 \/ d = 8 \/ d = 9.
Proof. lia. Qed.

Ltac by_digit d H :=
  destruct (digit_cases d H) as [-> | [-> | [-> | [-> | [-> | [-> | [-> | [-> | [-> | ->]]]]]]]]];
  repeat split; reflexivity.

Lemma digit_char_facts (d : Z) : 0 <= d <= 9 ->
  is_digit (digit_char d) = true
  /\ digit_val (digit_char d) = d
  /\ Re.range "0" "9" (digit_char d) = true
  /\ Ascii.eqb (digit_char d) SP = false
  /\ Ascii.eqb (digit_char d) "-" = false
  /\ Ascii.eqb (digit_char d) ":" = false.
Proof. intros H. by_digit d H. Qed.

Lemma div_mod_digits (n : Z) : 0 <= n < 100 -> 0 <= n / 10 <= 9 /\ 0 <= n mod 10 <= 9.
Proof.
  intros H. split.
  - split; [apply Z.div_pos; lia | apply Z.lt_succ_r, Z.div_lt_upper_bound; lia].
  - pose proof (Z.mod_pos_bound n 10). lia.
Qed.

Lemma digits_val_two_digits (n : Z) : 0 <= n < 100 -> digits_val (two_digits n) = Some n.
Proof.
  intros H. destruct (div_mod_digits n H) as [H1 H2].
  destruct (digit_char_facts _ H1) as (D1 & V1 & _).
  destruct (digit_char_facts _ H2) as (D2 & V2 & _).
  unfold two_digits, digits_val. cbn [digits_val_aux]. rewrite D1, D2, V1, V2. f_equal.
  pose proof (Z.div_mod n 10). lia.
Qed.

Lemma field12_two_digits (lo hi n : Z) :
  0 <= n < 100 -> lo <= n <= hi -> field12 lo hi (two_digits n) = Some n.
Proof.
  intros H Hb. unfold field12. rewrite (digits_val_two_digits n H).
  replace (String.length (two_digits n)) with 2%nat by reflexivity.
  cbn [Nat.leb andb]. now rewrite (proj2 (Z.leb_le lo n)), (proj2 (Z.leb_le n hi)) by lia.
Qed.

Lemma field_d_two_digits (n : Z) : 1 <= n <= 31 -> field_d (two_digits n) = Some n.
Proof.
  intros H. assert (H' : 0 <= n < 100) by lia.
  destruct (div_mod_digits n H') as [H1 _].
  destruct (digit_char_facts _ H1) as (_ & _ & _ & S1 & _).
  unfold field_d. change (two_digits n) with
    (String (digit_char (n / 10)) (String (digit_char (n mod 10)) EmptyString)) at 1.
  cbv iota. rewrite S1. apply field12_two_digits; lia.
Qed.

Lemma year_digits (y : Z) : 1000 <= y <= 9999 ->
  0 <= y / 1000 <= 9 /\ 0 <= y / 100 mod 10 <= 9 /\ 0 <= y mod 100 < 100.
Proof.
  intros H.
  pose proof (Z.mod_pos_bound (y / 100) 10). pose proof (Z.mod_pos_bound y 100).
  assert (0 <= y / 1000) by (apply Z.div_pos; lia).
  assert (y / 1000 < 10) by (apply Z.div_lt_upper_bound; lia).
  lia.
Qed.

Lemma field_Y_four_digits (y : Z) : 1000 <= y <= 9999 -> field_Y (four_digits y) = Some y.
Proof.
  intros H. destruct (year_digits y H) as (H1 & H2 & H3).
  destruct (div_mod_digits _ H3) as [H4 H5].
  destruct (digit_char_facts _ H1) as (D1 & V1 & _).
  destruct (digit_char_facts _ H2) as (D2 & V2 & _).
  destruct (digit_char_facts _ H4) as (D3 & V3 & _).
  destruct (digit_char_facts _ H5) as (D4 & V4 & _).
  unfold field_Y, four_digits, two_digits, digits_val.
  cbn [String.length Nat.eqb digits_val_aux].
  rewrite D1, D2, D3, D4, V1, V2, V3, V4. f_equal.
  pose proof (Z.div_mod y 100). pose proof (Z.div_mod (y / 100) 10).
  pose proof (Z.div_mod (y mod 100) 10).
  assert (E : y / 1000 = y / 100 / 10) by (rewrite Z.div_div; [reflexivity | lia | lia]).
  lia.
Qed.

Lemma append_assoc (a b c : string) : ((a ++ b) ++ c = a ++ (b ++ c))%string.
Proof. induction a as [|x a IH]; simpl; [reflexivity | now rewrite IH]. Qed.

Lemma split_lacks (sep : ascii) (w : string) : lacks sep w = true -> split sep w = [w].
Proof.
  induction w as [|c w IH]; simpl; [reflexivity|].
  intros H. apply andb_true_iff in H as [Hc Hw].
  apply negb_true_iff in Hc. rewrite Hc, (IH Hw). reflexivity.
Qed.

Lemma split_app (sep : ascii) (w rest : string) :
  lacks sep w = true -> split sep (w ++ String sep rest) = w :: split sep rest.
Proof.
  induction w as [|c w IH]; simpl.
  - intros _. now rewrite Ascii.eqb_refl.
  - intros H. apply andb_true_iff in H as [Hc Hw].
    apply negb_true_iff in Hc. rewrite Hc, (IH Hw). reflexivity.
Qed.

Lemma lacks_two_digits (n : Z) : 0 <= n < 100 ->
  lacks SP (two_digits n) = true /\ lacks "-" (two_digits n) = true
  /\ lacks ":" (two_digits n) = true.
Proof.
  intros H. destruct (div_mod_digits n H) as [H1 H2].
  destruct (digit_char_facts _ H1) as (_ & _ & _ & S1 & M1 & C1).
  destruct (digit_char_facts _ H2) as (_ & _ & _ & S2 & M2 & C2).
  unfold two_digits. cbn [lacks]. rewrite S1, S2, M1, M2, C1, C2. repeat split.
Qed.

Lemma lacks_four_digits (y : Z) : 1000 <= y <= 9999 ->
  lacks SP (four_digits y) = true /\ lacks "-" (four_digits y) = true.
Proof.
  intros H. destruct (year_digits y H) as (H1 & H2 & H3).
  destruct (lacks_two_digits _ H3) as (L1 & L2 & _).
  destruct (digit_char_facts _ H1) as (_ & _ & _ & S1 & M1 & _).
  destruct (digit_char_facts _ H2) as (_ & _ & _ & S2 & M2 & _).
  unfold four_digits. cbn [lacks]. rewrite S1, S2, M1, M2, L1, L2. split; reflexivity.
Qed.

Lemma date_fields (d : Dt.date) : Dt.date_valid d = true -> 1000 <= Dt.year d ->
  1000 <= Dt.year d <= 9999 /\ 1 <= Dt.month d <= 12 /\ 1 <= Dt.day d <= 31.
Proof.
  unfold Dt.date_valid, Dt.days_in_month. rewrite !andb_true_iff, !Z.leb_le.
  intros (((((_ & Hy) & Hm1) & Hm2) & Hd1) & Hd2) Hy'.
  repeat split; try assumption.
  repeat match goal with
         | H : context [if ?b then _ else _] |- _ => destruct b
         end; lia.
Qed.

(** The date part of a line parses back. *)
Lemma text_to_date_formatted (d : Dt.date) :
  Dt.date_valid d = true -> 1000 <= Dt.year d ->
  text_to_date (four_digits (Dt.year d) ++ "-" ++ two_digits (Dt.month d) ++ "-"
                ++ two_digits (Dt.day d)) = Ok d.
Proof.
  intros Hv Hy. destruct (date_fields d Hv Hy) as (Y & M & D).
  destruct (lacks_four_digits _ Y) as (_ & LY).
  assert (M' : 0 <= Dt.month d < 100) by lia. assert (D' : 0 <= Dt.day d < 100) by lia.
  destruct (lacks_two_digits _ M') as (_ & LM & _).
  destruct (lacks_two_digits _ D') as (_ & LD & _).
  unfold text_to_date, strptime_Ymd.
  cbn [append].
  rewrite (split_app _ _ _ LY), (split_app _ _ _ LM), (split_lacks _ _ LD).
  rewrite (field_Y_four_digits _ Y). unfold field_m.
  rewrite (field12_two_digits 1 12 _ M' M), (field_d_two_digits _ D).
  destruct d as [y m dd]. cbn [Dt.year Dt.month Dt.day] in *. rewrite Hv. reflexivity.
Qed.

Lemma time_fields (t : Dt.time) : Dt.time_valid t = true ->
  0 <= Dt.hour t <= 23 /\ 0 <= Dt.minute t <= 59.
Proof.
  unfold Dt.time_valid. rewrite !andb_true_iff, !Z.leb_le, !Z.ltb_lt. lia.
Qed.

(** The text of a time of whole minutes, or of no time, parses back. *)
Lemma text_to_time_formatted (t : option Dt.time) :
  minute_time t -> text_to_time (time_to_text t) = Ok t.
Proof.
  destruct t as [[h m s u]|]; [|reflexivity].
  cbn [minute_time Dt.second Dt.microsecond]. intros (Hv & -> & ->).
  destruct (time_fields _ Hv) as (H & M). cbn [Dt.hour Dt.minute] in H, M.
  assert (H' : 0 <= h < 100) by lia. assert (M' : 0 <= m < 100) by lia.
  destruct (lacks_two_digits _ H') as (_ & _ & LH).
  destruct (lacks_two_digits _ M') as (_ & _ & LM).
  unfold text_to_time, time_to_text, strftime_HM. cbn [Dt.hour Dt.minute].
  assert (E : String.eqb (two_digits h ++ ":" ++ two_digits m) NONE_TIME = false).
  { apply String.eqb_neq. unfold two_digits, NONE_TIME. intros E. injection E as E _.
    destruct (div_mod_digits h H') as [Hd _].
    destruct (digit_char_facts _ Hd) as (_ & _ & _ & _ & Hm & _).
    rewrite E in Hm. discriminate. }
  rewrite E. unfold strptime_HM.
  cbn [append].
  rewrite (split_app _ _ _ LH), (split_lacks _ _ LM).
  unfold field_H, field_M.
  rewrite (field12_two_digits 0 23 _ H' H), (field12_two_digits 0 59 _ M' M).
  reflexivity.
Qed.

Lemma lacks_app (sep : ascii) (a b : string) :
  lacks sep (a ++ b) = lacks sep a && lacks sep b.
Proof. induction a as [|c a IH]; simpl; [reflexivity | now rewrite IH, andb_assoc]. Qed.

Lemma lacks_date_digits (d : Dt.date) :
  Dt.date_valid d = true -> 1000 <= Dt.year d -> lacks SP (date_digits d) = true.
Proof.
  intros Hv Hy. destruct (date_fields d Hv Hy) as (Y & M & D).
  destruct (lacks_four_digits _ Y) as (LY & _).
  destruct (lacks_two_digits (Dt.month d)) as (LM & _); [lia|].
  destruct (lacks_two_digits (Dt.day d)) as (LD & _); [lia|].
  unfold date_digits. rewrite !lacks_app, LY, LM, LD. reflexivity.
Qed.

Lemma lacks_time_to_text (t : option Dt.time) :
  minute_time t -> lacks SP (time_to_text t) = true.
Proof.
  destruct t as [tm|]; [|reflexivity]. intros (Hv & _).
  destruct (time_fields _ Hv) as (H & M).
  destruct (lacks_two_digits (Dt.hour tm)) as (LH & _); [lia|].
  destruct (lacks_two_digits (Dt.minute tm)) as (LM & _); [lia|].
  unfold time_to_text, strftime_HM. rewrite !lacks_app, LH, LM. reflexivity.
Qed.

(** *** Matching the text of a record *)

Lemma in_ends_seq (a b : Re.re) (s s1 s2 : string) :
  In s1 (Re.ends a s) -> In s2 (Re.ends b s1) -> In s2 (Re.ends (Re.Seq a b) s).
Proof. intros H1 H2. simpl. apply in_flat_map. now exists s1. Qed.

Lemma in_ends_cls (p : ascii -> bool) (c : ascii) (rest : string) :
  p c = true -> In rest (Re.ends (Re.Cls p) (String c rest)).
Proof. intros H. simpl. rewrite H. now left. Qed.

Lemma in_ends_chr (c : ascii) (rest : string) :
  In rest (Re.ends (Re.Chr c) (String c rest)).
Proof. simpl. rewrite Ascii.eqb_refl. now left. Qed.

Lemma in_ends_eps (s : string) : In s (Re.ends Re.Eps s).
Proof. now left. Qed.

Lemma matches_in (r : Re.re) (s s' : string) : In s' (Re.ends r s) -> Re.matches r s = true.
Proof. unfold Re.matches. destruct (Re.ends r s); [intros [] | reflexivity]. Qed.

Lemma in_ends_two_digits (n : Z) (rest : string) : 0 <= n < 100 ->
  In rest (Re.ends (Re.rep 2 Re.digit) (two_digits n ++ rest)).
Proof.
  intros H. destruct (div_mod_digits n H) as [H1 H2].
  destruct (digit_char_facts _ H1) as (_ & _ & R1 & _).
  destruct (digit_char_facts _ H2) as (_ & _ & R2 & _).
  unfold two_digits. cbn [append Re.rep].
  eapply in_ends_seq; [apply in_ends_cls, R1|].
  eapply in_ends_seq; [apply in_ends_cls, R2|]. apply in_ends_eps.
Qed.

Lemma in_ends_four_digits (y : Z) (rest : string) : 1000 <= y <= 9999 ->
  In rest (Re.ends (Re.rep 4 Re.digit) (four_digits y ++ rest)).
Proof.
  intros H. destruct (year_digits y H) as (H1 & H2 & H3).
  destruct (div_mod_digits _ H3) as [H4 H5].
  destruct (digit_char_facts _ H1) as (_ & _ & R1 & _).
  destruct (digit_char_facts _ H2) as (_ & _ & R2 & _).
  destruct (digit_char_facts _ H4) as (_ & _ & R3 & _).
  destruct (digit_char_facts _ H5) as (_ & _ & R4 & _).
  unfold four_digits, two_digits. cbn [append Re.rep].
  eapply in_ends_seq; [apply in_ends_cls, R1|].
  eapply in_ends_seq; [apply in_ends_cls, R2|].
  eapply in_ends_seq; [apply in_ends_cls, R3|].
  eapply in_ends_seq; [apply in_ends_cls, R4|]. apply in_ends_eps.
Qed.

Lemma in_ends_day (w : Z) (rest : string) :
  In rest (Re.ends (Re.rep 3 Re.A_z_space) (day_abbr w ++ rest)).
Proof.
  destruct (day_abbr_shape w) as (a & b & c & -> & _ & Ra & Rb & Rc).
  cbn [append Re.rep]. unfold Re.A_z_space.
  eapply in_ends_seq; [apply in_ends_cls; now rewrite Ra|].
  eapply in_ends_seq; [apply in_ends_cls; now rewrite Rb|].
  eapply in_ends_seq; [apply in_ends_cls; now rewrite Rc|]. apply in_ends_eps.
Qed.

(** [[0-9]{4}-[0-9]{2}-[0-9]{2}] on the digits of a date. *)
Lemma in_ends_date (d : Dt.date) (rest : string) :
  Dt.date_valid d = true -> 1000 <= Dt.year d ->
  In rest (Re.ends Vanilla.REGEX_DATE (date_digits d ++ rest)).
Proof.
  intros Hv Hy. destruct (date_fields d Hv Hy) as (Y & M & D).
  unfold date_digits, Vanilla.REGEX_DATE. rewrite !append_assoc.
  eapply in_ends_seq; [apply in_ends_four_digits, Y|].
  eapply in_ends_seq; [apply in_ends_chr|].
  eapply in_ends_seq; [apply in_ends_two_digits; lia|].
  eapply in_ends_seq; [apply in_ends_chr|].
  apply in_ends_two_digits; lia.
Qed.

(** [[0-9]{2}:[0-9]{2}] on the text of a time. *)
Lemma in_ends_hh_mm (t : Dt.time) (rest : string) :
  Dt.time_valid t = true -> In rest (Re.ends Main.HH_MM (strftime_HM t ++ rest)).
Proof.
  intros Hv. destruct (time_fields _ Hv) as (H & M).
  unfold strftime_HM, Main.HH_MM. rewrite !append_assoc.
  eapply in_ends_seq; [apply in_ends_two_digits; lia|].
  eapply in_ends_seq; [apply in_ends_chr|].
  apply in_ends_two_digits; lia.
Qed.

(** [([0-9]{2}:[0-9]{2}|--:--)] on the text of a time or of no time. *)
Lemma in_ends_regex_time (t : option Dt.time) (rest : string) :
  minute_time t -> In rest (Re.ends Vanilla.REGEX_TIME (time_to_text t ++ rest)).
Proof.
  unfold Vanilla.REGEX_TIME. rewrite ends_alt. intros Ht. apply in_or_app.
  destruct t as [tm|].
  - left. destruct Ht as (Hv & _). exact (in_ends_hh_mm tm rest Hv).
  - right. simpl. now left.
Qed.

Lemma append_nil_r (s : string) : (s ++ "")%string = s.
Proof. induction s as [|c s IH]; simpl; [reflexivity | now rewrite IH]. Qed.

Lemma drop_day (w : Z) (rest : string) : drop 4 (day_abbr w ++ String " " rest) = rest.
Proof. destruct (day_abbr_shape w) as (a & b & c & -> & _). reflexivity. Qed.

Lemma split_line (d : Dt.date) (s e : option Dt.time) :
  Dt.date_valid d = true -> 1000 <= Dt.year d -> minute_time s -> minute_time e ->
  split SP (date_digits d ++ String " " (time_to_text s ++ String " " (time_to_text e)))
  = [date_digits d; time_to_text s; time_to_text e].
Proof.
  intros Hv Hy Hs He.
  rewrite (split_app SP _ _ (lacks_date_digits d Hv Hy)).
  rewrite (split_app SP _ _ (lacks_time_to_text s Hs)).
  now rewrite (split_lacks SP _ (lacks_time_to_text e He)).
Qed.

Lemma Vanilla_text_shape (r : Vanilla.record) :
  Vanilla.text r
  = (day_abbr (Dt.weekday (Vanilla.day r))
     ++ String " " (date_digits (Vanilla.day r)
     ++ String " " (time_to_text (Vanilla.start r)
     ++ String " " (time_to_text (Vanilla.stop r)))))%string.
Proof.
  unfold Vanilla.text, date_to_text, strftime_a_Ymd. now rewrite append_assoc.
Qed.

Lemma Main_text_shape (r : Main.record) :
  Main.text r
  = (day_abbr (Dt.weekday (Main.day r))
     ++ String " " (date_digits (Main.day r)
     ++ String " " (time_to_text (Main.start r)
     ++ String " " (time_to_text (Main.end_ r)))))%string.
Proof.
  unfold Main.text, date_to_text, strftime_a_Ymd. now rewrite append_assoc.
Qed.

(** In [vanilla.py] the text of a record passes [is_record]. *)
Lemma Vanilla_is_record_text (r : Vanilla.record) :
  Dt.date_valid (Vanilla.day r) = true -> 1000 <= Dt.year (Vanilla.day r) ->
  minute_time (Vanilla.start r) -> minute_time (Vanilla.stop r) ->
  Vanilla.is_record (Vanilla.text r) = true.
Proof.
  intros Hv Hy Hs He. unfold Vanilla.is_record. rewrite Vanilla_text_shape.
  apply matches_in with (s' := EmptyString).
  eapply in_ends_seq; [apply in_ends_day|].
  eapply in_ends_seq; [apply in_ends_chr|].
  eapply in_ends_seq; [apply in_ends_date; assumption|].
  eapply in_ends_seq; [apply in_ends_chr|].
  eapply in_ends_seq; [apply in_ends_regex_time; assumption|].
  eapply in_ends_seq; [apply in_ends_chr|].
  rewrite <- (append_nil_r (time_to_text (Vanilla.stop r))).
  apply in_ends_regex_time; assumption.
Qed.

(** The round trip of [vanilla.py]: a record with a valid date from the year
    1000 on, times of whole minutes, at least one of them present and the
    start not after the stop, is what [from_text] reads from its text.  The
    day read is the [datetime] at midnight of that date. *)
Theorem Vanilla_from_text_text (r : Vanilla.record) :
  Dt.date_valid (Vanilla.day r) = true -> 1000 <= Dt.year (Vanilla.day r) ->
  minute_time (Vanilla.start r) -> minute_time (Vanilla.stop r) ->
  (Vanilla.start r <> None \/ Vanilla.stop r <> None) ->
  (forall s e, Vanilla.start r = Some s -> Vanilla.stop r = Some e -> Dt.time_gtb s e = false) ->
  Vanilla.from_text (Vanilla.text r) = Ok r.
Proof.
  intros Hv Hy Hs He I1 I2. unfold Vanilla.from_text.
  rewrite (Vanilla_is_record_text r Hv Hy Hs He). simpl assert. cbn [bind].
  rewrite Vanilla_text_shape, drop_day, (split_line _ _ _ Hv Hy Hs He).
  change (text_to_date (date_digits (Vanilla.day r)))
    with (text_to_date (four_digits (Dt.year (Vanilla.day r)) ++ "-"
                        ++ two_digits (Dt.month (Vanilla.day r)) ++ "-"
                        ++ two_digits (Dt.day (Vanilla.day r)))).
  rewrite (text_to_date_formatted _ Hv Hy). cbn [bind].
  rewrite (text_to_time_formatted _ Hs), (text_to_time_formatted _ He). cbn [bind].
  destruct r as [d [s|] [e|]]; simpl in *.
  - unfold Vanilla.Record_, Dt.time_leb. simpl. now rewrite (I2 s e eq_refl eq_refl).
  - reflexivity.
  - reflexivity.
  - destruct I1 as [H | H]; now contradiction H.
Qed.

(** In [main.py] the round trip holds for the records that have a start. *)
Theorem Main_from_text_text_with_start (r : Main.record) (s : Dt.time) :
  Main.start r = Some s ->
  Dt.date_valid (Main.day r) = true -> 1000 <= Dt.year (Main.day r) ->
  minute_time (Main.start r) -> minute_time (Main.end_ r) ->
  (forall e, Main.end_ r = Some e -> Dt.time_gtb s e = false) ->
  Main.from_text (Main.text r) = Ok r.
Proof.
  intros Hst Hv Hy Hs He I2. unfold Main.from_text.
  assert (Hrec : Main.is_record (Main.text r) = true).
  { unfold Main.is_record, Main.RECORD_REGEX. rewrite Main_text_shape, Hst.
    apply matches_in with
      (s' := String " " (time_to_text (Main.end_ r))).
    rewrite ends_alt. apply in_or_app. left.
    rewrite Hst in Hs. destruct Hs as (Hvs & _).
    eapply in_ends_seq.
    - unfold Main.DATE_REGEX.
      eapply in_ends_seq; [apply in_ends_day|].
      eapply in_ends_seq; [apply in_ends_chr|].
      exact (in_ends_date (Main.day r) _ Hv Hy).
    - eapply in_ends_seq; [apply in_ends_chr|].
      exact (in_ends_hh_mm s _ Hvs). }
  rewrite Hrec. simpl assert. cbn [bind].
  rewrite Main_text_shape, drop_day, (split_line _ _ _ Hv Hy Hs He).
  change (text_to_date (date_digits (Main.day r)))
    with (text_to_date (four_digits (Dt.year (Main.day r)) ++ "-"
                        ++ two_digits (Dt.month (Main.day r)) ++ "-"
                        ++ two_digits (Dt.day (Main.day r)))).
  rewrite (text_to_date_formatted _ Hv Hy). cbn [bind].
  rewrite (text_to_time_formatted _ Hs), (text_to_time_formatted _ He). cbn [bind].
  destruct r as [d st [e|]]; simpl in *; subst st.
  - unfold Main.Record_, Main.check_start_before_end. simpl. now rewrite (I2 e eq_refl).
  - reflexivity.
Qed.

(** *** [from_start] *)

Lemma strftime_HM_not_sentinel (t : Dt.time) :
  minute_time (Some t) -> String.eqb (strftime_HM t) NONE_TIME = false.
Proof.
  intros Ht. pose proof (text_to_time_formatted (Some t) Ht) as H.
  unfold text_to_time, time_to_text in H.
  destruct (String.eqb (strftime_HM t) NONE_TIME); [discriminate | reflexivity].
Qed.

(** [from_start] does what is claimed of it: on the text of a time of whole
    minutes it builds the open record of today, and it refuses the sentinel. *)
Lemma from_start_formatted (today : Dt.date) (t : Dt.time) :
  minute_time (Some t) ->
  Main.from_start today (strftime_HM t) = Ok (Main.MkRecord today (Some t) None)
  /\ Vanilla.from_start today (strftime_HM t) = Ok (Vanilla.MkRecord today (Some t) None).
Proof.
  intros Ht. pose proof (text_to_time_formatted (Some t) Ht) as Hp.
  pose proof (strftime_HM_not_sentinel t Ht) as Hn.
  destruct Ht as (Hv & _). unfold time_to_text in Hp.
  assert (Hm : In EmptyString (Re.ends Main.HH_MM (strftime_HM t))).
  { rewrite <- (append_nil_r (strftime_HM t)). apply in_ends_hh_mm. exact Hv. }
  assert (HM : Re.matches Main.TIME_REGEX (strftime_HM t) = true).
  { apply matches_in with (s' := EmptyString). unfold Main.TIME_REGEX.
    rewrite ends_alt. apply in_or_app. left. exact Hm. }
  assert (HV : Re.matches Vanilla.REGEX_TIME (strftime_HM t) = true).
  { apply matches_in with (s' := EmptyString). unfold Vanilla.REGEX_TIME.
    rewrite ends_alt. apply in_or_app. left. exact Hm. }
  split.
  - unfold Main.from_start, Main.is_time, re_match. rewrite HM.
    unfold bind at 1. unfold assert at 1. unfold bind at 1.
    rewrite Hn. unfold negb, assert, bind at 1. rewrite Hp. reflexivity.
  - unfold Vanilla.from_start, Vanilla.is_time, re_match. rewrite HV.
    unfold bind at 1. unfold assert at 1. unfold bind at 1.
    rewrite Hn. unfold negb, assert, bind at 1. rewrite Hp. reflexivity.
Qed.

Lemma from_start_sentinel (today : Dt.date) :
  Main.from_start today NONE_TIME = Raise (AssertionError "")
  /\ Vanilla.from_start today NONE_TIME = Raise (AssertionError "").
Proof. split; reflexivity. Qed.

(** * Further properties of the code *)

(** ** Times, dates and durations as text *)

Lemma time_valid_minute (t : Dt.time) :
  Dt.time_valid t = true -> minute_time (Some (Dt.mktime (Dt.hour t) (Dt.minute t) 0 0)).
Proof.
  destruct t as [h m s u]. unfold minute_time, Dt.time_valid.
  cbn [Dt.hour Dt.minute Dt.second Dt.microsecond]. rewrite !andb_true_iff.
  intros (((((((H1 & H2) & H3) & H4) & _) & _) & _) & _).
  repeat split; try assumption; reflexivity.
Qed.

(** X1.  What is written for a time is its hour and minute: reading the text of a
    valid time back gives that time with seconds and microseconds dropped,
    and the text of no time reads back as no time. *)
Theorem time_to_text_read_back (t : Dt.time) :
  Dt.time_valid t = true ->
  text_to_time (time_to_text (Some t)) = Ok (Some (Dt.mktime (Dt.hour t) (Dt.minute t) 0 0))
  /\ text_to_time (time_to_text None) = Ok None.
Proof.
  intros Hv. split; [|reflexivity].
  exact (text_to_time_formatted _ (time_valid_minute t Hv)).
Qed.

Lemma time_to_text_read_back_witness :
  Dt.time_valid (Dt.mktime 8 55 42 123456) = true
  /\ time_to_text (Some (Dt.mktime 8 55 42 123456)) = "08:55"
  /\ text_to_time "08:55" = Ok (Some (Dt.mktime 8 55 0 0)).
Proof.
  split; [reflexivity | split; [reflexivity|]].
  exact (proj1 (time_to_text_read_back (Dt.mktime 8 55 42 123456) eq_refl)).
Defined.

(** X2.  The date of a ledger line, read after its weekday prefix is cut off, is
    the date that was written, for every valid date from the year 1000 on. *)
Theorem date_to_text_read_back (d : Dt.date) :
  Dt.date_valid d = true -> 1000 <= Dt.year d ->
  text_to_date (drop 4 (date_to_text d)) = Ok d.
Proof.
  intros Hv Hy. unfold date_to_text, strftime_a_Ymd.
  change (day_abbr (Dt.weekday d) ++ " " ++ ?x)%string
    with (day_abbr (Dt.weekday d) ++ String " " x)%string.
  rewrite drop_day. exact (text_to_date_formatted d Hv Hy).
Qed.

Lemma date_to_text_read_back_witness :
  Dt.date_valid d_mon = true /\ 1000 <= Dt.year d_mon
  /\ text_to_date (drop 4 (date_to_text d_mon)) = Ok d_mon.
Proof.
  split; [reflexivity | split; [vm_compute; discriminate|]].
  apply date_to_text_read_back; [reflexivity | vm_compute; discriminate].
Defined.

(** X3.  Every record the constructor of [vanilla.py] accepts, with a valid date
    from the year 1000 on and times of whole minutes, is read back from its
    text by [from_text]; so is every such record of [main.py] that has a
    start.  In [vanilla.py] the day read is the [datetime] at midnight of the
    date written, which [strptime_Ymd] keeps as the date. *)
Theorem record_text_read_back
    (today d : Dt.date) (s e : option Dt.time) (t : Dt.time) :
  Dt.date_valid d = true -> 1000 <= Dt.year d -> minute_time s -> minute_time e ->
  (forall r, Vanilla.Record_ today (Some d) s e = Ok r ->
             Vanilla.from_text (Vanilla.text r) = Ok r)
  /\ (forall r, s = Some t -> Main.Record_ d s e = Ok r ->
                Main.from_text (Main.text r) = Ok r).
Proof.
  intros Hv Hy Hs He. split.
  - intros r Hr. unfold Vanilla.Record_ in Hr.
    destruct s as [s|], e as [e|]; cbn [assert bind] in Hr.
    + unfold assert in Hr. destruct (Dt.time_leb s e) eqn:E; [|discriminate].
      cbn [bind] in Hr. injection Hr as <-.
      apply Vanilla_from_text_text; cbn [Vanilla.day Vanilla.start Vanilla.stop]; auto.
      * left. discriminate.
      * intros s' e' Hs' He'. injection Hs' as <-. injection He' as <-.
        unfold Dt.time_leb in E. now apply negb_true_iff in E.
    + injection Hr as <-.
      apply Vanilla_from_text_text; cbn [Vanilla.day Vanilla.start Vanilla.stop]; auto.
      * left. discriminate.
      * intros s' e' _ He'. discriminate He'.
    + injection Hr as <-.
      apply Vanilla_from_text_text; cbn [Vanilla.day Vanilla.start Vanilla.stop]; auto.
      * right. discriminate.
      * intros s' e' Hs'. discriminate Hs'.
    + discriminate Hr.
  - intros r -> Hr. unfold Main.Record_, Main.check_either_start_or_end in Hr.
    cbn [Main.start Main.end_ bind] in Hr. unfold Main.check_start_before_end in Hr.
    cbn [Main.start Main.end_] in Hr. destruct e as [e|].
    + destruct (Dt.time_gtb t e) eqn:E; [discriminate|]. injection Hr as <-.
      apply Main_from_text_text_with_start with (s := t);
        cbn [Main.day Main.start Main.end_]; auto.
      intros e' He'. injection He' as <-. exact E.
    + injection Hr as <-.
      apply Main_from_text_text_with_start with (s := t);
        cbn [Main.day Main.start Main.end_]; auto.
      intros e' He'. discriminate He'.
Qed.

Lemma record_text_read_back_witness :
  Vanilla.from_text (Vanilla.text (Vanilla.MkRecord d_mon None (Some (hm 17 30))))
  = Ok (Vanilla.MkRecord d_mon None (Some (hm 17 30)))
  /\ Main.from_text (Main.text (Main.MkRecord d_tue (Some (hm 8 55)) None))
     = Ok (Main.MkRecord d_tue (Some (hm 8 55)) None).
Proof.
  split.
  - refine (proj1 (record_text_read_back d_tue d_mon None (Some (hm 17 30)) (hm 0 0)
                     eq_refl _ I _) _ eq_refl).
    + vm_compute. discriminate.
    + repeat split.
  - refine (proj2 (record_text_read_back d_mon d_tue (Some (hm 8 55)) None (hm 8 55)
                     eq_refl _ _ I) _ eq_refl eq_refl).
    + vm_compute. discriminate.
    + repeat split.
Defined.

(** X4.  [from_start] returns nothing but open records of today whose start is the
    time that its text reads as, and it does return one for the text of every
    valid time of whole minutes. *)
Theorem from_start_builds_open_records (today : Dt.date) :
  (forall text r, Main.from_start today text = Ok r ->
     exists t, r = Main.MkRecord today (Some t) None /\ text_to_time text = Ok (Some t))
  /\ (forall text r, Vanilla.from_start today text = Ok r ->
     exists t, r = Vanilla.MkRecord today (Some t) None /\ text_to_time text = Ok (Some t))
  /\ (forall t, minute_time (Some t) ->
        Main.from_start today (strftime_HM t) = Ok (Main.MkRecord today (Some t) None)
        /\ Vanilla.from_start today (strftime_HM t)
           = Ok (Vanilla.MkRecord today (Some t) None)).
Proof.
  split; [|split].
  - intros text r H. unfold Main.from_start, Main.is_time, re_match in H.
    cbn [bind] in H. unfold assert at 1 in H.
    destruct (Re.matches Main.TIME_REGEX text); [|discriminate]. cbn [bind] in H.
    unfold assert in H. destruct (String.eqb text NONE_TIME) eqn:E; [discriminate|].
    cbn [negb bind] in H. destruct (text_to_time text) as [[t|]|] eqn:Et; cbn [bind] in H.
    + exists t. split; [|reflexivity]. cbv in H. now injection H as <-.
    + discriminate.
    + discriminate.
  - intros text r H. unfold Vanilla.from_start, Vanilla.is_time, re_match in H.
    cbn [bind] in H. unfold assert at 1 in H.
    destruct (Re.matches Vanilla.REGEX_TIME text); [|discriminate]. cbn [bind] in H.
    unfold assert in H. destruct (String.eqb text NONE_TIME) eqn:E; [discriminate|].
    cbn [negb bind] in H. destruct (text_to_time text) as [[t|]|] eqn:Et; cbn [bind] in H.
    + exists t. split; [|reflexivity]. cbv in H. now injection H as <-.
    + discriminate.
    + discriminate.
  - intros t Ht. exact (from_start_formatted today t Ht).
Qed.

Lemma from_start_builds_open_records_witness :
  Main.from_start d_mon "08:55" = Ok (Main.MkRecord d_mon (Some (hm 8 55)) None)
  /\ exists t, Vanilla.MkRecord d_mon (Some (hm 9 0)) None
               = Vanilla.MkRecord d_mon (Some t) None
               /\ text_to_time "09:00" = Ok (Some t).
Proof.
  pose proof (from_start_builds_open_records d_mon) as (_ & HV & HF).
  split.
  - refine (proj1 (HF (hm 8 55) _)). repeat split.
  - exact (HV "09:00" (Vanilla.MkRecord d_mon (Some (hm 9 0)) None) eq_refl).
Defined.

(** X5.  [is_time] looks at the first five characters only: two digits, a colon
    and two digits are accepted whatever the digits are and whatever follows
    them. *)
Theorem is_time_tests_a_prefix (a b c d : ascii) (rest : string) :
  is_digit a = true -> is_digit b = true -> is_digit c = true -> is_digit d = true ->
  Main.is_time (PyStr (String a (String b (String ":" (String c (String d rest))))))
  = Ok true
  /\ Vanilla.is_time (PyStr (String a (String b (String ":" (String c (String d rest))))))
     = Ok true.
Proof.
  intros Ha Hb Hc Hd.
  assert (H : In rest (Re.ends Main.HH_MM
                         (String a (String b (String ":" (String c (String d rest))))))).
  { unfold Main.HH_MM. cbn [Re.rep]. unfold Re.digit.
    eapply in_ends_seq.
    - eapply in_ends_seq; [apply in_ends_cls; exact Ha|].
      eapply in_ends_seq; [apply in_ends_cls; exact Hb|]. apply in_ends_eps.
    - eapply in_ends_seq; [apply in_ends_chr|].
      eapply in_ends_seq; [apply in_ends_cls; exact Hc|].
      eapply in_ends_seq; [apply in_ends_cls; exact Hd|]. apply in_ends_eps. }
  split.
  - unfold Main.is_time, re_match, Main.TIME_REGEX. f_equal.
    apply matches_in with (s' := rest). rewrite ends_alt. apply in_or_app. now left.
  - unfold Vanilla.is_time, re_match, Vanilla.REGEX_TIME. f_equal.
    apply matches_in with (s' := rest). rewrite ends_alt. apply in_or_app. now left.
Qed.

Lemma is_time_tests_a_prefix_witness :
  Main.is_time (PyStr "25:99 or so") = Ok true
  /\ Vanilla.is_time (PyStr "25:99 or so") = Ok true.
Proof.
  exact (is_time_tests_a_prefix "2" "5" "9" "9" " or so" eq_refl eq_refl eq_refl eq_refl).
Defined.

(** *** Durations *)

Lemma fmt02_two_digits (n : Z) : 0 <= n < 100 -> fmt02 n = two_digits n.
Proof.
  intros H. assert (E : exists k : nat, n = Z.of_nat k /\ (k < 100)%nat).
  { exists (Z.to_nat n). split; lia. }
  destruct E as (k & -> & Hk). clear H.
  do 100 (destruct k as [|k]; [reflexivity|]). lia.
Qed.

Lemma td_seconds_small (t : Dt.timedelta) :
  0 <= t < Dt.us_per_day -> Dt.td_seconds t = t / 1000000.
Proof. intros H. unfold Dt.td_seconds. now rewrite Z.mod_small. Qed.

Lemma td_hours_minutes (h m r : Z) :
  0 <= h < 24 -> 0 <= m < 60 -> 0 <= r < 60000000 ->
  0 <= Dt.td h m + r < Dt.us_per_day
  /\ Dt.td_seconds (Dt.td h m + r) / 3600 = h
  /\ (Dt.td_seconds (Dt.td h m + r) / 60) mod 60 = m.
Proof.
  intros Hh Hm Hr. unfold Dt.td, Dt.us_per_day.
  assert (B : 0 <= (h * 60 + m) * 60 * 1000000 + r < 86400 * 1000000) by lia.
  split; [exact B|]. rewrite td_seconds_small by exact B.
  assert (E1 : ((h * 60 + m) * 60 * 1000000 + r) / 1000000 = (h * 60 + m) * 60 + r / 1000000).
  { replace ((h * 60 + m) * 60 * 1000000 + r) with (r + ((h * 60 + m) * 60) * 1000000) by ring.
    rewrite Z.div_add by lia. ring. }
  assert (Hr' : 0 <= r / 1000000 < 60).
  { split; [apply Z.div_pos; lia | apply Z.div_lt_upper_bound; lia]. }
  rewrite E1. set (q := r / 1000000) in *.
  assert (E2 : ((h * 60 + m) * 60 + q) / 60 = h * 60 + m).
  { replace ((h * 60 + m) * 60 + q) with (q + (h * 60 + m) * 60) by ring.
    rewrite Z.div_add by lia. rewrite (Z.div_small q 60) by lia. ring. }
  split.
  - replace 3600 with (60 * 60) by reflexivity.
    rewrite <- Z.div_div by lia. rewrite E2.
    replace (h * 60 + m) with (m + h * 60) by ring.
    rewrite Z.div_add by lia. rewrite (Z.div_small m 60) by lia. ring.
  - rewrite E2. replace (h * 60 + m) with (m + h * 60) by ring.
    rewrite Z.mod_add by lia. apply Z.mod_small. lia.
Qed.

Lemma timedelta_to_text_hm (h m r : Z) :
  0 <= h < 24 -> 0 <= m < 60 -> 0 <= r < 60000000 ->
  timedelta_to_text (Some (Dt.td h m + r)) = (two_digits h ++ ":" ++ two_digits m)%string.
Proof.
  intros Hh Hm Hr. destruct (td_hours_minutes h m r Hh Hm Hr) as (_ & E1 & E2).
  unfold timedelta_to_text. rewrite E1, E2.
  rewrite (fmt02_two_digits h), (fmt02_two_digits m) by lia. reflexivity.
Qed.

Lemma td_days_neg (t : Dt.timedelta) : (Dt.td_days t <? 0) = (t <? 0).
Proof.
  unfold Dt.td_days, Dt.us_per_day.
  destruct (Z.ltb_spec t 0) as [H|H].
  - apply Z.ltb_lt. apply Z.div_lt_upper_bound; lia.
  - apply Z.ltb_ge. apply Z.div_pos; lia.
Qed.

(** X6.  A duration below 24 hours renders as its hours and its minutes, two
    digits each, whatever its seconds are; the signed rendering puts [+]
    before the text of a duration that is not negative and [-] before the
    text of the opposite of a negative one. *)
Theorem durations_as_text (h m r : Z) :
  0 <= h < 24 -> 0 <= m < 60 -> 0 <= r < 60000000 ->
  timedelta_to_text (Some (Dt.td h m + r)) = (two_digits h ++ ":" ++ two_digits m)%string
  /\ signed_timedelta_to_text (Some (Dt.td h m + r))
     = ("+" ++ two_digits h ++ ":" ++ two_digits m)%string
  /\ (0 < Dt.td h m + r ->
      signed_timedelta_to_text (Some (- (Dt.td h m + r)))
      = ("-" ++ two_digits h ++ ":" ++ two_digits m)%string)
  /\ signed_timedelta_to_text None = "--:--".
Proof.
  intros Hh Hm Hr. pose proof (timedelta_to_text_hm h m r Hh Hm Hr) as T.
  destruct (td_hours_minutes h m r Hh Hm Hr) as (B & _).
  split; [exact T|]. unfold timedelta_to_text in T.
  split; [|split; [|reflexivity]].
  - unfold signed_timedelta_to_text. rewrite td_days_neg.
    rewrite (proj2 (Z.ltb_ge _ _)) by lia. cbv beta iota zeta. rewrite T. reflexivity.
  - intros Hpos. unfold signed_timedelta_to_text. rewrite td_days_neg.
    rewrite (proj2 (Z.ltb_lt _ _)) by lia. cbv beta iota zeta.
    replace (0 - - (Dt.td h m + r)) with (Dt.td h m + r) by ring.
    rewrite T. reflexivity.
Qed.

Lemma durations_as_text_witness :
  timedelta_to_text (Some (Dt.td 8 30 + 59000000)) = "08:30"
  /\ signed_timedelta_to_text (Some (- Dt.td 0 30)) = "-00:30"
  /\ signed_timedelta_to_text (Some (Dt.td 0 30)) = "+00:30".
Proof.
  split; [|split].
  - refine (proj1 (durations_as_text 8 30 59000000 _ _ _)); lia.
  - assert (H : 0 <= 0 < 24 /\ 0 <= 30 < 60 /\ 0 <= 0 < 60000000) by lia.
    destruct H as (H1 & H2 & H3).
    exact (proj1 (proj2 (proj2 (durations_as_text 0 30 0 H1 H2 H3))) eq_refl).
  - assert (H : 0 <= 0 < 24 /\ 0 <= 30 < 60 /\ 0 <= 0 < 60000000) by lia.
    destruct H as (H1 & H2 & H3).
    exact (proj1 (proj2 (durations_as_text 0 30 0 H1 H2 H3))).
Defined.

(** X7.  [text_to_timedelta] reads back what [timedelta_to_text] writes: for
    hours below 24 and whole minutes the duration read is the duration
    written, and the text of no duration reads back as none. *)
Theorem timedelta_text_read_back (h m : Z) :
  0 <= h < 24 -> 0 <= m < 60 ->
  text_to_timedelta (timedelta_to_text (Some (Dt.td h m))) = Ok (Some (Dt.td h m))
  /\ text_to_timedelta (timedelta_to_text None) = Ok None.
Proof.
  intros Hh Hm. split; [|reflexivity].
  assert (Hr : 0 <= 0 < 60000000) by lia.
  pose proof (timedelta_to_text_hm h m 0 Hh Hm Hr) as T. rewrite Z.add_0_r in T.
  unfold Dt.timedelta in *. rewrite T. clear T.
  assert (Hmt : minute_time (Some (Dt.mktime h m 0 0))).
  { unfold minute_time, Dt.time_valid. cbn [Dt.hour Dt.minute Dt.second Dt.microsecond].
    rewrite (proj2 (Z.leb_le 0 h)), (proj2 (Z.ltb_lt h 24)), (proj2 (Z.leb_le 0 m)),
      (proj2 (Z.ltb_lt m 60)) by lia. repeat split. }
  pose proof (text_to_time_formatted _ Hmt) as P.
  pose proof (strftime_HM_not_sentinel _ Hmt) as N.
  unfold time_to_text, strftime_HM in P. unfold strftime_HM in N.
  cbn [Dt.hour Dt.minute] in P, N.
  unfold text_to_time in P. unfold text_to_timedelta. rewrite N in *.
  destruct (strptime_HM (two_digits h ++ ":" ++ two_digits m)) as [t|e]; [|discriminate].
  cbn [bind] in *. injection P as ->. reflexivity.
Qed.

Lemma timedelta_text_read_back_witness :
  timedelta_to_text (Some (Dt.td 8 0)) = "08:00"
  /\ text_to_timedelta "08:00" = Ok (Some (Dt.td 8 0)).
Proof.
  split; [reflexivity|].
  refine (proj1 (timedelta_text_read_back 8 0 _ _)); lia.
Defined.

(** ** Worked time of records, Days and Weeks *)

Lemma time_us_bounds (t : Dt.time) :
  Dt.time_valid t = true -> 0 <= Dt.time_us t < Dt.us_per_day.
Proof.
  destruct t as [h m s u]. unfold Dt.time_valid, Dt.time_us, Dt.us_per_day.
  cbn [Dt.hour Dt.minute Dt.second Dt.microsecond].
  rewrite !andb_true_iff, !Z.leb_le, !Z.ltb_lt. lia.
Qed.

(** X8.  A record that a constructor accepts with both times has a worked time
    that is the distance from its start to its end, is not negative and stays
    below 24 hours; a record with an absent start or end has no worked time. *)
Theorem worktime_of_a_record (today d : Dt.date) (s e : Dt.time) :
  Dt.time_valid s = true -> Dt.time_valid e = true ->
  (forall r, Main.Record_ d (Some s) (Some e) = Ok r ->
     Main.worktime r = Some (Dt.time_us e - Dt.time_us s)
     /\ 0 <= Dt.time_us e - Dt.time_us s < Dt.us_per_day)
  /\ (forall r, Vanilla.Record_ today (Some d) (Some s) (Some e) = Ok r ->
     Vanilla.worktime r = Some (Dt.time_us e - Dt.time_us s)
     /\ 0 <= Dt.time_us e - Dt.time_us s < Dt.us_per_day)
  /\ Main.worktime (Main.MkRecord d (Some s) None) = None
  /\ Main.worktime (Main.MkRecord d None (Some e)) = None
  /\ Vanilla.worktime (Vanilla.MkRecord d (Some s) None) = None
  /\ Vanilla.worktime (Vanilla.MkRecord d None (Some e)) = None.
Proof.
  intros Hs He. pose proof (time_us_bounds s Hs). pose proof (time_us_bounds e He).
  pose proof (time_gtb_us s e Hs He) as G.
  split; [|split; [|repeat split]].
  - intros r Hr. unfold Main.Record_, Main.check_either_start_or_end in Hr.
    cbn [Main.start Main.end_ bind] in Hr. unfold Main.check_start_before_end in Hr.
    cbn [Main.start Main.end_] in Hr.
    destruct (Dt.time_gtb s e) eqn:E; [discriminate|]. injection Hr as <-.
    symmetry in G. apply Z.ltb_ge in G. split; [reflexivity | lia].
  - intros r Hr. unfold Vanilla.Record_, Dt.time_leb in Hr. cbn [assert bind] in Hr.
    unfold assert in Hr.
    destruct (Dt.time_gtb s e) eqn:E; [discriminate|]. cbn [negb bind] in Hr.
    injection Hr as <-. symmetry in G. apply Z.ltb_ge in G. split; [reflexivity | lia].
Qed.

Lemma worktime_of_a_record_witness :
  Main.worktime (Main.MkRecord d_mon (Some (hm 9 0)) (Some (hm 17 30))) = Some (Dt.td 8 30)
  /\ 0 <= Dt.time_us (hm 17 30) - Dt.time_us (hm 9 0) < Dt.us_per_day.
Proof.
  exact (proj1 (worktime_of_a_record d_mon d_mon (hm 9 0) (hm 17 30) eq_refl eq_refl)
           (Main.MkRecord d_mon (Some (hm 9 0)) (Some (hm 17 30))) eq_refl).
Defined.

Lemma has_none_app {A : Type} (l l' : list (option A)) :
  has_none (l ++ l') = has_none l || has_none l'.
Proof. unfold has_none. apply existsb_app. Qed.

Lemma somes_app {A : Type} (l l' : list (option A)) :
  somes (l ++ l') = (somes l ++ somes l')%list.
Proof.
  induction l as [|[a|] l IH]; simpl; [reflexivity | now rewrite IH | exact IH].
Qed.

Lemma fold_add_from (l : list Z) (a : Z) : fold_left Z.add l a = a + fold_left Z.add l 0.
Proof.
  revert a. induction l as [|x l IH]; intros a; simpl; [lia|].
  rewrite (IH (a + x)), (IH x). lia.
Qed.

Lemma sum_timedeltas_app (l l' : list Dt.timedelta) :
  sum_timedeltas (l ++ l') = sum_timedeltas l + sum_timedeltas l'.
Proof.
  unfold sum_timedeltas. rewrite fold_left_app. apply fold_add_from.
Qed.

Lemma sum_timedeltas_cons (x : Dt.timedelta) (l : list Dt.timedelta) :
  sum_timedeltas (x :: l) = x + sum_timedeltas l.
Proof. unfold sum_timedeltas. simpl. apply fold_add_from. Qed.

(** The sum of the optional durations of a list: none when one is missing. *)
Lemma total_app (l l' : list (option Dt.timedelta)) :
  (if has_none (l ++ l') then None else Some (sum_timedeltas (somes (l ++ l'))))
  = match (if has_none l then None else Some (sum_timedeltas (somes l))),
          (if has_none l' then None else Some (sum_timedeltas (somes l'))) with
    | Some a, Some b => Some (a + b)
    | _, _ => None
    end.
Proof.
  rewrite has_none_app, somes_app, sum_timedeltas_app.
  destruct (has_none l), (has_none l'); reflexivity.
Qed.

(** X9.  [add_record] refuses a record of another date.  A record of the Day's
    date is appended; the Day keeps its date and baseline, and its worked
    time is the one before plus that of the record, undefined when either is. *)
Theorem add_record_extends_a_day (d : Main.Day) (r : Main.record) :
  (Main.day r <> Main.Day_day d ->
   Main.add_record d r = Raise (AssertionError "Record must be from the same day!"))
  /\ (Main.day r = Main.Day_day d ->
      exists d', Main.add_record d r = Ok d'
        /\ Main.Day_records d' = (Main.Day_records d ++ [r])%list
        /\ Main.Day_day d' = Main.Day_day d /\ Main.baseline d' = Main.baseline d
        /\ Main.Day_worktime d'
           = match Main.Day_worktime d, Main.worktime r with
             | Some a, Some b => Some (a + b)
             | _, _ => None
             end).
Proof.
  split; intros H; unfold Main.add_record.
  - destruct (Dt.date_eqb (Main.day r) (Main.Day_day d)) eqn:E.
    + apply date_eqb_eq in E. contradiction.
    + reflexivity.
  - rewrite (proj2 (date_eqb_eq _ _) H). cbn [assert bind]. eexists. split; [reflexivity|].
    cbn [Main.Day_records Main.Day_day Main.baseline]. repeat split.
    unfold Main.Day_worktime. cbn [Main.Day_records]. rewrite map_app, total_app.
    cbn [map has_none existsb somes]. destruct (Main.worktime r) as [w|]; cbn [orb].
    + rewrite sum_timedeltas_cons. unfold sum_timedeltas at 2. cbn [fold_left].
      destruct (has_none (map Main.worktime (Main.Day_records d))); [reflexivity|].
      do 2 f_equal. lia.
    + destruct (has_none (map Main.worktime (Main.Day_records d))); reflexivity.
Qed.

Lemma add_record_extends_a_day_witness :
  Main.add_record day_closed r_open
  = Raise (AssertionError "Record must be from the same day!")
  /\ exists d', Main.add_record day_open r_open = Ok d'
       /\ Main.Day_records d' = (Main.Day_records day_open ++ [r_open])%list.
Proof.
  split.
  - refine (proj1 (add_record_extends_a_day day_closed r_open) _). discriminate.
  - destruct (proj2 (add_record_extends_a_day day_open r_open) eq_refl) as (d' & H1 & H2 & _).
    exists d'. split; assumption.
Defined.

Lemma Main_day_deltas (ds : list Main.Day) :
  has_none (map Main.Day_delta ds) = has_none (map Main.Day_worktime ds)
  /\ (has_none (map Main.Day_worktime ds) = false ->
      sum_timedeltas (somes (map Main.Day_delta ds))
      = sum_timedeltas (somes (map Main.Day_worktime ds))
        - sum_timedeltas (map Main.baseline ds)).
Proof.
  induction ds as [|d ds [IH1 IH2]]; [split; reflexivity|].
  cbn [map has_none existsb]. unfold Main.Day_delta at 1 3.
  destruct (Main.Day_worktime d) as [w|]; cbn [orb somes].
  - split; [exact IH1|]. intros H. rewrite !sum_timedeltas_cons, (IH2 H). lia.
  - split; [reflexivity | discriminate].
Qed.

Lemma Main_week_delta_eq (w : Main.Week) :
  Main.Week_delta w
  = match Main.Week_worktime w with
    | Some t => Some (t - sum_timedeltas (map Main.baseline (Main.days_of w)))
    | None => None
    end.
Proof.
  unfold Main.Week_delta, Main.Week_worktime.
  destruct (Main_day_deltas (Main.days_of w)) as [H1 H2]. rewrite H1.
  destruct (has_none (map Main.Day_worktime (Main.days_of w))); [reflexivity|].
  now rewrite H2.
Qed.

Lemma sum_constant_baselines (b : Dt.timedelta) : forall ds : list Main.Day,
  (forall d, In d ds -> Main.baseline d = b) ->
  sum_timedeltas (map Main.baseline ds) = Z.of_nat (List.length ds) * b.
Proof.
  induction ds as [|d ds IH]; intros Hb; [reflexivity|].
  cbn [map List.length]. rewrite sum_timedeltas_cons, IH.
  - rewrite (Hb d) by (now left). lia.
  - intros d' Hd'. apply Hb. now right.
Qed.

(** X10.  The delta of a Week is its worked time minus the baselines of its Days,
    and is undefined exactly when the worked time is; when all its Days have
    the baseline [b] that is the worked time minus [b] for each Day. *)
Theorem week_delta_from_worktime (w : Main.Week) (b : Dt.timedelta) :
  Main.Week_delta w
  = match Main.Week_worktime w with
    | Some t => Some (t - sum_timedeltas (map Main.baseline (Main.days_of w)))
    | None => None
    end
  /\ ((forall d, In d (Main.days_of w) -> Main.baseline d = b) ->
      Main.Week_delta w
      = match Main.Week_worktime w with
        | Some t => Some (t - Z.of_nat (List.length (Main.days_of w)) * b)
        | None => None
        end).
Proof.
  split; [exact (Main_week_delta_eq w)|]. intros Hb.
  rewrite Main_week_delta_eq, (sum_constant_baselines b _ Hb). reflexivity.
Qed.

Lemma week_delta_from_worktime_witness :
  Main.Week_worktime (Main.MkWeek (2024, 3) [day_closed; day_closed]) = Some (Dt.td 17 0)
  /\ Main.Week_delta (Main.MkWeek (2024, 3) [day_closed; day_closed])
     = Some (Dt.td 17 0 - 2 * Dt.td 8 0).
Proof.
  split; [reflexivity|].
  refine (proj2 (week_delta_from_worktime (Main.MkWeek (2024, 3) [day_closed; day_closed])
                   (Dt.td 8 0)) _).
  intros d [<- | [<- | []]]; reflexivity.
Defined.

(** ** What [from_text] and [load] return *)

Lemma field12_bounds (lo hi : Z) (s : string) (v : Z) :
  field12 lo hi s = Some v -> lo <= v <= hi.
Proof.
  unfold field12. destruct (digits_val s) as [x|]; [|discriminate].
  destruct ((String.length s <=? 2)%nat && (lo <=? x) && (x <=? hi)) eqn:E; [|discriminate].
  intros H. injection H as <-. apply andb_true_iff in E as [E E3].
  apply andb_true_iff in E as [_ E2]. apply Z.leb_le in E2, E3. lia.
Qed.

Lemma text_to_date_valid (s : string) (d : Dt.date) :
  text_to_date s = Ok d -> Dt.date_valid d = true.
Proof.
  unfold text_to_date, strptime_Ymd.
  destruct (split "-" s) as [|y [|m [|dd [|? ?]]]]; try discriminate.
  destruct (field_Y y); [|discriminate]. destruct (field_m m); [|discriminate].
  destruct (field_d dd); [|discriminate].
  destruct (Dt.date_valid _) eqn:E; [|discriminate]. intros H. now injection H as <-.
Qed.

Lemma text_to_time_minute (s : string) (t : option Dt.time) :
  text_to_time s = Ok t -> minute_time t.
Proof.
  unfold text_to_time, strptime_HM.
  destruct (String.eqb s NONE_TIME); [intros H; injection H as <-; exact I|].
  destruct (split ":" s) as [|h [|m [|? ?]]]; try discriminate.
  destruct (field_H h) as [h'|] eqn:Eh; [|discriminate].
  destruct (field_M m) as [m'|] eqn:Em; [|discriminate].
  cbn [bind]. intros H. injection H as <-.
  apply field12_bounds in Eh, Em. unfold minute_time, Dt.time_valid.
  cbn [Dt.hour Dt.minute Dt.second Dt.microsecond].
  rewrite (proj2 (Z.leb_le 0 h')), (proj2 (Z.ltb_lt h' 24)), (proj2 (Z.leb_le 0 m')),
    (proj2 (Z.ltb_lt m' 60)) by lia. repeat split.
Qed.

Lemma Main_Record_ok (d : Dt.date) (s e : option Dt.time) (r : Main.record) :
  Main.Record_ d s e = Ok r ->
  r = Main.MkRecord d s e
  /\ (s <> None \/ e <> None)
  /\ (forall s' e', s = Some s' -> e = Some e' -> Dt.time_gtb s' e' = false).
Proof.
  unfold Main.Record_, Main.check_either_start_or_end, Main.check_start_before_end.
  destruct s as [s|], e as [e|]; cbn [Main.start Main.end_ bind]; intros H.
  - destruct (Dt.time_gtb s e) eqn:E; [discriminate|]. injection H as <-.
    split; [reflexivity | split; [left; discriminate|]].
    intros s' e' Hs' He'. injection Hs' as <-. injection He' as <-. exact E.
  - injection H as <-. split; [reflexivity | split; [left; discriminate|]].
    intros s' e' _ He'. discriminate He'.
  - injection H as <-. split; [reflexivity | split; [right; discriminate|]].
    intros s' e' Hs'. discriminate Hs'.
  - discriminate H.
Qed.

Lemma Vanilla_Record_ok (today : Dt.date) (d : Dt.date) (s e : option Dt.time)
    (r : Vanilla.record) :
  Vanilla.Record_ today (Some d) s e = Ok r ->
  r = Vanilla.MkRecord d s e
  /\ (s <> None \/ e <> None)
  /\ (forall s' e', s = Some s' -> e = Some e' -> Dt.time_gtb s' e' = false).
Proof.
  unfold Vanilla.Record_, Dt.time_leb, assert.
  destruct s as [s|], e as [e|]; cbn [bind]; intros H.
  - destruct (Dt.time_gtb s e) eqn:E; cbn [negb bind] in H; [discriminate|].
    injection H as <-. split; [reflexivity | split; [left; discriminate|]].
    intros s' e' Hs' He'. injection Hs' as <-. injection He' as <-. exact E.
  - injection H as <-. split; [reflexivity | split; [left; discriminate|]].
    intros s' e' _ He'. discriminate He'.
  - injection H as <-. split; [reflexivity | split; [right; discriminate|]].
    intros s' e' Hs'. discriminate Hs'.
  - discriminate H.
Qed.

Lemma Main_from_text_well_formed (l : string) (r : Main.record) :
  Main.from_text l = Ok r -> well_formed_main r.
Proof.
  unfold Main.from_text, assert. destruct (Main.is_record l); [|discriminate].
  cbn [bind]. destruct (split SP (drop 4 l)) as [|d [|s [|e [|? ?]]]]; try discriminate.
  destruct (text_to_date d) as [d'|] eqn:Ed; [|discriminate].
  destruct (text_to_time s) as [s'|] eqn:Es; [|discriminate].
  destruct (text_to_time e) as [e'|] eqn:Ee; [|discriminate].
  cbn [bind]. intros H. apply Main_Record_ok in H as (-> & I1 & I2).
  unfold well_formed_main. cbn [Main.day Main.start Main.end_].
  split; [exact (text_to_date_valid _ _ Ed)|].
  split; [exact (text_to_time_minute _ _ Es)|].
  split; [exact (text_to_time_minute _ _ Ee)|]. split; assumption.
Qed.

Lemma Vanilla_from_text_well_formed (l : string) (r : Vanilla.record) :
  Vanilla.from_text l = Ok r -> well_formed_vanilla r.
Proof.
  unfold Vanilla.from_text, assert. destruct (Vanilla.is_record l); [|discriminate].
  cbn [bind]. destruct (split SP (drop 4 l)) as [|d [|s [|e [|? ?]]]]; try discriminate.
  destruct (text_to_date d) as [d'|] eqn:Ed; [|discriminate].
  destruct (text_to_time s) as [s'|] eqn:Es; [|discriminate].
  destruct (text_to_time e) as [e'|] eqn:Ee; [|discriminate].
  cbn [bind]. intros H. apply Vanilla_Record_ok in H as (-> & I1 & I2).
  unfold well_formed_vanilla. cbn [Vanilla.day Vanilla.start Vanilla.stop].
  split; [exact (text_to_date_valid _ _ Ed)|].
  split; [exact (text_to_time_minute _ _ Es)|].
  split; [exact (text_to_time_minute _ _ Ee)|]. split; assumption.
Qed.

Lemma Main_load_loop_well_formed : forall lines acc rs,
  Forall well_formed_main acc -> Main.load_loop lines acc = Ok rs ->
  Forall well_formed_main rs.
Proof.
  induction lines as [|l lines IH]; intros acc rs Hacc H; simpl in H.
  - now injection H as <-.
  - destruct (Main.from_text l) as [r|e] eqn:E; [|discriminate].
    apply (IH (acc ++ [r])%list rs); [|exact H].
    apply Forall_app. split; [exact Hacc|].
    constructor; [exact (Main_from_text_well_formed _ _ E) | constructor].
Qed.

Lemma Vanilla_load_loop_well_formed (p : string) (all : list string) : forall lines acc out rs,
  Forall well_formed_vanilla acc -> Vanilla.load_loop p all lines acc = (out, Ok rs) ->
  Forall well_formed_vanilla rs /\ out = [].
Proof.
  induction lines as [|l lines IH]; intros acc out rs Hacc H; simpl in H.
  - injection H as <- <-. split; [assumption | reflexivity].
  - destruct (Vanilla.from_text l) as [r|e] eqn:E.
    + apply (IH (acc ++ [r])%list out rs); [|exact H].
      apply Forall_app. split; [exact Hacc|].
      constructor; [exact (Vanilla_from_text_well_formed _ _ E) | constructor].
    + destruct e; try discriminate. destruct (index l all); discriminate.
Qed.

(** X11.  Whatever [load] returns satisfies what the constructors demand: every
    record has a valid date, times of whole minutes, a start or an end, and
    no start after its end.  When [load] of [vanilla.py] returns, it has
    printed nothing. *)
Theorem load_returns_well_formed_records (f : fs) (p : string) :
  (forall out rs, Main.load f p = (out, Ok rs) -> Forall well_formed_main rs /\ out = [])
  /\ (forall out rs, Vanilla.load f p = (out, Ok rs) ->
        Forall well_formed_vanilla rs /\ out = []).
Proof.
  split; intros out rs H.
  - unfold Main.load in H. destruct (f p) as [content|].
    + injection H as <- H. split; [|reflexivity].
      exact (Main_load_loop_well_formed _ _ _ (Forall_nil _) H).
    + injection H as <- <-. split; [constructor | reflexivity].
  - unfold Vanilla.load in H. destruct (f p) as [content|].
    + exact (Vanilla_load_loop_well_formed _ _ _ _ _ _ (Forall_nil _) H).
    + injection H as <- <-. split; [constructor | reflexivity].
Qed.

Lemma load_returns_well_formed_records_witness :
  Forall well_formed_vanilla
    [Vanilla.MkRecord d_mon (Some (hm 9 0)) (Some (hm 17 30));
     Vanilla.MkRecord d_tue (Some (hm 8 55)) None].
Proof.
  exact (proj1 (proj2 (load_returns_well_formed_records ledger_two "db.txt") [] _ eq_refl)).
Defined.

Lemma Vanilla_load_loop_other_error (p : string) (all pre : list string) (line : string)
    (rest : list string) (e : exn) :
  Forall parses_vanilla pre -> Vanilla.from_text line = Raise e ->
  (forall msg, e <> AssertionError msg) ->
  forall recs, Vanilla.load_loop p all (pre ++ line :: rest) recs = ([], Raise e).
Proof.
  intros Hpre Hline He. induction Hpre as [|l pre Hl _ IH]; intros recs; simpl.
  - rewrite Hline. destruct e; try reflexivity. exfalso. exact (He msg eq_refl).
  - unfold parses_vanilla in Hl. destruct (Vanilla.from_text l); [apply IH | discriminate].
Qed.

(** X12.  [load] of [vanilla.py] catches the [AssertionError] only.  A line that
    passes [is_record] and then fails in [strptime], such as one with text
    after the stop or with a day that the month does not have, ends [load]
    in that [ValueError]: nothing is printed and the process does not exit
    with status 1. *)
Theorem vanilla_load_lets_value_errors_through
    (f : fs) (p content line : string) (pre rest : list string) :
  f p = Some content ->
  map remove_lf (readlines content) = (pre ++ line :: rest)%list ->
  Forall parses_vanilla pre ->
  Vanilla.from_text line = Raise ValueError ->
  Vanilla.load f p = ([], Raise ValueError).
Proof.
  intros Hf Hlines Hpre Hline. unfold Vanilla.load. rewrite Hf, Hlines.
  apply Vanilla_load_loop_other_error; [exact Hpre | exact Hline | discriminate].
Qed.

Lemma vanilla_load_lets_value_errors_through_witness :
  Vanilla.is_record "Fri 2024-02-30 09:00 17:00" = true
  /\ Vanilla.load
       (fs_write fs_empty "db.txt"
          ("Mon 2024-01-15 09:00 17:30" ++ NL ++ "Fri 2024-02-30 09:00 17:00"))
       "db.txt"
     = ([], Raise ValueError).
Proof.
  split; [reflexivity|].
  refine (vanilla_load_lets_value_errors_through _ "db.txt"
            ("Mon 2024-01-15 09:00 17:30" ++ NL ++ "Fri 2024-02-30 09:00 17:00")
            "Fri 2024-02-30 09:00 17:00" ["Mon 2024-01-15 09:00 17:30"] []
            eq_refl eq_refl _ eq_refl).
  constructor; [reflexivity | constructor].
Defined.

(** ** Starting and stopping *)

(** X13.  [start] and [end] / [stop] never fail on a time.  They keep the path and
    the baseline of the ledger, and they keep that every record has a start
    or an end.  [start] makes the ledger one record longer and leaves it
    with an open last record that starts at the given time; [end] makes it at
    most one record longer and leaves it with a last record that ends at the
    given time. *)
Theorem start_and_end_keep_the_ledger
    (p : string) (b : Dt.timedelta) (rs : list Main.record) (vs : list Vanilla.record)
    (f : fs) (today : Dt.date) (t : Dt.time) :
  Forall has_time_main rs -> Forall has_time_vanilla vs ->
  (exists rs' l,
      Main.DB_start (Main.MkDB p b rs) f today t
      = Ok (Main.MkDB p b (rs' ++ [l]), Main.save (Main.MkDB p b (rs' ++ [l])) f)
      /\ Forall has_time_main (rs' ++ [l]) /\ rs' = rs
      /\ Main.start l = Some t /\ Main.end_ l = None)
  /\ (exists rs' l,
      Main.DB_end (Main.MkDB p b rs) f today t
      = Ok (Main.MkDB p b (rs' ++ [l]), Main.save (Main.MkDB p b (rs' ++ [l])) f)
      /\ Forall has_time_main (rs' ++ [l])
      /\ (List.length rs <= List.length (rs' ++ [l]) <= S (List.length rs))%nat
      /\ Main.end_ l = Some t)
  /\ (exists vs' l,
      Vanilla.DB_start (Vanilla.MkDB p b vs) f today t
      = Ok (Vanilla.MkDB p b (vs' ++ [l]), Vanilla.save (Vanilla.MkDB p b (vs' ++ [l])) f)
      /\ Forall has_time_vanilla (vs' ++ [l]) /\ vs' = vs
      /\ Vanilla.start l = Some t /\ Vanilla.stop l = None)
  /\ (exists vs' l,
      Vanilla.DB_stop (Vanilla.MkDB p b vs) f today t
      = Ok (Vanilla.MkDB p b (vs' ++ [l]), Vanilla.save (Vanilla.MkDB p b (vs' ++ [l])) f)
      /\ Forall has_time_vanilla (vs' ++ [l])
      /\ (List.length vs <= List.length (vs' ++ [l]) <= S (List.length vs))%nat
      /\ Vanilla.stop l = Some t).
Proof.
  intros Hrs Hvs. split; [|split; [|split]].
  - exists rs, (Main.MkRecord today (Some t) None).
    split; [reflexivity|]. split; [|repeat split].
    apply Forall_app. split; [exact Hrs|]. constructor; [left; discriminate | constructor].
  - destruct rs as [|r0 rs0] using rev_ind.
    + exists [], (Main.MkRecord today None (Some t)).
      split; [reflexivity|]. split; [|split; [simpl; lia | reflexivity]].
      constructor; [right; discriminate | constructor].
    + clear IHrs0. apply Forall_app in Hrs as [Hrs0 Hr0].
      destruct r0 as [d s [e|]].
      * exists (rs0 ++ [Main.MkRecord d s (Some e)])%list, (Main.MkRecord today None (Some t)).
        split; [|split; [|split; [rewrite !length_app; simpl; lia | reflexivity]]].
        -- unfold Main.DB_end, Main.last, Main.empty; simpl.
           rewrite length_snoc_eqb, rev_app_distr; simpl. reflexivity.
        -- apply Forall_app. split; [apply Forall_app; split; assumption|].
           constructor; [right; discriminate | constructor].
      * exists rs0, (Main.MkRecord d s (Some t)).
        split; [|split; [|split; [rewrite !length_app; simpl; lia | reflexivity]]].
        -- unfold Main.DB_end, Main.last, Main.empty, Main.set_last_end; simpl.
           rewrite length_snoc_eqb, rev_app_distr; simpl. now rewrite rev_involutive.
        -- apply Forall_app. split; [exact Hrs0|].
           constructor; [right; discriminate | constructor].
  - exists vs, (Vanilla.MkRecord today (Some t) None).
    split; [reflexivity|]. split; [|repeat split].
    apply Forall_app. split; [exact Hvs|]. constructor; [left; discriminate | constructor].
  - destruct vs as [|r0 vs0] using rev_ind.
    + exists [], (Vanilla.MkRecord today None (Some t)).
      split; [reflexivity|]. split; [|split; [simpl; lia | reflexivity]].
      constructor; [right; discriminate | constructor].
    + clear IHvs0. apply Forall_app in Hvs as [Hvs0 Hr0].
      destruct r0 as [d s [e|]].
      * exists (vs0 ++ [Vanilla.MkRecord d s (Some e)])%list,
          (Vanilla.MkRecord today None (Some t)).
        split; [|split; [|split; [rewrite !length_app; simpl; lia | reflexivity]]].
        -- unfold Vanilla.DB_stop, Vanilla.last, Vanilla.empty; simpl.
           rewrite length_snoc_eqb, rev_app_distr; simpl. reflexivity.
        -- apply Forall_app. split; [apply Forall_app; split; assumption|].
           constructor; [right; discriminate | constructor].
      * exists vs0, (Vanilla.MkRecord d s (Some t)).
        split; [|split; [|split; [rewrite !length_app; simpl; lia | reflexivity]]].
        -- unfold Vanilla.DB_stop, Vanilla.last, Vanilla.empty, Vanilla.set_last_stop; simpl.
           rewrite length_snoc_eqb, rev_app_distr; simpl. now rewrite rev_involutive.
        -- apply Forall_app. split; [exact Hvs0|].
           constructor; [right; discriminate | constructor].
Qed.

Lemma start_and_end_keep_the_ledger_witness :
  exists rs' l,
    Main.DB_end (Main.MkDB "db.txt" (Dt.td 8 0) [r_closed; r_open]) fs_empty d_tue (hm 17 0)
    = Ok (Main.MkDB "db.txt" (Dt.td 8 0) (rs' ++ [l]),
          Main.save (Main.MkDB "db.txt" (Dt.td 8 0) (rs' ++ [l])) fs_empty)
    /\ Main.end_ l = Some (hm 17 0).
Proof.
  assert (H1 : Forall has_time_main [r_closed; r_open]).
  { constructor; [left; discriminate|]. constructor; [left; discriminate | constructor]. }
  destruct (proj1 (proj2 (start_and_end_keep_the_ledger "db.txt" (Dt.td 8 0)
                            [r_closed; r_open] [] fs_empty d_tue (hm 17 0) H1 (Forall_nil _))))
    as (rs' & l & H & _ & _ & He).
  exists rs', l. split; assumption.
Defined.


(** ** Saving and loading *)

Lemma readlines_aux_line (w : string) : forall cur rest,
  lacks LF w = true -> readlines_aux cur (w ++ rest) = readlines_aux (cur ++ w) rest.
Proof.
  induction w as [|c w IH]; intros cur rest H.
  - now rewrite append_nil_r.
  - cbn [lacks] in H. apply andb_true_iff in H as [Hc Hw]. apply negb_true_iff in Hc.
    cbn [append readlines_aux]. rewrite Hc, (IH _ _ Hw), append_assoc. reflexivity.
Qed.

Lemma remove_lf_lacks (w : string) : lacks LF w = true -> remove_lf w = w.
Proof.
  induction w as [|c w IH]; intros H; [reflexivity|].
  cbn [lacks] in H. apply andb_true_iff in H as [Hc Hw]. apply negb_true_iff in Hc.
  cbn [remove_lf]. now rewrite Hc, (IH Hw).
Qed.

Lemma remove_lf_line (w : string) :
  lacks LF w = true -> remove_lf (w ++ String LF EmptyString) = w.
Proof.
  induction w as [|c w IH]; intros H; [reflexivity|].
  cbn [lacks] in H. apply andb_true_iff in H as [Hc Hw]. apply negb_true_iff in Hc.
  cbn [append remove_lf]. now rewrite Hc, (IH Hw).
Qed.

(** Lines without a line feed, none of them empty, are what [readlines]
    finds in their [join], once the line feeds are removed. *)
Lemma readlines_join (ws : list string) :
  Forall (fun w => lacks LF w = true /\ w <> EmptyString) ws ->
  map remove_lf (readlines (join NL ws)) = ws.
Proof.
  induction ws as [|w ws IH]; intros H; [reflexivity|].
  inversion H as [|? ? [Hl Hne] Hws]; subst. unfold readlines in *.
  destruct ws as [|w' ws].
  - cbn [join]. rewrite <- (append_nil_r w) at 1.
    rewrite (readlines_aux_line w _ _ Hl). cbn [append readlines_aux].
    destruct w; [contradiction|]. cbn [map]. now rewrite (remove_lf_lacks _ Hl).
  - change (join NL (w :: w' :: ws)) with (w ++ String LF (join NL (w' :: ws)))%string.
    rewrite (readlines_aux_line w _ _ Hl). cbn [append readlines_aux].
    rewrite Ascii.eqb_refl. cbn [map]. rewrite (remove_lf_line _ Hl), (IH Hws). reflexivity.
Qed.

Lemma digit_char_not_lf (d : Z) : 0 <= d <= 9 -> Ascii.eqb (digit_char d) LF = false.
Proof. intros H. by_digit d H. Qed.

Lemma lacks_lf_two_digits (n : Z) : 0 <= n < 100 -> lacks LF (two_digits n) = true.
Proof.
  intros H. destruct (div_mod_digits n H) as [H1 H2].
  unfold two_digits. cbn [lacks].
  rewrite (digit_char_not_lf _ H1), (digit_char_not_lf _ H2). reflexivity.
Qed.

Lemma lacks_lf_four_digits (y : Z) : 1000 <= y <= 9999 -> lacks LF (four_digits y) = true.
Proof.
  intros H. destruct (year_digits y H) as (H1 & H2 & H3).
  unfold four_digits. cbn [lacks].
  rewrite (digit_char_not_lf _ H1), (digit_char_not_lf _ H2), (lacks_lf_two_digits _ H3).
  reflexivity.
Qed.

Lemma lacks_lf_day_abbr (w : Z) : lacks LF (day_abbr w) = true.
Proof.
  unfold day_abbr.
  repeat match goal with
         | |- context [if ?b then _ else _] => destruct b
         end; reflexivity.
Qed.

Lemma lacks_lf_time_to_text (t : option Dt.time) :
  minute_time t -> lacks LF (time_to_text t) = true.
Proof.
  destruct t as [tm|]; [|reflexivity]. intros (Hv & _).
  destruct (time_fields _ Hv) as (H & M).
  unfold time_to_text, strftime_HM.
  rewrite !lacks_app, (lacks_lf_two_digits (Dt.hour tm)), (lacks_lf_two_digits (Dt.minute tm))
    by lia. reflexivity.
Qed.

Lemma lacks_lf_line (d : Dt.date) (s e : option Dt.time) :
  Dt.date_valid d = true -> 1000 <= Dt.year d -> minute_time s -> minute_time e ->
  lacks LF (date_to_text d ++ " " ++ time_to_text s ++ " " ++ time_to_text e) = true
  /\ (date_to_text d ++ " " ++ time_to_text s ++ " " ++ time_to_text e)%string
     <> EmptyString.
Proof.
  intros Hv Hy Hs He. destruct (date_fields d Hv Hy) as (Y & M & D). split.
  - unfold date_to_text, strftime_a_Ymd.
    rewrite !lacks_app, lacks_lf_day_abbr, (lacks_lf_four_digits _ Y),
      (lacks_lf_two_digits (Dt.month d)), (lacks_lf_two_digits (Dt.day d)),
      (lacks_lf_time_to_text s Hs), (lacks_lf_time_to_text e He) by lia.
    reflexivity.
  - unfold date_to_text, strftime_a_Ymd.
    destruct (day_abbr_shape (Dt.weekday d)) as (a & b & c & -> & _). discriminate.
Qed.

Lemma Main_load_loop_texts : forall rs acc,
  Forall (fun r => Main.from_text (Main.text r) = Ok r) rs ->
  Main.load_loop (map Main.text rs) acc = Ok (acc ++ rs)%list.
Proof.
  induction rs as [|r rs IH]; intros acc H; cbn [map Main.load_loop].
  - now rewrite app_nil_r.
  - inversion H as [|? ? Hr Hrs]; subst. rewrite Hr, (IH _ Hrs), <- app_assoc. reflexivity.
Qed.

Lemma Vanilla_load_loop_texts (p : string) (all : list string) : forall rs acc,
  Forall (fun r => Vanilla.from_text (Vanilla.text r) = Ok r) rs ->
  Vanilla.load_loop p all (map Vanilla.text rs) acc = ([], Ok (acc ++ rs)%list).
Proof.
  induction rs as [|r rs IH]; intros acc H; cbn [map Vanilla.load_loop].
  - now rewrite app_nil_r.
  - inversion H as [|? ? Hr Hrs]; subst. rewrite Hr, (IH _ Hrs), <- app_assoc. reflexivity.
Qed.

(** X15.  A ledger that is saved and loaded again is the ledger that was saved, in
    [vanilla.py] for every ledger of well-formed records dated from the year
    1000 on, in [main.py] for those ledgers of which every record has a
    start.  Nothing is printed.  In [vanilla.py] the days loaded are the
    [datetime]s at midnight of the dates saved, kept here as the dates. *)
Theorem save_then_load
    (p : string) (b : Dt.timedelta) (f : fs)
    (rs : list Main.record) (vs : list Vanilla.record) :
  (Forall (fun r => well_formed_vanilla r /\ 1000 <= Dt.year (Vanilla.day r)) vs ->
   Vanilla.load (Vanilla.save (Vanilla.MkDB p b vs) f) p = ([], Ok vs))
  /\ (Forall (fun r => well_formed_main r /\ 1000 <= Dt.year (Main.day r)
                       /\ Main.start r <> None) rs ->
      Main.load (Main.save (Main.MkDB p b rs) f) p = ([], Ok rs)).
Proof.
  split; intros H.
  - unfold Vanilla.load, Vanilla.save, fs_write. cbn [Vanilla.path Vanilla.records].
    rewrite String.eqb_refl. rewrite readlines_join.
    + apply (Vanilla_load_loop_texts p _ vs []). eapply Forall_impl; [|exact H].
      intros r ((Hv & Hs & He & I1 & I2) & Hy). cbv beta.
      now apply Vanilla_from_text_text.
    + apply Forall_map. eapply Forall_impl; [|exact H].
      intros r ((Hv & Hs & He & _) & Hy). cbv beta.
      exact (lacks_lf_line _ _ _ Hv Hy Hs He).
  - unfold Main.load, Main.save, fs_write. cbn [Main.path Main.records].
    rewrite String.eqb_refl. rewrite readlines_join.
    + f_equal. apply (Main_load_loop_texts rs []). eapply Forall_impl; [|exact H].
      intros r ((Hv & Hs & He & I1 & I2) & Hy & Hst). cbv beta.
      destruct (Main.start r) as [s|] eqn:Es; [|contradiction].
      apply Main_from_text_text_with_start with (s := s); try assumption.
      * now rewrite Es.
      * intros e' He'. exact (I2 s e' eq_refl He').
    + apply Forall_map. eapply Forall_impl; [|exact H].
      intros r ((Hv & Hs & He & _) & Hy & _). cbv beta.
      exact (lacks_lf_line _ _ _ Hv Hy Hs He).
Qed.

Lemma save_then_load_witness :
  Vanilla.load
    (Vanilla.save (Vanilla.MkDB "db.txt" (Dt.td 8 0)
                     [Vanilla.MkRecord d_mon (Some (hm 9 0)) (Some (hm 17 30));
                      Vanilla.MkRecord d_tue None (Some (hm 17 0))]) fs_empty) "db.txt"
  = ([], Ok [Vanilla.MkRecord d_mon (Some (hm 9 0)) (Some (hm 17 30));
             Vanilla.MkRecord d_tue None (Some (hm 17 0))]).
Proof.
  refine (proj1 (save_then_load "db.txt" (Dt.td 8 0) fs_empty [] _) _).
  constructor; [|constructor; [|constructor]].
  - split; [|vm_compute; discriminate].
    split; [reflexivity|]. split; [repeat split|]. split; [repeat split|].
    split; [left; discriminate|].
    intros s e Hs He. injection Hs as <-. injection He as <-. reflexivity.
  - split; [|vm_compute; discriminate].
    split; [reflexivity|]. split; [exact I|]. split; [repeat split|].
    split; [right; discriminate|].
    intros s e Hs. discriminate Hs.
Defined.

Lemma Main_is_record_without_start (r : Main.record) :
  Main.start r = None -> Main.is_record (Main.text r) = false.
Proof.
  intros Hs.
  unfold Main.is_record, Re.matches, Main.RECORD_REGEX, Main.text, date_to_text,
    strftime_a_Ymd. rewrite Hs.
  destruct (day_abbr_shape (Dt.weekday (Main.day r))) as (a & b & c & -> & Ha & _).
  rewrite !ends_alt.
  rewrite (matches_lin_none (Re.Seq Main.DATE_REGEX (Re.Seq (Re.Chr " ") Main.HH_MM)) _ _
             eq_refl).
  2:{ eapply (run_none_at 15); [reflexivity | reflexivity | reflexivity]. }
  rewrite (matches_lin_none (Re.Seq Main.BRACED_NAME (Re.Seq (Re.Chr " ") Main.HH_MM)) _ _
             eq_refl).
  2:{ eapply (run_none_at 0); [reflexivity | reflexivity | exact Ha]. }
  rewrite (matches_lin_none Main.BRACED_NAME _ _ eq_refl).
  2:{ eapply (run_none_at 0); [reflexivity | reflexivity | exact Ha]. }
  reflexivity.
Qed.

(** X16.  In [main.py] a ledger that holds a record without a start is saved to a
    file that [load] refuses: when the records before it have a start, the
    [AssertionError] of [from_text] on its line ends the load.  This is the
    file that [end] leaves on an empty ledger. *)
Theorem main_refuses_its_own_half_record
    (p : string) (b : Dt.timedelta) (f : fs)
    (pre : list Main.record) (r : Main.record) (rest : list Main.record) :
  Forall (fun r => well_formed_main r /\ 1000 <= Dt.year (Main.day r)) (pre ++ r :: rest) ->
  Forall (fun r => Main.start r <> None) pre ->
  Main.start r = None ->
  Main.load (Main.save (Main.MkDB p b (pre ++ r :: rest)) f) p
  = ([], Raise (AssertionError "")).
Proof.
  intros Hall Hpre Hr.
  unfold Main.load, Main.save, fs_write. cbn [Main.path Main.records].
  rewrite String.eqb_refl. rewrite readlines_join.
  - f_equal. rewrite map_app. cbn [map].
    apply Main_load_loop_first_failure.
    + apply Forall_map. apply Forall_app in Hall as [Hall _].
      rewrite Forall_forall in *. intros x Hx. unfold parses_main.
      destruct (Hall x Hx) as ((Hv & Hs & He & I1 & I2) & Hy).
      pose proof (Hpre x Hx) as Hst. destruct (Main.start x) as [s|] eqn:Es; [|contradiction].
      rewrite (Main_from_text_text_with_start x s); try assumption; try reflexivity.
      * now rewrite Es.
      * intros e' He'. exact (I2 s e' eq_refl He').
    + apply Main_from_text_grammar. exact (Main_is_record_without_start r Hr).
  - apply Forall_map. eapply Forall_impl; [|exact Hall].
    intros x ((Hv & Hs & He & _) & Hy). cbv beta.
    exact (lacks_lf_line _ _ _ Hv Hy Hs He).
Qed.

Lemma main_refuses_its_own_half_record_witness :
  Main.DB_end (Main.MkDB "db.txt" (Dt.td 8 0) []) fs_empty d_mon (hm 17 30)
  = Ok (Main.MkDB "db.txt" (Dt.td 8 0) [Main.MkRecord d_mon None (Some (hm 17 30))],
        Main.save (Main.MkDB "db.txt" (Dt.td 8 0) [Main.MkRecord d_mon None (Some (hm 17 30))])
          fs_empty)
  /\ Main.load
       (Main.save (Main.MkDB "db.txt" (Dt.td 8 0) [Main.MkRecord d_mon None (Some (hm 17 30))])
          fs_empty) "db.txt"
     = ([], Raise (AssertionError "")).
Proof.
  split; [reflexivity|].
  refine (main_refuses_its_own_half_record "db.txt" (Dt.td 8 0) fs_empty []
            (Main.MkRecord d_mon None (Some (hm 17 30))) [] _ (Forall_nil _) eq_refl).
  constructor; [|constructor].
  split; [|vm_compute; discriminate].
  split; [reflexivity|]. split; [exact I|]. split; [repeat split|].
  split; [right; discriminate|].
  intros s e Hs. discriminate Hs.
Defined.

(** ** The Days and Weeks of a ledger *)

Section GroupingParts.
Context {K A G : Type}.
Variable eqb : K -> K -> bool.
Variable key : A -> K.
Variable build : K -> list A -> G.
Hypothesis eqb_eq : forall a b, eqb a b = true <-> a = b.

Lemma members_carry_key (k : K) (xs : list A) :
  Forall (fun x => key x = k) (members eqb key k xs).
Proof.
  apply Forall_forall. intros x Hx. unfold members in Hx.
  apply filter_In in Hx as [_ Hx]. now apply eqb_eq.
Qed.

Lemma members_of_seen_key (k : K) (xs : list A) :
  In k (first_seen eqb (map key xs)) -> members eqb key k xs <> [].
Proof.
  intros H. apply (proj1 (in_first_seen eqb eqb_eq _ _)) in H.
  apply in_map_iff in H as (x & Hk & Hx).
  intros E. assert (Hin : In x (members eqb key k xs)).
  { unfold members. apply filter_In. split; [exact Hx | now apply eqb_eq]. }
  rewrite E in Hin. destruct Hin.
Qed.

Lemma filter_absent (k0 : K) (l : list K) :
  ~ In k0 l -> filter (fun k' => negb (eqb k0 k')) l = l.
Proof.
  induction l as [|a l IH]; intros H; [reflexivity|]. cbn [filter].
  destruct (eqb k0 a) eqn:E.
  - apply eqb_eq in E. exfalso. apply H. now left.
  - cbn [negb]. rewrite IH; [reflexivity|]. intros H'. apply H. now right.
Qed.

Lemma concat_extract (M : K -> list A) (k0 : K) : forall l,
  NoDup l -> (~ In k0 l -> M k0 = []) ->
  Permutation (M k0 ++ List.concat (map M (filter (fun k' => negb (eqb k0 k')) l)))%list
              (List.concat (map M l)).
Proof.
  induction l as [|a l IH]; intros Hnd Habs.
  - rewrite Habs by (intros []). reflexivity.
  - inversion Hnd as [|? ? Hnotin Hnd']; subst. cbn [filter].
    destruct (eqb k0 a) eqn:E.
    + apply eqb_eq in E. subst a. cbn [negb]. rewrite (filter_absent k0 l Hnotin).
      reflexivity.
    + cbn [negb map List.concat].
      assert (Hne : k0 <> a) by (intros ->; rewrite (proj2 (eqb_eq a a) eq_refl) in E;
                                discriminate).
      rewrite Permutation_app_swap_app. apply Permutation_app_head.
      apply IH; [exact Hnd'|]. intros H. apply Habs. intros [H' | H']; [congruence | auto].
Qed.

(** The groups hold every member once. *)
Lemma concat_members (xs : list A) :
  Permutation (List.concat (map (fun k => members eqb key k xs) (first_seen eqb (map key xs)))) xs.
Proof.
  induction xs as [|x xs IH]; [reflexivity|].
  cbn [map first_seen List.concat]. unfold members at 1. cbn [filter].
  rewrite (proj2 (eqb_eq (key x) (key x)) eq_refl). cbn [app]. apply perm_skip.
  fold (members eqb key (key x) xs).
  rewrite (map_ext_in (fun k => members eqb key k (x :: xs)) (fun k => members eqb key k xs)).
  - etransitivity; [|exact IH].
    apply (concat_extract (fun k => members eqb key k xs) (key x)).
    + apply nodup_first_seen. exact eqb_eq.
    + intros H. apply (members_absent eqb key eqb_eq). intros H'. apply H.
      exact (proj2 (in_first_seen eqb eqb_eq _ _) H').
  - intros k Hk. apply filter_In in Hk as [_ Hk]. unfold members. cbn [filter].
    apply negb_true_iff in Hk. now rewrite Hk.
Qed.
End GroupingParts.

Lemma Vanilla_days_groups (db : Vanilla.DB) :
  Vanilla.days db
  = Ok (groups Dt.date_eqb Vanilla.day (fun k l => Vanilla.MkDay k (Vanilla.DB_worktime db) l)
          (Vanilla.records db)).
Proof.
  unfold Vanilla.days. rewrite Vanilla_days_loop_is_group_loop.
  apply group_loop_values; [exact date_eqb_eq|].
  intros k l a Hk. unfold Vanilla.add_record. simpl.
  now rewrite (proj2 (date_eqb_eq _ _) Hk).
Qed.

Lemma Main_weeks_groups (db : Main.DB) :
  Main.weeks db
  = Ok (groups Main.week_eqb Main.Day_week Main.MkWeek
          (groups Dt.date_eqb Main.day (fun k l => Main.MkDay k (Main.DB_baseline db) l)
             (Main.records db))).
Proof.
  unfold Main.weeks. rewrite Main_days_groups. cbn [bind].
  rewrite Main_weeks_loop_is_group_loop.
  apply group_loop_values; [exact week_eqb_eq|].
  intros k l a Hk. unfold Main.add_day. simpl.
  now rewrite (proj2 (week_eqb_eq _ _) Hk).
Qed.

(** X17.  The days view splits the ledger: its Days have pairwise different dates,
    none is empty, each holds records of its own date only and carries the
    baseline of the ledger, and together they hold every record of the ledger
    exactly once.  For [vanilla.py] the ledger is one whose days are all of
    one Python type, as they are in every ledger that [load] returns. *)
Theorem days_view_splits_the_ledger (db : Main.DB) (vdb : Vanilla.DB) :
  (exists ds, Main.days db = Ok ds
     /\ NoDup (map Main.Day_day ds)
     /\ Forall (fun d => Main.Day_records d <> []
                         /\ Main.baseline d = Main.DB_baseline db
                         /\ Forall (fun r => Main.day r = Main.Day_day d) (Main.Day_records d))
               ds
     /\ Permutation (List.concat (map Main.Day_records ds)) (Main.records db))
  /\ (exists ds, Vanilla.days vdb = Ok ds
     /\ NoDup (map Vanilla.Day_day ds)
     /\ Forall (fun d => Vanilla.Day_records d <> []
                         /\ Vanilla.worktime_reference d = Vanilla.DB_worktime vdb
                         /\ Forall (fun r => Vanilla.day r = Vanilla.Day_day d)
                                   (Vanilla.Day_records d))
               ds
     /\ Permutation (List.concat (map Vanilla.Day_records ds)) (Vanilla.records vdb)).
Proof.
  split.
  - eexists. split; [apply Main_days_groups|]. unfold groups.
    split; [|split].
    + rewrite map_map. cbn [Main.Day_day]. rewrite map_id.
      apply nodup_first_seen. exact date_eqb_eq.
    + apply Forall_map. apply Forall_forall. intros k Hk.
      cbn [Main.Day_records Main.baseline Main.Day_day].
      split; [exact (members_of_seen_key _ _ date_eqb_eq k _ Hk)|].
      split; [reflexivity|]. exact (members_carry_key _ _ date_eqb_eq k _).
    + rewrite map_map. cbn [Main.Day_records]. apply concat_members. exact date_eqb_eq.
  - eexists. split; [apply Vanilla_days_groups|]. unfold groups.
    split; [|split].
    + rewrite map_map. cbn [Vanilla.Day_day]. rewrite map_id.
      apply nodup_first_seen. exact date_eqb_eq.
    + apply Forall_map. apply Forall_forall. intros k Hk.
      cbn [Vanilla.Day_records Vanilla.worktime_reference Vanilla.Day_day].
      split; [exact (members_of_seen_key _ _ date_eqb_eq k _ Hk)|].
      split; [reflexivity|]. exact (members_carry_key _ _ date_eqb_eq k _).
    + rewrite map_map. cbn [Vanilla.Day_records]. apply concat_members. exact date_eqb_eq.
Qed.

(** X18.  The weeks view splits the Days of the days view the same way: its Weeks
    have pairwise different ISO weeks, none is empty, each holds Days of its
    own week only, and together they hold every Day exactly once.  The delta
    of each Week is its worked time minus the ledger's baseline for each of
    its Days. *)
Theorem weeks_view_splits_the_days (db : Main.DB) :
  exists ds ws, Main.days db = Ok ds /\ Main.weeks db = Ok ws
    /\ NoDup (map Main.Week_week ws)
    /\ Forall (fun w => Main.days_of w <> []
                        /\ Forall (fun d => Main.Day_week d = Main.Week_week w)
                                  (Main.days_of w)
                        /\ Main.Week_delta w
                           = match Main.Week_worktime w with
                             | Some t => Some (t - Z.of_nat (List.length (Main.days_of w))
                                                   * Main.DB_baseline db)
                             | None => None
                             end)
              ws
    /\ Permutation (List.concat (map Main.days_of ws)) ds.
Proof.
  eexists. eexists. split; [apply Main_days_groups|]. split; [apply Main_weeks_groups|].
  set (ds := groups Dt.date_eqb Main.day
               (fun k l => Main.MkDay k (Main.DB_baseline db) l) (Main.records db)).
  assert (Hb : forall d, In d ds -> Main.baseline d = Main.DB_baseline db).
  { intros d Hd. unfold ds, groups in Hd. apply in_map_iff in Hd as (k & <- & _). reflexivity. }
  unfold groups at 1 2 3. split; [|split].
  - rewrite map_map. cbn [Main.Week_week]. rewrite map_id.
    apply nodup_first_seen. exact week_eqb_eq.
  - apply Forall_map. apply Forall_forall. intros k Hk.
    cbn [Main.days_of Main.Week_week].
    split; [exact (members_of_seen_key _ _ week_eqb_eq k _ Hk)|].
    split; [exact (members_carry_key _ _ week_eqb_eq k _)|].
    rewrite Main_week_delta_eq. cbn [Main.days_of].
    rewrite (sum_constant_baselines (Main.DB_baseline db)); [reflexivity|].
    intros d Hd. apply Hb. unfold members in Hd. now apply filter_In in Hd as [Hd _].
  - rewrite map_map. cbn [Main.days_of]. apply concat_members. exact week_eqb_eq.
Qed.

(** ** The report of [vanilla.py] *)

Lemma total_cons (x : option Dt.timedelta) (l : list (option Dt.timedelta)) :
  total (x :: l)
  = match x, total l with
    | Some a, Some b => Some (a + b)
    | _, _ => None
    end.
Proof.
  unfold total. cbn [has_none existsb somes]. destruct x as [a|]; cbn [orb].
  - fold (has_none l). destruct (has_none l); [reflexivity|].
    now rewrite sum_timedeltas_cons.
  - reflexivity.
Qed.

Lemma total_append (l l' : list (option Dt.timedelta)) :
  total (l ++ l')
  = match total l, total l' with
    | Some a, Some b => Some (a + b)
    | _, _ => None
    end.
Proof. unfold total. apply total_app. Qed.

Lemma total_perm (l l' : list (option Dt.timedelta)) :
  Permutation l l' -> total l = total l'.
Proof.
  induction 1 as [|x l l' _ IH|x y l|l l' l'' _ IH1 _ IH2].
  - reflexivity.
  - now rewrite !total_cons, IH.
  - rewrite !total_cons. destruct x as [a|], y as [b|], (total l) as [c|]; try reflexivity.
    f_equal. lia.
  - now rewrite IH1.
Qed.

Lemma total_concat {D : Type} (f : D -> list (option Dt.timedelta)) (ds : list D) :
  total (map (fun d => total (f d)) ds) = total (List.concat (map f ds)).
Proof.
  induction ds as [|d ds IH]; [reflexivity|].
  cbn [map List.concat]. rewrite total_cons, total_append, IH. reflexivity.
Qed.

Lemma sum_timedeltas_of_total (l : list (option Dt.timedelta)) :
  Vanilla.sum_timedeltas_of l
  = match total l with Some w => Ok w | None => Raise TypeError end.
Proof. unfold Vanilla.sum_timedeltas_of, total. now destruct (has_none l). Qed.

Lemma Vanilla_day_deltas (ds : list Vanilla.Day) :
  total (map Vanilla.Day_delta ds)
  = match total (map Vanilla.Day_worktime ds) with
    | Some w => Some (w - sum_timedeltas (map Vanilla.worktime_reference ds))
    | None => None
    end.
Proof.
  induction ds as [|d ds IH]; [reflexivity|].
  cbn [map]. rewrite !total_cons, IH. unfold Vanilla.Day_delta.
  destruct (Vanilla.Day_worktime d) as [w|]; [|reflexivity].
  destruct (total (map Vanilla.Day_worktime ds)) as [w'|]; [|reflexivity].
  rewrite sum_timedeltas_cons. f_equal. lia.
Qed.

Lemma sum_constant_references (b : Dt.timedelta) : forall ds : list Vanilla.Day,
  (forall d, In d ds -> Vanilla.worktime_reference d = b) ->
  sum_timedeltas (map Vanilla.worktime_reference ds) = Z.of_nat (List.length ds) * b.
Proof.
  induction ds as [|d ds IH]; intros Hb; [reflexivity|].
  cbn [map List.length]. rewrite sum_timedeltas_cons, IH.
  - rewrite (Hb d) by (now left). lia.
  - intros d' Hd'. apply Hb. now right.
Qed.

(** X19.  [log] prints a line for each Day of the days view.  When every record
    has its start and its stop, it then prints the totals and returns: the
    total worked time is the sum over all records of the ledger, and the
    total delta is that sum minus the reference for each Day.  When a record
    lacks its start or its stop, the sum of the worked times meets a [None]
    and [log] ends in a [TypeError] after the lines of the Days.  The ledger
    is one whose days are all of one Python type, as [load] returns it. *)
Theorem log_prints_days_and_totals (db : Vanilla.DB) :
  exists ds, Vanilla.days db = Ok ds
    /\ match total (map Vanilla.worktime (Vanilla.records db)) with
       | Some w =>
           Vanilla.log db
           = (app (map Vanilla.Day_str ds)
                  [(NL ++ "Total: " ++ timedelta_to_text (Some w) ++ " ["
                    ++ signed_timedelta_to_text
                         (Some (w - Z.of_nat (List.length ds) * Vanilla.DB_worktime db))
                    ++ "]")%string],
              Ok tt)
       | None => Vanilla.log db = (map Vanilla.Day_str ds, Raise TypeError)
       end.
Proof.
  eexists. split; [apply Vanilla_days_groups|].
  set (ds := groups Dt.date_eqb Vanilla.day
               (fun k l => Vanilla.MkDay k (Vanilla.DB_worktime db) l) (Vanilla.records db)).
  assert (Hb : forall d, In d ds -> Vanilla.worktime_reference d = Vanilla.DB_worktime db).
  { intros d Hd. unfold ds, groups in Hd. apply in_map_iff in Hd as (k & <- & _). reflexivity. }
  assert (Hw : total (map Vanilla.Day_worktime ds)
               = total (map Vanilla.worktime (Vanilla.records db))).
  { change (map Vanilla.Day_worktime ds)
      with (map (fun d => total (map Vanilla.worktime (Vanilla.Day_records d))) ds).
    rewrite total_concat.
    rewrite <- (map_map Vanilla.Day_records (map Vanilla.worktime) ds), <- concat_map.
    apply total_perm, Permutation_map.
    unfold ds, groups. rewrite map_map. cbn [Vanilla.Day_records].
    apply concat_members. exact date_eqb_eq. }
  unfold Vanilla.log. rewrite Vanilla_days_groups. fold ds.
  rewrite !sum_timedeltas_of_total, Vanilla_day_deltas, Hw.
  destruct (total (map Vanilla.worktime (Vanilla.records db))) as [w|]; [|reflexivity].
  rewrite (sum_constant_references _ _ Hb). reflexivity.
Qed.

(** * Arguments and days of any type *)

(** ** Arguments and values of any type *)

Lemma collect_app {A B : Type} (f : A -> result B) (l l' : list A) :
  collect f (l ++ l')
  = (xs <- collect f l ;; ys <- collect f l' ;; Ok (xs ++ ys)%list).
Proof.
  induction l as [|x l IH]; cbn [app collect].
  - cbn [bind]. destruct (collect f l'); reflexivity.
  - destruct (f x) as [y|e]; cbn [bind]; [|reflexivity]. rewrite IH.
    destruct (collect f l) as [xs|e]; cbn [bind]; [|reflexivity].
    destruct (collect f l') as [ys|e]; reflexivity.
Qed.

Lemma collect_map_ok {A B C : Type} (f : B -> result C) (g : A -> B) (h : A -> C) :
  (forall a, f (g a) = Ok (h a)) -> forall l, collect f (map g l) = Ok (map h l).
Proof.
  intros H. induction l as [|a l IH]; [reflexivity|].
  cbn [map collect]. rewrite H, IH. reflexivity.
Qed.

Lemma time_to_text_any_time (t : option Dt.time) :
  time_to_text_any (option_map VTime t) = Ok (time_to_text t).
Proof. destruct t; reflexivity. Qed.

Lemma Main_text_any_validated (r : Main.record) :
  Main.text_any (Main.validated r) = Ok (Main.text r).
Proof.
  unfold Main.text_any, Main.validated. cbn [Main.end_any Main.day_any Main.start_any].
  rewrite time_to_text_any_time. reflexivity.
Qed.

Lemma Vanilla_text_any_loaded (r : Vanilla.record) :
  Vanilla.text_any (Vanilla.loaded r) = Ok (Vanilla.text r).
Proof.
  unfold Vanilla.text_any, Vanilla.loaded.
  cbn [Vanilla.day_any Vanilla.start_any Vanilla.stop_any].
  rewrite !time_to_text_any_time. reflexivity.
Qed.

Lemma Vanilla_text_any_typed (a : Vanilla.record_any) (r : Vanilla.record) :
  typed a = Some r -> Vanilla.text_any a = Ok (Vanilla.text r).
Proof.
  destruct a as [d [[s|s]|] [[e|e]|]]; cbn; intros H; try discriminate;
    injection H as <-; reflexivity.
Qed.

Lemma collect_typed : forall rs_any rs,
  typed_ledger rs_any rs -> collect Vanilla.text_any rs_any = Ok (map Vanilla.text rs).
Proof.
  unfold typed_ledger. induction rs_any as [|a l IH]; intros [|r rs] H; try discriminate.
  - reflexivity.
  - cbn [map] in H. injection H as Ha Hl. cbn [collect map].
    rewrite (Vanilla_text_any_typed a r Ha), (IH rs Hl). reflexivity.
Qed.

Lemma typed_ledger_app (l l' : list Vanilla.record_any) (rs rs' : list Vanilla.record) :
  typed_ledger l rs -> typed_ledger l' rs' -> typed_ledger (l ++ l') (rs ++ rs').
Proof. unfold typed_ledger. intros H H'. now rewrite !map_app, H, H'. Qed.

Lemma typed_ledger_snoc_inv (l : list Vanilla.record_any) (rs : list Vanilla.record)
    (r : Vanilla.record) :
  typed_ledger l (rs ++ [r]) ->
  exists l0 a, l = (l0 ++ [a])%list /\ typed_ledger l0 rs /\ typed a = Some r.
Proof.
  unfold typed_ledger. intros H. destruct l as [|a0 l0] using rev_ind.
  - destruct rs; discriminate.
  - clear IHl0. rewrite !map_app in H. cbn [map] in H.
    apply app_inj_tail in H as [H1 H2]. exists l0, a0. repeat split; assumption.
Qed.

Lemma typed_ledger_length (l : list Vanilla.record_any) (rs : list Vanilla.record) :
  typed_ledger l rs -> List.length l = List.length rs.
Proof.
  unfold typed_ledger. intros H. apply (f_equal (@List.length _)) in H.
  now rewrite !length_map in H.
Qed.

(** On a [dt.time] the methods of [main.py] on any argument are [DB_start]
    and [DB_end]. *)
Lemma Main_any_on_a_time
    (validate_time : string -> result Dt.time) (db : Main.DB) (f : fs) (today : Dt.date)
    (t : Dt.time) :
  Main.DB_start_any validate_time (validated_db db) f today (VTime t)
  = match Main.DB_start db f today t with
    | Ok (db', f') => (f', Ok (validated_db db'))
    | Raise e => (f, Raise e)
    end
  /\ Main.DB_end_any validate_time (validated_db db) f today (VTime t)
     = match Main.DB_end db f today t with
       | Ok (db', f') => (f', Ok (validated_db db'))
       | Raise e => (f, Raise e)
       end.
Proof.
  destruct db as [p b rs]. unfold validated_db. cbn [Main.path Main.DB_baseline Main.records].
  assert (S : forall rs', Main.saved (Main.MkDB_any p b (map Main.validated rs')) f
                          = (Main.save (Main.MkDB p b rs') f,
                             Ok (Main.MkDB_any p b (map Main.validated rs')))).
  { intros rs'. unfold Main.saved, Main.save_any, Main.save.
    cbn [Main.records_any Main.path_any Main.path Main.records].
    rewrite (collect_map_ok Main.text_any Main.validated Main.text Main_text_any_validated).
    reflexivity. }
  assert (S' : forall l rs', l = map Main.validated rs' ->
                 Main.saved (Main.MkDB_any p b l) f
                 = (Main.save (Main.MkDB p b rs') f, Ok (Main.MkDB_any p b l))).
  { intros l rs' ->. apply S. }
  split.
  - unfold Main.DB_start_any, Main.DB_start.
    cbn [Main.as_time bind Main.Record_ Main.check_either_start_or_end
           Main.check_start_before_end Main.start Main.end_
           Main.path_any Main.baseline_any Main.records_any
           Main.path Main.DB_baseline Main.records].
    rewrite map_app. apply S'. now rewrite map_app.
  - unfold Main.DB_end_any, Main.DB_end, Main.empty_any, Main.empty, Main.last_any, Main.last,
      Main.empty_any, Main.empty.
    cbn [Main.records_any Main.records Main.path_any Main.baseline_any
           Main.path Main.DB_baseline]. rewrite length_map.
    destruct rs as [|r0 rs0] using rev_ind.
    + exact (S [Main.MkRecord today None (Some t)]).
    + clear IHrs0. rewrite length_snoc_eqb. cbn [negb assert bind].
      rewrite map_app, !rev_app_distr. cbn [map rev app].
      destruct r0 as [d s [e|]]; cbn [Main.validated Main.end_any Main.end_ option_map bind
                                        Main.as_time Main.Record_
                                        Main.check_either_start_or_end
                                        Main.check_start_before_end Main.start].
      * cbn [Main.path Main.DB_baseline Main.records]. rewrite !map_app.
        apply S'. now rewrite !map_app.
      * unfold Main.set_last_end_any, Main.set_last_end.
        rewrite !rev_app_distr. cbn [rev app Main.day_any Main.start_any Main.day Main.start].
        rewrite !rev_involutive.
        cbn [Main.path Main.DB_baseline Main.records Main.validated Main.day_any
               Main.start_any]. rewrite map_app.
        apply S'. now rewrite map_app.
Qed.

Lemma Vanilla_saved_typed (p : string) (b : Dt.timedelta) (f : fs)
    (l : list Vanilla.record_any) (rs : list Vanilla.record) :
  typed_ledger l rs ->
  Vanilla.saved (Vanilla.MkDB_any p b l) f
  = (Vanilla.save (Vanilla.MkDB p b rs) f, Ok (Vanilla.MkDB_any p b l)).
Proof.
  intros H. unfold Vanilla.saved, Vanilla.save_any, Vanilla.save.
  cbn [Vanilla.records_any Vanilla.path_any Vanilla.path Vanilla.records].
  rewrite (collect_typed l rs H). reflexivity.
Qed.

(** On a [dt.time], and on a ledger without a [str] in it, the methods of
    [vanilla.py] on any argument do what [DB_start] and [DB_stop] do,
    whichever of the two types the days have. *)
Lemma Vanilla_any_on_a_time
    (p : string) (b : Dt.timedelta) (f : fs) (today : Dt.date) (t : Dt.time)
    (l : list Vanilla.record_any) (rs : list Vanilla.record) :
  typed_ledger l rs ->
  (forall db' f', Vanilla.DB_start (Vanilla.MkDB p b rs) f today t = Ok (db', f') ->
     exists l', Vanilla.DB_start_any (Vanilla.MkDB_any p b l) f today (VTime t)
                = (f', Ok (Vanilla.MkDB_any p b l'))
                /\ typed_ledger l' (Vanilla.records db'))
  /\ (forall db' f', Vanilla.DB_stop (Vanilla.MkDB p b rs) f today t = Ok (db', f') ->
     exists l', Vanilla.DB_stop_any (Vanilla.MkDB_any p b l) f today (VTime t)
                = (f', Ok (Vanilla.MkDB_any p b l'))
                /\ typed_ledger l' (Vanilla.records db')).
Proof.
  intros H. split; intros db' f' E.
  - unfold Vanilla.DB_start in E. cbn [Vanilla.Record_ assert bind] in E.
    cbn [Vanilla.path Vanilla.DB_worktime Vanilla.records] in E. injection E as <- <-.
    exists (l ++ [Vanilla.MkRecord_any (VDate today) (Some (VTime t)) None])%list.
    assert (T : typed_ledger (l ++ [Vanilla.MkRecord_any (VDate today) (Some (VTime t)) None])
                  (rs ++ [Vanilla.MkRecord today (Some t) None])).
    { apply typed_ledger_app; [exact H | reflexivity]. }
    split; [|exact T].
    unfold Vanilla.DB_start_any. cbn [Vanilla.Record_any assert bind].
    cbn [Vanilla.path_any Vanilla.worktime_any Vanilla.records_any].
    exact (Vanilla_saved_typed p b f _ _ T).
  - unfold Vanilla.DB_stop, Vanilla.empty, Vanilla.last, Vanilla.empty in E.
    cbn [Vanilla.path Vanilla.DB_worktime Vanilla.records] in E.
    unfold Vanilla.DB_stop_any, Vanilla.empty_any, Vanilla.last_any, Vanilla.empty_any.
    cbn [Vanilla.path_any Vanilla.worktime_any Vanilla.records_any].
    rewrite (typed_ledger_length l rs H).
    destruct rs as [|r0 rs0] using rev_ind.
    + destruct l; [|discriminate H].
      cbn in E. injection E as <- <-.
      exists [Vanilla.MkRecord_any (VDate today) None (Some (VTime t))].
      split; [|reflexivity].
      assert (T : typed_ledger [Vanilla.MkRecord_any (VDate today) None (Some (VTime t))]
                    [Vanilla.MkRecord today None (Some t)]) by reflexivity.
      cbn [List.length Nat.eqb Vanilla.Record_any assert bind app].
      exact (Vanilla_saved_typed p b f _ _ T).
    + clear IHrs0. destruct (typed_ledger_snoc_inv l rs0 r0 H) as (l0 & a & -> & H0 & Ha).
      rewrite length_snoc_eqb in *. cbn [negb assert bind] in *.
      rewrite !rev_app_distr in *. cbn [rev app] in *.
      destruct a as [ad ast asp], r0 as [d s e]. unfold typed in Ha.
      cbn [Vanilla.start_any Vanilla.stop_any Vanilla.day_any] in Ha.
      destruct (as_time_field ast) as [s'|] eqn:Es; [|discriminate].
      destruct (as_time_field asp) as [e'|] eqn:Ee; [|discriminate].
      injection Ha as Hd -> ->. cbn [Vanilla.stop Vanilla.stop_any] in *.
      destruct asp as [[te|te]|]; cbn [as_time_field] in Ee; try discriminate;
        injection Ee as <-.
      * cbn [bind Vanilla.Record_ assert] in E. injection E as <- <-.
        cbn [Vanilla.records]. eexists. split.
        -- cbn [Vanilla.Record_any assert bind].
           apply Vanilla_saved_typed.
           apply typed_ledger_app; [exact H | reflexivity].
        -- apply typed_ledger_app; [exact H | reflexivity].
      * cbn [bind] in E. injection E as <- <-. cbn [Vanilla.records].
        unfold Vanilla.set_last_stop_any, Vanilla.set_last_stop.
        rewrite !rev_app_distr. cbn [rev app]. rewrite !rev_involutive.
        cbn [Vanilla.day_any Vanilla.start_any Vanilla.day Vanilla.start].
        assert (T : typed_ledger (l0 ++ [Vanilla.MkRecord_any ad ast (Some (VTime t))])
                      (rs0 ++ [Vanilla.MkRecord d s (Some t)])).
        { apply typed_ledger_app; [exact H0|]. unfold typed_ledger, typed.
          cbn [map Vanilla.start_any Vanilla.stop_any Vanilla.day_any as_time_field].
          rewrite Es, Hd. reflexivity. }
        eexists. split; [apply (Vanilla_saved_typed p b f _ _ T) | exact T].
Qed.

Lemma collect_fails_at_the_end {A B : Type} (f : A -> result B) (l : list A) (x : A)
    (ys : list B) (e : exn) :
  collect f l = Ok ys -> f x = Raise e -> collect f (l ++ [x]) = Raise e.
Proof.
  intros Hl Hx. rewrite collect_app, Hl. cbn [bind collect]. now rewrite Hx.
Qed.

(** C2.  The commands pass the text of the command line to [start], [end]
    and [stop] as it is, and the methods store it unparsed where no
    constructor of [main.py] validates it.  In [main.py], [end] with a text
    on a ledger whose last record is open assigns the text to the field
    [end]; in [vanilla.py], [start] and [stop] with a text keep it in the
    record, on every ledger.  [save] then fails on the text, which has no
    [strftime]: the operation ends in an [AttributeError] and leaves the
    ledger file empty.  So [end("17:00")] on the open record of 09:00 does
    not give the record of 09:00 to 17:00. *)
Theorem C2_text_time_is_stored_unparsed
    (validate_time : string -> result Dt.time)
    (p : string) (b : Dt.timedelta) (f : fs) (today d : Dt.date) (s : option Dt.time)
    (text : string) :
  (forall rs,
      Main.DB_end_any validate_time
        (validated_db (Main.MkDB p b (rs ++ [Main.MkRecord d s None]))) f today (VStr text)
      = (fs_write f p EmptyString, Raise AttributeError))
  /\ (forall rs,
      Vanilla.DB_start_any (Vanilla.MkDB_any p b (map Vanilla.loaded rs)) f today (VStr text)
      = (fs_write f p EmptyString, Raise AttributeError))
  /\ (forall rs,
      Vanilla.DB_stop_any (Vanilla.MkDB_any p b (map Vanilla.loaded rs)) f today (VStr text)
      = (fs_write f p EmptyString, Raise AttributeError)).
Proof.
  assert (V : forall (l : list Vanilla.record_any) rs (x : Vanilla.record_any),
             l = map Vanilla.loaded rs ->
             Vanilla.text_any x = Raise AttributeError ->
             Vanilla.saved (Vanilla.MkDB_any p b (l ++ [x])) f
             = (fs_write f p EmptyString, Raise AttributeError)).
  { intros l rs x -> Hx. unfold Vanilla.saved, Vanilla.save_any.
    cbn [Vanilla.records_any Vanilla.path_any].
    rewrite (collect_fails_at_the_end Vanilla.text_any _ x (map Vanilla.text rs)
               AttributeError); [reflexivity | | exact Hx].
    apply collect_map_ok. exact Vanilla_text_any_loaded. }
  split; [|split]; intros rs.
  - unfold validated_db, Main.DB_end_any, Main.empty_any, Main.last_any, Main.empty_any.
    cbn [Main.path Main.DB_baseline Main.records Main.records_any Main.path_any
           Main.baseline_any].
    rewrite map_app. cbn [map]. rewrite length_snoc_eqb. cbn [negb assert bind].
    rewrite rev_app_distr. cbn [rev app Main.validated Main.end_ option_map Main.end_any bind].
    unfold Main.set_last_end_any. rewrite rev_app_distr. cbn [rev app].
    rewrite rev_involutive. cbn [Main.day_any Main.start_any Main.day Main.start].
    unfold Main.saved, Main.save_any. cbn [Main.records_any Main.path_any].
    rewrite (collect_fails_at_the_end Main.text_any _ _ (map Main.text rs) AttributeError);
      [reflexivity | | reflexivity].
    apply collect_map_ok. exact Main_text_any_validated.
  - unfold Vanilla.DB_start_any. cbn [Vanilla.Record_any assert bind].
    cbn [Vanilla.path_any Vanilla.worktime_any Vanilla.records_any].
    apply (V _ rs); reflexivity.
  - unfold Vanilla.DB_stop_any, Vanilla.empty_any, Vanilla.last_any, Vanilla.empty_any.
    cbn [Vanilla.path_any Vanilla.worktime_any Vanilla.records_any].
    destruct rs as [|r0 rs0] using rev_ind.
    + cbn [map List.length Nat.eqb Vanilla.Record_any assert bind].
      apply (V [] []); reflexivity.
    + clear IHrs0. rewrite map_app. cbn [map]. rewrite length_snoc_eqb.
      cbn [negb assert bind]. rewrite rev_app_distr. cbn [rev app bind].
      destruct r0 as [d0 s0 [e0|]]; cbn [Vanilla.loaded Vanilla.stop Vanilla.stop_any
                                            option_map Vanilla.Record_any assert bind].
      * apply (V _ (rs0 ++ [Vanilla.MkRecord d0 s0 (Some e0)])%list); [|reflexivity].
        now rewrite map_app.
      * unfold Vanilla.set_last_stop_any. rewrite rev_app_distr. cbn [rev app].
        rewrite rev_involutive. cbn [Vanilla.day_any Vanilla.start_any Vanilla.day].
        apply (V _ rs0); [reflexivity|]. unfold Vanilla.text_any.
        cbn [Vanilla.start_any Vanilla.stop_any Vanilla.day_any Vanilla.start].
        destruct s0; reflexivity.
Qed.

(** ** Days of either type as keys *)

Lemma dayval_eqb_eq (a b : dayval) : dayval_eqb a b = true <-> a = b.
Proof.
  destruct a as [x|x], b as [y|y]; cbn [dayval_eqb]; rewrite ?date_eqb_eq;
    split; intros H; try discriminate; try (injection H as ->); subst; reflexivity.
Qed.

Section GroupingNewKey.
Context {K A G : Type}.
Variable eqb : K -> K -> bool.
Variable key : A -> K.
Variable build : K -> list A -> G.
Hypothesis eqb_eq : forall a b, eqb a b = true <-> a = b.

(** A member with a key that was not seen opens a group of its own, after
    the groups there are. *)
Lemma groups_new_key (xs : list A) (x : A) :
  ~ In (key x) (map key xs) ->
  groups eqb key build (xs ++ [x]) = (groups eqb key build xs ++ [build (key x) [x]])%list.
Proof.
  intros Hnew. unfold groups. rewrite map_app. cbn [map]. rewrite first_seen_snoc.
  assert (E : existsb (fun k' => eqb k' (key x)) (map key xs) = false).
  { destruct (existsb _ (map key xs)) eqn:E; [|reflexivity].
    apply (existsb_key eqb eqb_eq) in E. contradiction. }
  rewrite E, map_app. cbn [map]. f_equal.
  - apply map_ext_in. intros k Hk. rewrite members_snoc.
    destruct (eqb (key x) k) eqn:E'; [|now rewrite app_nil_r].
    apply eqb_eq in E'. subst k. apply (proj1 (in_first_seen eqb eqb_eq _ _)) in Hk.
    contradiction.
  - rewrite members_snoc, (proj2 (eqb_eq _ _) eq_refl).
    now rewrite (members_absent eqb key eqb_eq _ _ Hnew).
Qed.

Lemma in_groups (xs : list A) (x : A) :
  In x xs ->
  In (build (key x) (members eqb key (key x) xs)) (groups eqb key build xs)
  /\ In x (members eqb key (key x) xs).
Proof.
  intros Hx. split.
  - unfold groups. apply in_map_iff. exists (key x). split; [reflexivity|].
    apply (proj2 (in_first_seen eqb eqb_eq _ _)). now apply in_map.
  - unfold members. apply filter_In. split; [exact Hx | now apply eqb_eq].
Qed.
End GroupingNewKey.

Lemma Vanilla_days_loop_any_is_group_loop (b : Dt.timedelta) : forall rs d,
  Vanilla.days_loop_any b rs d
  = group_loop dayval_eqb Vanilla.day_any (fun k l => Vanilla.MkDay_any k b l)
      Vanilla.add_record_any rs d.
Proof. induction rs as [|r rs IH]; intros d; [reflexivity | same_loop IH]. Qed.

(** The days view of [vanilla.py] on the values the code stores: the
    grouping of the records by their day as Python compares days. *)
Lemma Vanilla_days_any_groups (db : Vanilla.DB_any) :
  Vanilla.days_any db
  = Ok (groups dayval_eqb Vanilla.day_any
          (fun k l => Vanilla.MkDay_any k (Vanilla.worktime_any db) l)
          (Vanilla.records_any db)).
Proof.
  unfold Vanilla.days_any. rewrite Vanilla_days_loop_any_is_group_loop.
  apply group_loop_values; [exact dayval_eqb_eq|].
  intros k l a Hk. unfold Vanilla.add_record_any. simpl.
  now rewrite (proj2 (dayval_eqb_eq _ _) Hk).
Qed.

Lemma Vanilla_load_any_loaded (f : fs) (p : string) (out : list string)
    (records : list Vanilla.record_any) :
  Vanilla.load_any f p = (out, Ok records) ->
  exists rs, Vanilla.load f p = (out, Ok rs) /\ records = map Vanilla.loaded rs.
Proof.
  unfold Vanilla.load_any. destruct (Vanilla.load f p) as [out' [rs|e]]; cbn [bind].
  - intros H. injection H as <- <-. exists rs. split; reflexivity.
  - discriminate.
Qed.

(** C6.  In [vanilla.py] the days view does not group by calendar date.  The
    day of a record that [load] read is the [datetime] that [text_to_date]
    returns, the day of a record that [start] makes is the [date] of
    [today()], and the two are never equal as keys of the [dict].  So on a
    loaded ledger to which [start] has added a record, the days view ends
    with a Day that holds the new record alone, and every loaded record of
    today's date is in another Day, of the same calendar date. *)
Theorem C6_vanilla_days_split_a_date
    (f : fs) (p : string) (b : Dt.timedelta) (out : list string)
    (records : list Vanilla.record_any) (today : Dt.date) (t : Dt.time) :
  Vanilla.load_any f p = (out, Ok records) ->
  let started := Vanilla.MkRecord_any (VDate today) (Some (VTime t)) None in
  let db' := Vanilla.MkDB_any p b (records ++ [started]) in
  exists ds,
    Vanilla.days_any (Vanilla.MkDB_any p b records) = Ok ds
    /\ snd (Vanilla.DB_start_any (Vanilla.MkDB_any p b records) f today (VTime t)) = Ok db'
    /\ Vanilla.days_any db' = Ok (ds ++ [Vanilla.MkDay_any (VDate today) b [started]])%list
    /\ (forall r, In r records -> date_of (Vanilla.day_any r) = today ->
          exists d, In d ds /\ Vanilla.Day_day_any d = VDatetime today
                    /\ In r (Vanilla.Day_records_any d)).
Proof.
  intros Hload started db'.
  destruct (Vanilla_load_any_loaded f p out records Hload) as (rs & _ & ->).
  eexists. split; [apply Vanilla_days_any_groups|].
  cbn [Vanilla.worktime_any Vanilla.records_any]. split; [|split].
  - unfold Vanilla.DB_start_any. cbn [Vanilla.Record_any assert bind].
    cbn [Vanilla.path_any Vanilla.worktime_any Vanilla.records_any].
    unfold Vanilla.saved, Vanilla.save_any. cbn [Vanilla.records_any Vanilla.path_any].
    rewrite collect_app, (collect_map_ok _ _ _ Vanilla_text_any_loaded). reflexivity.
  - rewrite Vanilla_days_any_groups. unfold db'.
    cbn [Vanilla.worktime_any Vanilla.records_any]. f_equal.
    apply (groups_new_key dayval_eqb Vanilla.day_any (fun k l => Vanilla.MkDay_any k b l)
             dayval_eqb_eq (map Vanilla.loaded rs) started).
    rewrite map_map. intros H. apply in_map_iff in H as (r & Hr & _). discriminate Hr.
  - intros r Hr Hd. apply in_map_iff in Hr as (r0 & <- & Hr0).
    cbn [Vanilla.loaded Vanilla.day_any date_of] in Hd. subst today.
    destruct (in_groups dayval_eqb Vanilla.day_any
                (fun k l => Vanilla.MkDay_any k b l) dayval_eqb_eq
                (map Vanilla.loaded rs) (Vanilla.loaded r0)) as [H1 H2].
    { now apply in_map. }
    eexists. split; [exact H1|]. split; [reflexivity | exact H2].
Qed.

Lemma C6_vanilla_days_split_a_date_witness :
  let f := fs_write fs_empty "db.txt" "Mon 2024-01-15 09:00 12:00" in
  let r := Vanilla.MkRecord_any (VDatetime d_mon) (Some (VTime (hm 9 0)))
             (Some (VTime (hm 12 0))) in
  let started := Vanilla.MkRecord_any (VDate d_mon) (Some (VTime (hm 13 0))) None in
  Vanilla.load_any f "db.txt" = ([], Ok [r])
  /\ exists ds,
       Vanilla.days_any (Vanilla.MkDB_any "db.txt" (Dt.td 8 0) [r]) = Ok ds
       /\ Vanilla.days_any (Vanilla.MkDB_any "db.txt" (Dt.td 8 0) [r; started])
          = Ok (ds ++ [Vanilla.MkDay_any (VDate d_mon) (Dt.td 8 0) [started]])%list
       /\ exists d, In d ds /\ Vanilla.Day_day_any d = VDatetime d_mon
                    /\ In r (Vanilla.Day_records_any d).
Proof.
  intros f r started. split; [reflexivity|].
  destruct (C6_vanilla_days_split_a_date f "db.txt" (Dt.td 8 0) [] [r] d_mon (hm 13 0)
              eq_refl) as (ds & H1 & _ & H3 & H4).
  exists ds. split; [exact H1 | split; [exact H3|]].
  apply (H4 r); [now left | reflexivity].
Defined.

Lemma filter_datetimes (k : Dt.date) (l : list Dt.date) :
  filter (fun k' => negb (dayval_eqb (VDatetime k) k')) (map VDatetime l)
  = map VDatetime (filter (fun k' => negb (Dt.date_eqb k k')) l).
Proof.
  induction l as [|a l IH]; [reflexivity|]. cbn [map filter].
  change (dayval_eqb (VDatetime k) (VDatetime a)) with (Dt.date_eqb k a).
  destruct (Dt.date_eqb k a); cbn [negb map]; now rewrite IH.
Qed.

Lemma first_seen_datetimes (ks : list Dt.date) :
  first_seen dayval_eqb (map VDatetime ks) = map VDatetime (first_seen Dt.date_eqb ks).
Proof.
  induction ks as [|k ks IH]; [reflexivity|].
  cbn [map first_seen]. rewrite IH. f_equal. apply filter_datetimes.
Qed.

Lemma members_loaded (k : Dt.date) (rs : list Vanilla.record) :
  members dayval_eqb Vanilla.day_any (VDatetime k) (map Vanilla.loaded rs)
  = map Vanilla.loaded (members Dt.date_eqb Vanilla.day k rs).
Proof.
  unfold members. induction rs as [|r rs IH]; [reflexivity|]. cbn [map filter].
  change (dayval_eqb (Vanilla.day_any (Vanilla.loaded r)) (VDatetime k))
    with (Dt.date_eqb (Vanilla.day r) k).
  destruct (Dt.date_eqb (Vanilla.day r) k); cbn [map]; now rewrite IH.
Qed.

(** On a ledger as [load] returns it, the days view of the code is the one
    of [Vanilla.days], Day by Day: there all days are [datetime]s, which are
    equal when their dates are. *)
Lemma Vanilla_days_of_a_loaded_ledger (p : string) (b : Dt.timedelta)
    (rs : list Vanilla.record) :
  Vanilla.days_any (Vanilla.MkDB_any p b (map Vanilla.loaded rs))
  = (ds <- Vanilla.days (Vanilla.MkDB p b rs) ;; Ok (map loaded_day ds)).
Proof.
  rewrite Vanilla_days_any_groups, Vanilla_days_groups. cbn [bind]. f_equal.
  cbn [Vanilla.worktime_any Vanilla.records_any Vanilla.DB_worktime Vanilla.records].
  unfold groups. rewrite !map_map.
  rewrite (map_ext (fun r => Vanilla.day_any (Vanilla.loaded r))
                   (fun r => VDatetime (Vanilla.day r))) by reflexivity.
  rewrite <- (map_map Vanilla.day VDatetime), first_seen_datetimes, map_map.
  apply map_ext. intros k. unfold loaded_day.
  cbn [Vanilla.Day_day Vanilla.worktime_reference Vanilla.Day_records].
  now rewrite members_loaded.
Qed.
